(** * Denuncias: the rule-based analysis engine [AgenteIAMejorado]

    A shallow embedding of [src/agente_ia_simple/agente_ia_mejorado.py]
    (and of the input guard of [src/agente_ia_simple/gestor.py]), with the
    properties of the analysis pipeline proved about it.

    Conventions of the embedding
    - a Python [str] is a list of Unicode code points ([text]);
    - the Unicode character database that CPython consults ([str.lower],
      [str.isupper], [str.split], the classes of [re]) is a parameter, the
      class [Unicode]; the theorems hold for every such database;
    - Python [float] arithmetic is modelled by exact rationals ([Q]): every
      constant of the engine is a short decimal fraction;
    - [datetime.now().isoformat()] is an input read from the environment;
    - [list(set(xs))] enumerates in an order fixed by the running
      interpreter, the parameter [set_to_list]. *)

From Stdlib Require Import List NArith ZArith QArith Qround Qabs Bool Lia Lqa String Ascii.
From Stdlib Require Import Permutation Sorted.
From Stdlib Require DecimalString.
Import ListNotations.

Local Open Scope N_scope.

(** ** Python strings *)

(** A [str] value: a sequence of code points. *)
Definition text := list N.

Definition text_eqb (a b : text) : bool :=
  if list_eq_dec N.eq_dec a b then true else false.

(** Source literals are written as UTF-8 strings and decoded to code
    points. *)
Fixpoint utf8_decode (bs : list N) : text :=
  match bs with
  | [] => []
  | b0 :: r0 =>
    if b0 <? 192 then b0 :: utf8_decode r0
    else match r0 with
    | [] => [b0]
    | b1 :: r1 =>
      if b0 <? 224 then ((b0 - 192) * 64 + (b1 - 128)) :: utf8_decode r1
      else match r1 with
      | [] => [b0]
      | b2 :: r2 =>
        if b0 <? 240
        then ((b0 - 224) * 4096 + (b1 - 128) * 64 + (b2 - 128)) :: utf8_decode r2
        else match r2 with
        | [] => [b0]
        | b3 :: r3 =>
          ((b0 - 240) * 262144 + (b1 - 128) * 4096 + (b2 - 128) * 64 + (b3 - 128))
            :: utf8_decode r3
        end
      end
    end
  end.

Definition T (s : string) : text :=
  utf8_decode (map N_of_ascii (list_ascii_of_string s)).
Arguments T s%_string.

(** The tables of the Unicode character database, as CPython reads them.
    The laws say only that U+0020 SPACE is an isolated, caseless,
    non-word whitespace character. *)
Class Unicode := {
  to_lower_full : N -> list N;      (* _PyUnicode_ToLowerFull *)
  is_cased : N -> bool;             (* _PyUnicode_IsCased *)
  is_case_ignorable : N -> bool;    (* _PyUnicode_IsCaseIgnorable *)
  is_upper : N -> bool;             (* Py_UNICODE_ISUPPER *)
  is_lower : N -> bool;             (* Py_UNICODE_ISLOWER *)
  is_title : N -> bool;             (* Py_UNICODE_ISTITLE *)
  is_space : N -> bool;             (* Py_UNICODE_ISSPACE, also \s *)
  is_decimal : N -> bool;           (* \d *)
  is_word : N -> bool;              (* \w: alphanumeric or underscore *)
  sre_lower : N -> N;               (* _sre.unicode_tolower *)
  sre_iscased : N -> bool;          (* _sre.unicode_iscased *)
  sre_fixes : N -> list N;          (* sre_compile._equivalences, by lower case *)
  space_lower : to_lower_full 32 = [32];
  space_cased : is_cased 32 = false;
  space_ignorable : is_case_ignorable 32 = false;
  space_space : is_space 32 = true;
  space_word : is_word 32 = false;
  space_sre_lower : forall c, sre_lower c = 32 <-> c = 32;
  space_fixes : forall c, ~ In 32 (sre_fixes c)
}.

(** *** Operations that do not consult the character database *)

(** [s.startswith(p)] *)
Fixpoint starts_with (p s : text) : bool :=
  match p, s with
  | [], _ => true
  | _ :: _, [] => false
  | a :: p', b :: s' => (a =? b) && starts_with p' s'
  end.

(** [p in s] *)
Fixpoint str_in (p s : text) : bool :=
  starts_with p s || match s with [] => false | _ :: s' => str_in p s' end.

(** [s.count(p)]: occurrences found left to right, without overlap;
    [skip] characters of the last occurrence are still to be passed. *)
Fixpoint count_from (p s : text) (skip : nat) : nat :=
  match s with
  | [] => 0
  | _ :: s' =>
    match skip with
    | S k => count_from p s' k
    | O => if starts_with p s
           then S (count_from p s' (List.length p - 1)%nat)
           else count_from p s' 0
    end
  end.

Definition str_count (p s : text) : nat :=
  match p with
  | [] => S (List.length s)
  | _ :: _ => count_from p s 0
  end.

(** [s.replace(a, b)] for one-character [a] and [b] *)
Definition str_replace (a b : N) (s : text) : text :=
  map (fun c => if c =? a then b else c) s.

(** [str(n)] for a non-negative [int] *)
Definition str_of_nat (n : nat) : text :=
  T (DecimalString.NilZero.string_of_uint (Nat.to_uint n)).

(** [x in xs] for a list of strings *)
Definition text_mem (x : text) (xs : list text) : bool := existsb (text_eqb x) xs.

Section PyStr.
Context {U : Unicode}.

(** *** [str.lower] (CPython [do_lower], with the final-sigma rule) *)

Fixpoint first_not_ignorable (s : text) : option N :=
  match s with
  | [] => None
  | c :: s' => if is_case_ignorable c then first_not_ignorable s' else Some c
  end.

(** [before] is the text to the left of the sigma, nearest character
    first; [after] the text to its right. *)
Definition handle_capital_sigma (before after : text) : N :=
  let final_sigma :=
    match first_not_ignorable before with
    | Some c => is_cased c
    | None => false
    end in
  let final_sigma :=
    if final_sigma
    then match first_not_ignorable after with
         | Some c => negb (is_cased c)
         | None => true
         end
    else false in
  if final_sigma then 962 else 963.

Fixpoint do_lower (before rest : text) : text :=
  match rest with
  | [] => []
  | c :: r =>
    (if c =? 931 then [handle_capital_sigma before r] else to_lower_full c)
      ++ do_lower (c :: before) r
  end.

Definition str_lower (s : text) : text := do_lower [] s.

(** *** [str.isupper] *)

Fixpoint isupper_loop (s : text) (cased : bool) : bool :=
  match s with
  | [] => cased
  | c :: s' =>
    if is_lower c || is_title c then false
    else isupper_loop s' (cased || is_upper c)
  end.

Definition str_isupper (s : text) : bool :=
  match s with
  | [c] => is_upper c
  | _ => isupper_loop s false
  end.

(** *** [str.split()] on runs of whitespace; [cur] is the word being
    read, last character first. *)
Fixpoint split_loop (s cur : text) : list text :=
  match s with
  | [] => match cur with [] => [] | _ :: _ => [rev cur] end
  | c :: s' =>
    if is_space c
    then match cur with
         | [] => split_loop s' []
         | _ :: _ => rev cur :: split_loop s' []
         end
    else split_loop s' (c :: cur)
  end.

Definition str_split (s : text) : list text := split_loop s [].

(** [s.strip()] *)
Fixpoint lstrip (s : text) : text :=
  match s with
  | c :: s' => if is_space c then lstrip s' else s
  | [] => []
  end.

Definition str_strip (s : text) : text := rev (lstrip (rev (lstrip s))).

End PyStr.

(** ** Regular expressions: the fragment of [re] the engine uses

    Literals, alternation, capturing groups, [\b], and the classes [\s],
    [\d] and [[...]] with the quantifiers [*], [+], [?] and [{m,n}]. *)

Inductive cclass :=
| CSpace                     (* \s *)
| CDigit                     (* \d *)
| CSet (cs : list N).        (* [...] of literal characters *)

Inductive regex :=
| Eps
| Chr (c : N)
| Cls (k : cclass)
| Rep (k : cclass) (lo : nat) (hi : option nat)    (* greedy k{lo,hi} *)
| Seq (r1 r2 : regex)
| Alt (r1 r2 : regex)
| Grp (i : nat) (r : regex)                        (* i-th capturing group *)
| WordB.                                           (* \b *)

(** *** [re.compile]: from the pattern text to the syntax tree *)

Module ReParse.

Fixpoint read_nat (s : text) (acc : nat) : nat * text :=
  match s with
  | c :: s' =>
    if (48 <=? c) && (c <=? 57)
    then read_nat s' (10 * acc + N.to_nat (c - 48))%nat
    else (acc, s)
  | [] => (acc, s)
  end.

(** An optional quantifier at the head of [s]. *)
Definition quantifier (s : text) : option (option (nat * option nat) * text) :=
  match s with
  | 42 :: s' => Some (Some (0%nat, None), s')              (* * *)
  | 43 :: s' => Some (Some (1%nat, None), s')              (* + *)
  | 63 :: s' => Some (Some (0%nat, Some 1%nat), s')        (* ? *)
  | 123 :: s' =>                                           (* {m,n} or {m} *)
    let (m, s1) := read_nat s' 0 in
    match s1 with
    | 44 :: s2 =>
      let (n, s3) := read_nat s2 0 in
      match s3 with
      | 125 :: s4 => Some (Some (m, Some n), s4)
      | _ => None
      end
    | 125 :: s2 => Some (Some (m, Some m), s2)
    | _ => None
    end
  | _ => Some (None, s)
  end.

(** The members of a set, up to the closing bracket; a hyphen is literal
    only in last place, and escapes and negation are not in the fragment. *)
Fixpoint read_set (s : text) (acc : list N) : option (list N * text) :=
  match s with
  | [] => None
  | 93 :: s' => Some (rev acc, s')
  | 92 :: _ => None
  | 94 :: _ => None
  | 45 :: 93 :: s' => Some (rev (45 :: acc), s')
  | 45 :: _ => None
  | c :: s' => read_set s' (c :: acc)
  end.

Definition seq_ (cur atom : regex) : regex :=
  match cur with Eps => atom | _ => Seq cur atom end.

(** The finished branches, first branch first, as one alternation. *)
Fixpoint alt_ (first : regex) (others : list regex) : regex :=
  match others with
  | [] => first
  | r :: rs => Alt first (alt_ r rs)
  end.

Definition close (branches : list regex) (cur : regex) : regex :=
  match rev (cur :: branches) with
  | [] => Eps
  | r :: rs => alt_ r rs
  end.

(** A class atom takes a quantifier; any other atom must not have one. *)
Definition with_quantifier (k : cclass) (s : text) : option (regex * text) :=
  match quantifier s with
  | Some (Some (lo, hi), s') => Some (Rep k lo hi, s')
  | Some (None, s') => Some (Cls k, s')
  | None => None
  end.

Definition unquantified (s : text) : bool :=
  match quantifier s with
  | Some (None, _) => true
  | _ => false
  end.

(** Reads up to the end of the pattern or to an unmatched closing
    parenthesis.  [g] counts the groups opened so far; [branches] are the
    finished alternatives (last first) and [cur] the sequence being read. *)
Fixpoint parse (fuel : nat) (s : text) (g : nat) (branches : list regex)
    (cur : regex) : option (regex * text * nat) :=
  match fuel with
  | O => None
  | S fuel =>
    match s with
    | [] => Some (close branches cur, [], g)
    | 41 :: _ => Some (close branches cur, s, g)
    | 124 :: s' => parse fuel s' g (cur :: branches) Eps
    | 40 :: s' =>
      match parse fuel s' (S g) [] Eps with
      | Some (inner, 41 :: s'', g') =>
        if unquantified s''
        then parse fuel s'' g' branches (seq_ cur (Grp (S g) inner))
        else None
      | _ => None
      end
    | 92 :: 98 :: s' =>                                     (* \b *)
      if unquantified s' then parse fuel s' g branches (seq_ cur WordB) else None
    | 92 :: 115 :: s' =>                                    (* \s *)
      match with_quantifier CSpace s' with
      | Some (a, s'') => parse fuel s'' g branches (seq_ cur a)
      | None => None
      end
    | 92 :: 100 :: s' =>                                    (* \d *)
      match with_quantifier CDigit s' with
      | Some (a, s'') => parse fuel s'' g branches (seq_ cur a)
      | None => None
      end
    | 91 :: s' =>                                           (* [...] *)
      match read_set s' [] with
      | Some (cs, s'') =>
        match with_quantifier (CSet cs) s'' with
        | Some (a, s3) => parse fuel s3 g branches (seq_ cur a)
        | None => None
        end
      | None => None
      end
    | c :: s' =>
      if existsb (N.eqb c) [92; 46; 94; 36; 42; 43; 63; 123; 125; 93]
      then None
      else if unquantified s'
      then parse fuel s' g branches (seq_ cur (Chr c))
      else None
    end
  end.

Definition compile (p : text) : option regex :=
  match parse (S (List.length p)) p 0 [] Eps with
  | Some (r, [], _) => Some r
  | _ => None
  end.

End ReParse.

(** [re.compile(p)]; a pattern outside the fragment becomes the regex that
    matches nothing (the patterns of the engine are all inside it, see
    [patterns_compile]). *)
Definition re (p : string) : regex :=
  match ReParse.compile (T p) with
  | Some r => r
  | None => Cls (CSet [])
  end.
Arguments re p%_string.

Fixpoint ngroups (r : regex) : nat :=
  match r with
  | Seq r1 r2 | Alt r1 r2 => (ngroups r1 + ngroups r2)%nat
  | Grp _ r1 => S (ngroups r1)
  | _ => 0%nat
  end.

(** *** Matching: the successes of a backtracking matcher, in the order
    in which it finds them *)

(** One way of matching: the text consumed, the position after it (the
    character before it and the text that remains) and the groups set. *)
Record mres := MRes {
  consumed : text;
  prev_after : option N;
  rest_after : text;
  caps : list (nat * text)
}.

Section Matching.
Context {U : Unicode}.
Variable ic : bool.               (* re.IGNORECASE *)

Definition lower_variants (p : N) : list N :=
  sre_lower p :: sre_fixes (sre_lower p).

(** A literal of the pattern against a character of the text. *)
Definition chr_match (p d : N) : bool :=
  if ic && sre_iscased p
  then existsb (N.eqb (sre_lower d)) (lower_variants p)
  else p =? d.

Definition cls_match (k : cclass) (d : N) : bool :=
  match k with
  | CSpace => is_space d
  | CDigit => is_decimal d
  | CSet cs =>
    if ic && existsb sre_iscased cs
    then existsb (fun p => existsb (N.eqb (sre_lower d)) (lower_variants p)) cs
    else existsb (N.eqb d) cs
  end.

Definition can_repeat (hi : option nat) : bool :=
  match hi with Some O => false | _ => true end.

(** Greedy repetition of a class: the longest run first. *)
Fixpoint rep_ends (k : cclass) (lo : nat) (hi : option nat) (prev : option N)
    (s : text) : list (text * option N * text) :=
  let stop := match lo with O => [([], prev, s)] | S _ => [] end in
  match s with
  | c :: s' =>
    if can_repeat hi && cls_match k c
    then map (fun '(t, p, r) => (c :: t, p, r))
             (rep_ends k (Nat.pred lo) (option_map Nat.pred hi) (Some c) s')
         ++ stop
    else stop
  | [] => stop
  end.

Definition wordp (c : option N) : bool :=
  match c with Some c => is_word c | None => false end.

Fixpoint ends (r : regex) (prev : option N) (rest : text)
    (cp : list (nat * text)) : list mres :=
  match r with
  | Eps => [MRes [] prev rest cp]
  | Chr p =>
    match rest with
    | c :: rest' => if chr_match p c then [MRes [c] (Some c) rest' cp] else []
    | [] => []
    end
  | Cls k =>
    match rest with
    | c :: rest' => if cls_match k c then [MRes [c] (Some c) rest' cp] else []
    | [] => []
    end
  | Rep k lo hi =>
    map (fun '(t, p, r) => MRes t p r cp) (rep_ends k lo hi prev rest)
  | Seq r1 r2 =>
    flat_map (fun m1 =>
      map (fun m2 => MRes (consumed m1 ++ consumed m2) (prev_after m2)
                          (rest_after m2) (caps m2))
          (ends r2 (prev_after m1) (rest_after m1) (caps m1)))
      (ends r1 prev rest cp)
  | Alt r1 r2 => ends r1 prev rest cp ++ ends r2 prev rest cp
  | Grp i r1 =>
    map (fun m => MRes (consumed m) (prev_after m) (rest_after m)
                       ((i, consumed m) :: caps m))
        (ends r1 prev rest cp)
  | WordB =>
    if xorb (wordp prev) (wordp (hd_error rest))
    then [MRes [] prev rest cp] else []
  end.

Definition nonempty (m : mres) : bool :=
  match consumed m with [] => false | _ :: _ => true end.

(** The matches that [findall] reports at one position, and how many
    characters of the last one lie beyond the next position.  After an
    empty match the same position is tried once more for a match that is
    not empty. *)
Definition matches_here (r : regex) (prev : option N) (s : text)
    : list mres * nat :=
  match ends r prev s [] with
  | [] => ([], 0%nat)
  | m :: ms =>
    if nonempty m then ([m], Nat.pred (List.length (consumed m)))
    else match filter nonempty ms with
         | m2 :: _ => ([m; m2], Nat.pred (List.length (consumed m2)))
         | [] => ([m], 0%nat)
         end
  end.

(** The matches of [findall], left to right and without overlap. *)
Fixpoint scan (r : regex) (prev : option N) (s : text) (skip : nat)
    : list mres :=
  match s with
  | [] => match skip with O => fst (matches_here r prev []) | S _ => [] end
  | c :: s' =>
    match skip with
    | S k => scan r (Some c) s' k
    | O => let (ms, k) := matches_here r prev s in
           ms ++ scan r (Some c) s' k
    end
  end.

(** [re.search]: the first match, at the first position that has one. *)
Fixpoint search_from (r : regex) (prev : option N) (s : text) : option mres :=
  match ends r prev s [] with
  | m :: _ => Some m
  | [] => match s with
          | [] => None
          | c :: s' => search_from r (Some c) s'
          end
  end.

End Matching.

(** The value of group [i] of a match; a group that took no part is the
    empty string in the results of [findall]. *)
Fixpoint group (cp : list (nat * text)) (i : nat) : text :=
  match cp with
  | [] => []
  | (j, t) :: cp' => if Nat.eqb i j then t else group cp' i
  end.

(** An element of the list [re.findall] returns: a string, or a tuple of
    strings when the pattern has several groups. *)
Inductive item :=
| IStr (s : text)
| ITup (ss : list text).

Definition findall_item (r : regex) (m : mres) : item :=
  match ngroups r with
  | O => IStr (consumed m)
  | S O => IStr (group (caps m) 1)
  | n => ITup (map (group (caps m)) (seq 1 n))
  end.

Section ReApi.
Context {U : Unicode}.

(** [re.findall(p, s, flags)] *)
Definition re_findall (ic : bool) (r : regex) (s : text) : list item :=
  map (findall_item r) (scan ic r None s 0).

(** [len(re.findall(p, s, flags))] *)
Definition re_count (ic : bool) (r : regex) (s : text) : nat :=
  List.length (re_findall ic r s).

(** [re.search(p, s, flags)] as a truth value *)
Definition re_search (ic : bool) (r : regex) (s : text) : bool :=
  match search_from ic r None s with Some _ => true | None => false end.

End ReApi.

(** ** Numbers *)

(** A Python [int] count as a [float]. *)
Definition n2q (n : nat) : Q := inject_Z (Z.of_nat n).

(** [round(x)]: to the nearest integer, a tie going to the even one. *)
Definition py_round (x : Q) : Z :=
  let f := Qfloor x in
  match (x - inject_Z f ?= 1 # 2)%Q with
  | Lt => f
  | Gt => (f + 1)%Z
  | Eq => if Z.even f then f else (f + 1)%Z
  end.

(** [round(x, n)] *)
Definition py_round_digits (x : Q) (n : nat) : Q :=
  let scale := inject_Z (10 ^ Z.of_nat n) in
  (inject_Z (py_round (x * scale)) / scale)%Q.

Definition qmin (a b : Q) : Q := if Qle_bool a b then a else b.

(** ** The enumerations *)

Inductive NivelUrgencia := BAJA | MEDIA | ALTA | CRITICA | EMERGENCIA.

(** [urgencia.value] *)
Definition nivel_value (u : NivelUrgencia) : Z :=
  match u with
  | BAJA => 1 | MEDIA => 2 | ALTA => 3 | CRITICA => 4 | EMERGENCIA => 5
  end.

(** [urgencia.name] *)
Definition nivel_name (u : NivelUrgencia) : text :=
  match u with
  | BAJA => T "BAJA" | MEDIA => T "MEDIA" | ALTA => T "ALTA"
  | CRITICA => T "CRITICA" | EMERGENCIA => T "EMERGENCIA"
  end.

Inductive TipoAlerta :=
| URGENCIA_CRITICA | CONTENIDO_VIOLENTO | AMENAZA_DIRECTA
| SITUACION_RIESGO | EVIDENCIA_SOLIDA.

(** [tipo.value] *)
Definition tipo_value (t : TipoAlerta) : text :=
  match t with
  | URGENCIA_CRITICA => T "urgencia_critica"
  | CONTENIDO_VIOLENTO => T "contenido_violento"
  | AMENAZA_DIRECTA => T "amenaza_directa"
  | SITUACION_RIESGO => T "situacion_riesgo"
  | EVIDENCIA_SOLIDA => T "evidencia_solida"
  end.

(** ** The pattern tables ([_inicializar_patrones],
    [_inicializar_categorias], [_inicializar_alertas]) *)

Definition patrones_urgencia_critica : list regex := [
  re "\b(emergencia|urgente|inmediato|ya|ahora|rápido)\b";
  re "\b(peligro|amenaza|riesgo|violencia|agresión)\b";
  re "\b(socorro|ayuda|auxilio|emergencia)\b";
  re "\b(crítico|grave|serio|importante)\b" ].

Definition patrones_violencia : list regex := [
  re "\b(golpe|pegar|lastimar|dañar|herir)\b";
  re "\b(amenaza|intimidar|acosar|perseguir)\b";
  re "\b(violencia|agresión|ataque|maltrato)\b";
  re "\b(arma|cuchillo|pistola|navaja)\b" ].

Definition patrones_evidencia : list regex := [
  re "\b(prueba|evidencia|documento|foto|video)\b";
  re "\b(testigo|vio|escuchó|presenció)\b";
  re "\b(fecha|hora|día|momento)\b";
  re "\b(lugar|ubicación|sitio|donde)\b";
  re "\b(nombre|persona|quien|sujeto)\b" ].

Definition patrones_tiempo : list regex := [
  re "\b(\d{1,2}[:/]\d{1,2}|\d{1,2}\s*(am|pm))\b";
  re "\b(\d{1,2}[/-]\d{1,2}[/-]\d{2,4})\b";
  re "\b(ayer|hoy|mañana|anoche|esta\s*(mañana|tarde|noche))\b";
  re "\b(lunes|martes|miércoles|jueves|viernes|sábado|domingo)\b" ].

Definition patrones_lugares : list regex := [
  re "\b(oficina|sala|baño|estacionamiento|pasillo)\b";
  re "\b(piso\s*\d+|planta\s*\d+|edificio)\b";
  re "\b(departamento|área|sección|división)\b";
  re "\b(cerca\s*de|junto\s*a|en\s*el|en\s*la)\b" ].

Definition patrones_emociones : list (text * list regex) := [
  (T "miedo", [re "\b(miedo|temor|asustado|aterrado|pánico)\b"]);
  (T "enojo", [re "\b(enojado|furioso|molesto|indignado|irritado)\b"]);
  (T "tristeza", [re "\b(triste|deprimido|desanimado|abatido)\b"]);
  (T "ansiedad", [re "\b(ansioso|nervioso|preocupado|estresado)\b"]);
  (T "frustración", [re "\b(frustrado|desesperado|harto|cansado)\b"]) ].

Definition patrones_categorias : list (text * list regex) := [
  (T "acoso_laboral", [
     re "\b(acoso|hostigamiento|intimidación|presión)\b";
     re "\b(jefe|supervisor|compañero|colega)\b";
     re "\b(trabajo|laboral|oficina|empleado)\b" ]);
  (T "discriminacion", [
     re "\b(discriminación|racismo|sexismo|prejuicio)\b";
     re "\b(género|raza|edad|religión|orientación)\b";
     re "\b(trato\s*diferente|exclusión|marginación)\b" ]);
  (T "fraude", [
     re "\b(fraude|estafa|robo|hurto|malversación)\b";
     re "\b(dinero|efectivo|fondos|recursos|presupuesto)\b";
     re "\b(factura|cuenta|pago|cobro)\b" ]);
  (T "seguridad", [
     re "\b(seguridad|riesgo|peligro|accidente)\b";
     re "\b(equipo|herramienta|máquina|instalación)\b";
     re "\b(norma|protocolo|procedimiento|regla)\b" ]);
  (T "violencia", [
     re "\b(violencia|agresión|golpe|maltrato)\b";
     re "\b(físico|verbal|psicológico|sexual)\b";
     re "\b(amenaza|intimidación|hostigamiento)\b" ]);
  (T "corrupcion", [
     re "\b(corrupción|soborno|coima|mordida)\b";
     re "\b(favoritismo|nepotismo|tráfico\s*de\s*influencias)\b";
     re "\b(ilegal|irregular|indebido|inapropiado)\b" ]) ].

Definition umbrales_alerta (t : TipoAlerta) : Z :=
  match t with
  | URGENCIA_CRITICA => 3
  | CONTENIDO_VIOLENTO => 2
  | AMENAZA_DIRECTA => 1
  | SITUACION_RIESGO => 2
  | EVIDENCIA_SOLIDA => 3
  end.

(** The patterns written inside the methods. *)
Definition re_prioridad_evidencia := re "\b(prueba|evidencia|documento|testigo)\b".
Definition re_prioridad_tiempo := re "\b(ahora|hoy|ayer|esta\s*(mañana|tarde))\b".
Definition re_prioridad_personas := re "\b(persona|gente|todos|muchos|varios)\b".
Definition re_prioridad_impacto := re "\b(empresa|organización|departamento|todos)\b".

Definition tipos_evidencia : list (text * regex) := [
  (T "documental", re "\b(documento|papel|archivo|reporte|email|mensaje)\b");
  (T "visual", re "\b(foto|imagen|video|grabación|captura)\b");
  (T "testimonial", re "\b(testigo|vio|escuchó|presenció|dijo)\b");
  (T "física", re "\b(objeto|cosa|elemento|marca|señal)\b") ].

Definition re_horas := re "\d{1,2}[:/]\d{1,2}".
Definition re_fechas := re "\d{1,2}[/-]\d{1,2}[/-]\d{2,4}".
Definition re_lugares_especificos := re "\b(sala|oficina|piso)\s*\d+\b".

Definition re_amenazas_directas := re "\b(amenaza|amenazar|lastimar|dañar|hacer\s*daño)\b".
Definition re_indicadores_riesgo := re "\b(peligro|riesgo|inseguro|vulnerable|expuesto)\b".
Definition re_evidencias_alerta := re "\b(prueba|evidencia|documento|testigo|foto|video)\b".

(** The sources of all patterns of the engine. *)
Definition all_pattern_sources : list string := ([
  "\b(emergencia|urgente|inmediato|ya|ahora|rápido)\b";
  "\b(peligro|amenaza|riesgo|violencia|agresión)\b";
  "\b(socorro|ayuda|auxilio|emergencia)\b";
  "\b(crítico|grave|serio|importante)\b";
  "\b(golpe|pegar|lastimar|dañar|herir)\b";
  "\b(amenaza|intimidar|acosar|perseguir)\b";
  "\b(violencia|agresión|ataque|maltrato)\b";
  "\b(arma|cuchillo|pistola|navaja)\b";
  "\b(prueba|evidencia|documento|foto|video)\b";
  "\b(testigo|vio|escuchó|presenció)\b";
  "\b(fecha|hora|día|momento)\b";
  "\b(lugar|ubicación|sitio|donde)\b";
  "\b(nombre|persona|quien|sujeto)\b";
  "\b(\d{1,2}[:/]\d{1,2}|\d{1,2}\s*(am|pm))\b";
  "\b(\d{1,2}[/-]\d{1,2}[/-]\d{2,4})\b";
  "\b(ayer|hoy|mañana|anoche|esta\s*(mañana|tarde|noche))\b";
  "\b(lunes|martes|miércoles|jueves|viernes|sábado|domingo)\b";
  "\b(oficina|sala|baño|estacionamiento|pasillo)\b";
  "\b(piso\s*\d+|planta\s*\d+|edificio)\b";
  "\b(departamento|área|sección|división)\b";
  "\b(cerca\s*de|junto\s*a|en\s*el|en\s*la)\b";
  "\b(miedo|temor|asustado|aterrado|pánico)\b";
  "\b(enojado|furioso|molesto|indignado|irritado)\b";
  "\b(triste|deprimido|desanimado|abatido)\b";
  "\b(ansioso|nervioso|preocupado|estresado)\b";
  "\b(frustrado|desesperado|harto|cansado)\b";
  "\b(acoso|hostigamiento|intimidación|presión)\b";
  "\b(jefe|supervisor|compañero|colega)\b";
  "\b(trabajo|laboral|oficina|empleado)\b";
  "\b(discriminación|racismo|sexismo|prejuicio)\b";
  "\b(género|raza|edad|religión|orientación)\b";
  "\b(trato\s*diferente|exclusión|marginación)\b";
  "\b(fraude|estafa|robo|hurto|malversación)\b";
  "\b(dinero|efectivo|fondos|recursos|presupuesto)\b";
  "\b(factura|cuenta|pago|cobro)\b";
  "\b(seguridad|riesgo|peligro|accidente)\b";
  "\b(equipo|herramienta|máquina|instalación)\b";
  "\b(norma|protocolo|procedimiento|regla)\b";
  "\b(violencia|agresión|golpe|maltrato)\b";
  "\b(físico|verbal|psicológico|sexual)\b";
  "\b(amenaza|intimidación|hostigamiento)\b";
  "\b(corrupción|soborno|coima|mordida)\b";
  "\b(favoritismo|nepotismo|tráfico\s*de\s*influencias)\b";
  "\b(ilegal|irregular|indebido|inapropiado)\b";
  "\b(prueba|evidencia|documento|testigo)\b";
  "\b(ahora|hoy|ayer|esta\s*(mañana|tarde))\b";
  "\b(persona|gente|todos|muchos|varios)\b";
  "\b(empresa|organización|departamento|todos)\b";
  "\b(documento|papel|archivo|reporte|email|mensaje)\b";
  "\b(foto|imagen|video|grabación|captura)\b";
  "\b(testigo|vio|escuchó|presenció|dijo)\b";
  "\b(objeto|cosa|elemento|marca|señal)\b";
  "\d{1,2}[:/]\d{1,2}";
  "\d{1,2}[/-]\d{1,2}[/-]\d{2,4}";
  "\b(sala|oficina|piso)\s*\d+\b";
  "\b(amenaza|amenazar|lastimar|dañar|hacer\s*daño)\b";
  "\b(peligro|riesgo|inseguro|vulnerable|expuesto)\b";
  "\b(prueba|evidencia|documento|testigo|foto|video)\b" ])%string.

(** ** [list(set(xs))] *)

Definition item_eq_dec (a b : item) : {a = b} + {a <> b}.
Proof.
  decide equality; try apply (list_eq_dec N.eq_dec);
    apply (list_eq_dec (list_eq_dec N.eq_dec)).
Defined.

(** The order in which a set built from a list is enumerated: each
    element once, in an order the interpreter fixes. *)
Class SetOrder := {
  set_to_list : list item -> list item;
  set_to_list_perm : forall l, Permutation (set_to_list l) (nodup item_eq_dec l)
}.

(** ** The results *)

Record Urgencia := {
  urg_nivel : text;
  urg_valor : Z;
  urg_descripcion : text
}.

Record Categoria := {
  cat_sugerida : text;
  cat_confianza : Q;
  cat_alternativas : list text
}.

Record Prioridad := {
  pri_puntuacion : Z;
  pri_nivel : text;
  pri_justificacion : text
}.

Record Entidades := {
  ent_tiempos : list item;
  ent_lugares : list item;
  ent_personas : list item;
  ent_evidencias : list item
}.

Record Sentimientos := {
  emociones_detectadas : list (text * nat);
  polaridad : text;
  intensidad : text;
  requiere_apoyo_emocional : bool
}.

Record Evidencias := {
  ev_tipos_evidencia : list (text * nat);
  puntuacion_evidencia : Q;
  nivel_credibilidad : text;
  especificidad : nat;
  requiere_mas_evidencia : bool
}.

Record Alerta := {
  al_tipo : text;
  al_mensaje : text;
  al_prioridad : text;
  accion_sugerida : text
}.

Record Analisis := {
  timestamp_analisis : text;
  urgencia : Urgencia;
  categoria : Categoria;
  prioridad : Prioridad;
  entidades : Entidades;
  sentimientos : Sentimientos;
  evidencias : Evidencias;
  alertas : list Alerta;
  recomendaciones : list item;
  requiere_atencion_inmediata : bool;
  puntuacion_veracidad : Q;
  resumen_ejecutivo : text
}.

(** ** The methods of [AgenteIAMejorado] *)

Section Agente.
Context {U : Unicode} {SO : SetOrder}.

(** *** [detectar_urgencia] *)

Definition palabras_criticas : list text :=
  [T "urgente"; T "inmediato"; T "emergencia"; T "ayuda"; T "socorro"].

(** The number of words of the message that are upper case and longer
    than two characters. *)
Definition palabras_mayusculas (mensaje : text) : nat :=
  List.length
    (filter (fun p => str_isupper p && (2 <? List.length p)%nat) (str_split mensaje)).

(** The value of [puntuacion_urgencia] when the level is decided. *)
Definition puntuacion_urgencia (mensaje : text) : Q :=
  let mensaje_lower := str_lower mensaje in
  let puntuacion := 0%Q in
  let puntuacion :=
    fold_left (fun p patron =>
                 let matches := re_count true patron mensaje_lower in
                 (p + n2q matches * 2)%Q)
              patrones_urgencia_critica puntuacion in
  let puntuacion :=
    fold_left (fun p patron =>
                 let matches := re_count true patron mensaje_lower in
                 (p + n2q matches * 3)%Q)
              patrones_violencia puntuacion in
  let puntuacion :=
    fold_left (fun p palabra =>
                 if str_in palabra mensaje_lower
                 then let count := str_count palabra mensaje_lower in
                      (p + n2q count * (3 # 2))%Q
                 else p)
              palabras_criticas puntuacion in
  let exclamaciones := str_count (T "!") mensaje in
  let puntuacion :=
    if (3 <=? exclamaciones)%nat then (puntuacion + 2)%Q else puntuacion in
  let puntuacion :=
    if (3 <=? palabras_mayusculas mensaje)%nat then (puntuacion + 1)%Q
    else puntuacion in
  puntuacion.

Definition nivel_de_puntuacion (puntuacion : Q) : NivelUrgencia :=
  if Qle_bool 12 puntuacion then EMERGENCIA
  else if Qle_bool 8 puntuacion then CRITICA
  else if Qle_bool 5 puntuacion then ALTA
  else if Qle_bool 2 puntuacion then MEDIA
  else BAJA.

Definition detectar_urgencia (mensaje : text) : NivelUrgencia :=
  nivel_de_puntuacion (puntuacion_urgencia mensaje).

(** *** [sugerir_categoria_mejorada] *)

(** [any(word in s for word in words)] *)
Definition any_in (words : list text) (s : text) : bool :=
  existsb (fun word => str_in word s) words.

(** The sum of the match counts of the patterns of a category. *)
Definition coincidencias (patrones : list regex) (mensaje_lower : text) : nat :=
  fold_left (fun p patron => (p + re_count true patron mensaje_lower)%nat)
            patrones 0%nat.

Definition puntuacion_categoria (mensaje_lower : text)
    (entry : text * list regex) : nat :=
  let (categoria, patrones) := entry in
  let puntuacion := coincidencias patrones mensaje_lower in
  if text_eqb categoria (T "acoso_laboral")
     && any_in [T "trabajo"; T "oficina"; T "jefe"] mensaje_lower
  then (puntuacion + 2)%nat
  else if text_eqb categoria (T "violencia")
          && any_in [T "golpe"; T "amenaza"; T "miedo"] mensaje_lower
  then (puntuacion + 3)%nat
  else if text_eqb categoria (T "fraude")
          && any_in [T "dinero"; T "factura"; T "pago"] mensaje_lower
  then (puntuacion + 2)%nat
  else puntuacion.

(** [max(d, key=d.get)] continued over the remaining keys: the first key
    of greatest value. *)
Fixpoint max_key (l : list (text * nat)) (best : text * nat) : text * nat :=
  match l with
  | [] => best
  | kv :: l' => if (snd best <? snd kv)%nat then max_key l' kv else max_key l' best
  end.

Definition puntuaciones_categorias (mensaje_lower : text) : list (text * nat) :=
  map (fun entry => (fst entry, puntuacion_categoria mensaje_lower entry))
      patrones_categorias.

Definition sugerir_categoria_mejorada (mensaje : text) : text :=
  let mensaje_lower := str_lower mensaje in
  match puntuaciones_categorias mensaje_lower with
  | [] => T "otros"
  | kv :: l =>
    let (categoria_sugerida, puntuacion) := max_key l kv in
    if (0 <? puntuacion)%nat then categoria_sugerida else T "otros"
  end.

(** *** [calcular_prioridad] *)

Definition factores_prioridad (mensaje : text) : Q :=
  let factores := 0%Q in
  let evidencias := re_count false re_prioridad_evidencia (str_lower mensaje) in
  let factores := (factores + qmin (n2q evidencias * (1 # 2)) 1)%Q in
  let tiempo_inmediato := re_count false re_prioridad_tiempo (str_lower mensaje) in
  let factores := (factores + qmin (n2q tiempo_inmediato * (3 # 10)) (8 # 10))%Q in
  let personas := re_count false re_prioridad_personas (str_lower mensaje) in
  let factores := (factores + qmin (n2q personas * (2 # 10)) (6 # 10))%Q in
  let impacto_org := re_count false re_prioridad_impacto (str_lower mensaje) in
  let factores := (factores + qmin (n2q impacto_org * (3 # 10)) (7 # 10))%Q in
  factores.

Definition calcular_prioridad (mensaje : text) (urgencia : NivelUrgencia) : Z :=
  let prioridad_base := inject_Z (nivel_value urgencia) in
  let prioridad_final := qmin (prioridad_base + factores_prioridad mensaje) 5 in
  py_round prioridad_final.

(** *** [extraer_entidades] *)

(** [for patron in patrones: matches = re.findall(...); l.extend(matches)] *)
Definition extraer (patrones : list regex) (mensaje : text) : list item :=
  flat_map (fun patron => re_findall true patron mensaje) patrones.

(** The capitalised words after the first one. *)
Definition nombres_propios (mensaje : text) : list item :=
  match str_split mensaje with
  | [] => []
  | _ :: palabras =>
    map IStr
      (filter (fun palabra =>
                 match palabra with
                 | c :: _ => is_upper c
                 | [] => false
                 end
                 && (2 <? List.length palabra)%nat
                 && negb (text_mem (str_lower palabra)
                            [T "que"; T "pero"; T "porque"; T "cuando"; T "donde"]))
              palabras)
  end.

Definition extraer_entidades (mensaje : text) : Entidades := {|
  ent_tiempos := set_to_list (extraer patrones_tiempo mensaje);
  ent_lugares := set_to_list (extraer patrones_lugares mensaje);
  ent_personas := set_to_list (nombres_propios mensaje);
  ent_evidencias := set_to_list (extraer patrones_evidencia mensaje)
|}.

(** *** [analizar_sentimientos] *)

Definition palabras_negativas : list text :=
  [T "malo"; T "terrible"; T "horrible"; T "odio"; T "detesto"; T "molesto"].
Definition palabras_positivas : list text :=
  [T "bueno"; T "bien"; T "excelente"; T "contento"; T "feliz"; T "satisfecho"].

(** [k in d] for a dictionary kept as an association list *)
Definition has_key {A} (k : text) (d : list (text * A)) : bool :=
  existsb (fun kv => text_eqb k (fst kv)) d.

(** [d.get(k)] *)
Fixpoint lookup {A} (k : text) (d : list (text * A)) : option A :=
  match d with
  | [] => None
  | (k', v) :: d' => if text_eqb k k' then Some v else lookup k d'
  end.

Definition emociones (mensaje_lower : text) : list (text * nat) :=
  flat_map (fun entry : text * list regex =>
              let (emocion, patrones) := entry in
              let intensidad := coincidencias patrones mensaje_lower in
              if (0 <? intensidad)%nat then [(emocion, Nat.min intensidad 5)] else [])
           patrones_emociones.

Definition analizar_sentimientos (mensaje : text) : Sentimientos :=
  let mensaje_lower := str_lower mensaje in
  let detectadas := emociones mensaje_lower in
  let negatividad :=
    List.length (filter (fun palabra => str_in palabra mensaje_lower) palabras_negativas) in
  let positividad :=
    List.length (filter (fun palabra => str_in palabra mensaje_lower) palabras_positivas) in
  let polaridad :=
    if (positividad <? negatividad)%nat then T "negativa"
    else if (negatividad <? positividad)%nat then T "positiva"
    else T "neutral" in
  let intensidad_total := list_sum (map snd detectadas) in
  let nivel_intensidad :=
    if (intensidad_total <=? 2)%nat then T "baja"
    else if (intensidad_total <=? 5)%nat then T "media"
    else T "alta" in
  {| emociones_detectadas := detectadas;
     polaridad := polaridad;
     intensidad := nivel_intensidad;
     requiere_apoyo_emocional :=
       (4 <=? intensidad_total)%nat || has_key (T "miedo") detectadas |}.

(** *** [evaluar_evidencias] *)

Definition evaluar_evidencias (mensaje : text) : Evidencias :=
  let mensaje_lower := str_lower mensaje in
  let '(evidencias_encontradas, puntuacion_total) :=
    fold_left (fun (acc : list (text * nat) * nat) (entry : text * regex) =>
                 let (encontradas, total) := acc in
                 let (tipo, patron) := entry in
                 let matches := re_count true patron mensaje_lower in
                 if (0 <? matches)%nat
                 then (encontradas ++ [(tipo, matches)], (total + matches)%nat)
                 else acc)
              tipos_evidencia ([], 0%nat) in
  let especificidad := 0%nat in
  let especificidad := (especificidad + re_count false re_horas mensaje)%nat in
  let especificidad := (especificidad + re_count false re_fechas mensaje)%nat in
  let especificidad :=
    (especificidad + re_count false re_lugares_especificos mensaje_lower)%nat in
  let puntuacion_total := (n2q puntuacion_total + n2q especificidad * (1 # 2))%Q in
  let credibilidad :=
    if Qle_bool 5 puntuacion_total then T "alta"
    else if Qle_bool 3 puntuacion_total then T "media"
    else if Qle_bool 1 puntuacion_total then T "baja"
    else T "muy_baja" in
  {| ev_tipos_evidencia := evidencias_encontradas;
     puntuacion_evidencia := py_round_digits puntuacion_total 1;
     nivel_credibilidad := credibilidad;
     especificidad := especificidad;
     requiere_mas_evidencia := negb (Qle_bool 2 puntuacion_total) |}.

(** *** [generar_alertas] *)

(** The number of violence patterns that match somewhere. *)
Definition patrones_violencia_count (mensaje_lower : text) : nat :=
  List.length (filter (fun patron => re_search true patron mensaje_lower)
                      patrones_violencia).

Definition alerta_urgencia_critica (urgencia : NivelUrgencia) : Alerta := {|
  al_tipo := tipo_value URGENCIA_CRITICA;
  al_mensaje := T "Denuncia con urgencia " ++ nivel_name urgencia
                ++ T " - Requiere atención inmediata";
  al_prioridad := T "alta";
  accion_sugerida :=
    T "Contactar inmediatamente al denunciante o autoridades competentes" |}.

Definition alerta_contenido_violento : Alerta := {|
  al_tipo := tipo_value CONTENIDO_VIOLENTO;
  al_mensaje := T "Contenido con indicadores de violencia detectados";
  al_prioridad := T "alta";
  accion_sugerida := T "Evaluar riesgo para la seguridad personal del denunciante" |}.

Definition alerta_amenaza_directa : Alerta := {|
  al_tipo := tipo_value AMENAZA_DIRECTA;
  al_mensaje := T "Posible amenaza directa identificada";
  al_prioridad := T "crítica";
  accion_sugerida := T "Notificar a seguridad y considerar medidas de protección" |}.

Definition alerta_situacion_riesgo : Alerta := {|
  al_tipo := tipo_value SITUACION_RIESGO;
  al_mensaje := T "Situación de riesgo potencial detectada";
  al_prioridad := T "media";
  accion_sugerida := T "Evaluar medidas de seguridad preventivas" |}.

Definition alerta_evidencia_solida : Alerta := {|
  al_tipo := tipo_value EVIDENCIA_SOLIDA;
  al_mensaje := T "Denuncia con evidencia sólida disponible";
  al_prioridad := T "media";
  accion_sugerida := T "Priorizar para investigación detallada" |}.

(** [if cond: alertas.append(a)] *)
Definition append_if (cond : bool) (a : Alerta) (alertas : list Alerta) : list Alerta :=
  if cond then alertas ++ [a] else alertas.

Definition generar_alertas (mensaje : text) (urgencia : NivelUrgencia)
    (prioridad : Z) : list Alerta :=
  let alertas := [] in
  let mensaje_lower := str_lower mensaje in
  let alertas :=
    append_if (umbrales_alerta URGENCIA_CRITICA <=? nivel_value urgencia)%Z
              (alerta_urgencia_critica urgencia) alertas in
  let alertas :=
    append_if (umbrales_alerta CONTENIDO_VIOLENTO
                 <=? Z.of_nat (patrones_violencia_count mensaje_lower))%Z
              alerta_contenido_violento alertas in
  let amenazas_directas := re_findall false re_amenazas_directas mensaje_lower in
  let alertas :=
    append_if (umbrales_alerta AMENAZA_DIRECTA
                 <=? Z.of_nat (List.length amenazas_directas))%Z
              alerta_amenaza_directa alertas in
  let indicadores_riesgo := re_findall false re_indicadores_riesgo mensaje_lower in
  let alertas :=
    append_if (umbrales_alerta SITUACION_RIESGO
                 <=? Z.of_nat (List.length indicadores_riesgo))%Z
              alerta_situacion_riesgo alertas in
  let evidencias_count := re_count false re_evidencias_alerta mensaje_lower in
  let alertas :=
    append_if (umbrales_alerta EVIDENCIA_SOLIDA <=? Z.of_nat evidencias_count)%Z
              alerta_evidencia_solida alertas in
  alertas.

(** *** [generar_recomendaciones] *)

Definition recomendacion_de_alerta (alerta : Alerta) : list text :=
  if text_eqb (al_prioridad alerta) (T "crítica")
  then [T "🚨 CRÍTICO: " ++ accion_sugerida alerta]
  else if text_eqb (al_prioridad alerta) (T "alta")
  then [T "⚠️ ALTA: " ++ accion_sugerida alerta]
  else [].

Definition generar_recomendaciones (urgencia : NivelUrgencia) (categoria : text)
    (evidencias : Evidencias) (alertas : list Alerta) : list item :=
  let recomendaciones := [] in
  let recomendaciones :=
    if (4 <=? nivel_value urgencia)%Z
    then recomendaciones
         ++ [T "🚨 ACCIÓN INMEDIATA: Contactar al denunciante en las próximas 2 horas";
             T "📞 Notificar a autoridades competentes si hay riesgo inmediato"]
    else if (3 <=? nivel_value urgencia)%Z
    then recomendaciones
         ++ [T "⏰ Responder dentro de las próximas 24 horas";
             T "🔍 Iniciar investigación preliminar"]
    else recomendaciones in
  let recomendaciones :=
    if text_eqb categoria (T "violencia")
    then recomendaciones
         ++ [T "🛡️ Evaluar necesidad de medidas de protección";
             T "👥 Involucrar a recursos humanos y seguridad"]
    else if text_eqb categoria (T "fraude")
    then recomendaciones
         ++ [T "💰 Revisar registros financieros relacionados";
             T "🔒 Asegurar documentación contable"]
    else if text_eqb categoria (T "acoso_laboral")
    then recomendaciones
         ++ [T "📋 Documentar patrones de comportamiento";
             T "🤝 Ofrecer apoyo psicológico al denunciante"]
    else recomendaciones in
  let recomendaciones :=
    if text_eqb (nivel_credibilidad evidencias) (T "alta")
    then recomendaciones
         ++ [T "📁 Recopilar y preservar evidencias mencionadas";
             T "⚖️ Considerar para proceso formal de investigación"]
    else if requiere_mas_evidencia evidencias
    then recomendaciones
         ++ [T "🔍 Solicitar evidencia adicional al denunciante";
             T "👥 Buscar testigos o fuentes corroborativas"]
    else recomendaciones in
  let recomendaciones :=
    recomendaciones ++ flat_map recomendacion_de_alerta alertas in
  let recomendaciones :=
    recomendaciones
    ++ [T "📝 Registrar todas las acciones tomadas";
        T "🔄 Programar seguimiento según cronograma establecido"] in
  set_to_list (map IStr recomendaciones).

(** *** The helpers of the composite result *)

Definition _get_descripcion_urgencia (urgencia : NivelUrgencia) : text :=
  match urgencia with
  | BAJA => T "Situación que puede esperar proceso normal"
  | MEDIA => T "Requiere atención en tiempo razonable"
  | ALTA => T "Necesita atención prioritaria"
  | CRITICA => T "Requiere acción inmediata"
  | EMERGENCIA => T "EMERGENCIA - Acción inmediata crítica"
  end.

Definition _calcular_confianza_categoria (mensaje categoria : text) : Q :=
  match lookup categoria patrones_categorias with
  | None => 1 # 2
  | Some patrones =>
    let mensaje_lower := str_lower mensaje in
    let matches := coincidencias patrones mensaje_lower in
    let confianza := qmin (n2q matches / n2q (List.length patrones)) 1 in
    py_round_digits confianza 2
  end.

(** [sorted(items, key=lambda x: x[1], reverse=True)]: a stable sort, so
    entries of equal score keep their order. *)
Fixpoint insert_desc (x : text * nat) (l : list (text * nat)) : list (text * nat) :=
  match l with
  | [] => [x]
  | y :: l' => if (snd x <? snd y)%nat then y :: insert_desc x l' else x :: l
  end.

Definition sorted_desc (l : list (text * nat)) : list (text * nat) :=
  fold_right insert_desc [] l.

(** The categories whose patterns match at all, with their match counts. *)
Definition puntuaciones_alternativas (mensaje_lower : text) : list (text * nat) :=
  flat_map (fun entry : text * list regex =>
              let (categoria, patrones) := entry in
              let puntuacion := coincidencias patrones mensaje_lower in
              if (0 <? puntuacion)%nat then [(categoria, puntuacion)] else [])
           patrones_categorias.

Definition _get_categorias_alternativas (mensaje : text) : list text :=
  let mensaje_lower := str_lower mensaje in
  let puntuaciones := puntuaciones_alternativas mensaje_lower in
  let alternativas := firstn 3 (sorted_desc puntuaciones) in
  map fst alternativas.

Definition _get_nivel_prioridad (prioridad : Z) : text :=
  if (5 <=? prioridad)%Z then T "EMERGENCIA"
  else if (4 <=? prioridad)%Z then T "ALTA"
  else if (3 <=? prioridad)%Z then T "MEDIA"
  else if (2 <=? prioridad)%Z then T "BAJA"
  else T "MÍNIMA".

Definition _get_justificacion_prioridad (prioridad : Z) : text :=
  if (prioridad =? 5)%Z then T "Múltiples factores críticos detectados"
  else if (prioridad =? 4)%Z then T "Urgencia alta con factores agravantes"
  else if (prioridad =? 3)%Z then T "Situación importante que requiere atención"
  else if (prioridad =? 2)%Z then T "Caso que merece seguimiento regular"
  else if (prioridad =? 1)%Z then T "Situación menor para proceso normal"
  else T "Evaluación estándar".

Definition _requiere_atencion_inmediata (urgencia : NivelUrgencia)
    (alertas : list Alerta) : bool :=
  if (4 <=? nivel_value urgencia)%Z then true
  else
    let alertas_criticas :=
      filter (fun a => text_mem (al_prioridad a) [T "crítica"; T "alta"]) alertas in
    (0 <? List.length alertas_criticas)%nat.

Definition _calcular_veracidad (evidencias : Evidencias) (entidades : Entidades) : Q :=
  let puntuacion_base := puntuacion_evidencia evidencias in
  let bonus_entidades := 0%Q in
  let bonus_entidades :=
    (bonus_entidades + n2q (List.length (ent_tiempos entidades)) * (2 # 10))%Q in
  let bonus_entidades :=
    (bonus_entidades + n2q (List.length (ent_lugares entidades)) * (3 # 10))%Q in
  let bonus_entidades :=
    (bonus_entidades + n2q (List.length (ent_personas entidades)) * (1 # 10))%Q in
  let puntuacion_total := qmin (puntuacion_base + bonus_entidades) 10 in
  py_round_digits (puntuacion_total / 10) 2.

Definition _generar_resumen_ejecutivo (mensaje : text) (urgencia : NivelUrgencia)
    (categoria : text) (alertas : list Alerta) : text :=
  let longitud := List.length (str_split mensaje) in
  let resumen :=
    T "Denuncia de " ++ str_replace 95 32 categoria
    ++ T " con urgencia " ++ str_lower (nivel_name urgencia) in
  let resumen :=
    match alertas with
    | [] => resumen
    | _ :: _ =>
      let tipos_alerta := map al_tipo alertas in
      if text_mem (T "urgencia_critica") tipos_alerta
      then resumen ++ T " - REQUIERE ATENCIÓN INMEDIATA"
      else if text_mem (T "contenido_violento") tipos_alerta
      then resumen ++ T " - Contiene indicadores de violencia"
      else resumen
    end in
  let resumen := resumen ++ T ". Mensaje de " ++ str_of_nat longitud ++ T " palabras" in
  if (200 <? longitud)%nat then resumen ++ T " con descripción detallada"
  else if (longitud <? 50)%nat then resumen ++ T " - requiere más información"
  else resumen.

(** *** [analizar_denuncia_completa]

    [timestamp] is what [datetime.now().isoformat()] returns at the call;
    the parameter [categoria_sugerida] of the source is never read. *)
Definition analizar_denuncia_completa (timestamp mensaje : text) : Analisis :=
  let urgencia := detectar_urgencia mensaje in
  let categoria := sugerir_categoria_mejorada mensaje in
  let prioridad := calcular_prioridad mensaje urgencia in
  let entidades := extraer_entidades mensaje in
  let sentimientos := analizar_sentimientos mensaje in
  let evidencias := evaluar_evidencias mensaje in
  let alertas := generar_alertas mensaje urgencia prioridad in
  let recomendaciones := generar_recomendaciones urgencia categoria evidencias alertas in
  {| timestamp_analisis := timestamp;
     urgencia := {| urg_nivel := nivel_name urgencia;
                    urg_valor := nivel_value urgencia;
                    urg_descripcion := _get_descripcion_urgencia urgencia |};
     categoria := {| cat_sugerida := categoria;
                     cat_confianza := _calcular_confianza_categoria mensaje categoria;
                     cat_alternativas := _get_categorias_alternativas mensaje |};
     prioridad := {| pri_puntuacion := prioridad;
                     pri_nivel := _get_nivel_prioridad prioridad;
                     pri_justificacion := _get_justificacion_prioridad prioridad |};
     entidades := entidades;
     sentimientos := sentimientos;
     evidencias := evidencias;
     alertas := alertas;
     recomendaciones := recomendaciones;
     requiere_atencion_inmediata := _requiere_atencion_inmediata urgencia alertas;
     puntuacion_veracidad := _calcular_veracidad evidencias entidades;
     resumen_ejecutivo := _generar_resumen_ejecutivo mensaje urgencia categoria alertas |}.

End Agente.

(** ** Values that are not strings

    Python checks nothing at the call: a caller can pass any object as
    [mensaje].  The first thing every method does with it is
    [mensaje.lower()] (in [detectar_urgencia], the first method called),
    an attribute only [str] has among these values. *)

Inductive PyVal :=
| VNone
| VBool (b : bool)
| VInt (n : Z)
| VStr (s : text).

Inductive PyError := AttributeError.

(** [bool(v)] *)
Definition truthy (v : PyVal) : bool :=
  match v with
  | VNone => false
  | VBool b => b
  | VInt n => negb (n =? 0)%Z
  | VStr s => match s with [] => false | _ :: _ => true end
  end.

Definition is_str (v : PyVal) : bool :=
  match v with VStr _ => true | _ => false end.

Section Dynamic.
Context {U : Unicode} {SO : SetOrder}.

(** [analizar_denuncia_completa] on an arbitrary argument: the result, or
    the exception that leaves the call. *)
Definition analizar_denuncia_completa_py (timestamp : text) (mensaje : PyVal)
    : PyError + Analisis :=
  match mensaje with
  | VStr s => inr (analizar_denuncia_completa timestamp s)
  | _ => inl AttributeError           (* mensaje.lower() *)
  end.

(** *** [GestorAgenteIASimplificado.procesar_denuncia]

    The agents are parameters: an agent either returns its result or
    raises an exception with a message. *)

Inductive ResultadoGestor (R : Type) :=
| MensajeVacio (timestamp : text)         (* _resultado_mensaje_vacio() *)
| Procesado (modo_procesamiento : text) (resultado : R)
| ErrorProcesamiento (error modo_procesamiento timestamp : text).

Arguments MensajeVacio {R}.
Arguments Procesado {R}.
Arguments ErrorProcesamiento {R}.

Variable R : Type.
Variable agente_local : text -> text + R.
Variable agente_openai : option (text -> text + R).

Definition opt_text_eqb (a : option text) (b : text) : bool :=
  match a with Some a => text_eqb a b | None => false end.

Definition procesar_denuncia (timestamp : text) (mensaje : PyVal)
    (forzar_modo : option text) : PyError + ResultadoGestor R :=
  if negb (truthy mensaje) then inr (MensajeVacio timestamp)
  else match mensaje with
  | VStr s =>
    if negb (truthy (VStr (str_strip s))) then inr (MensajeVacio timestamp)
    else
      let (agente, modo_usado) :=
        match agente_openai with
        | None => (agente_local, T "local")
        | Some openai =>
          if opt_text_eqb forzar_modo (T "local") then (agente_local, T "local")
          else if opt_text_eqb forzar_modo (T "openai") then (openai, T "openai")
          else if (20 <? List.length (str_split s))%nat
               then (openai, T "openai_complejo")
               else (agente_local, T "local_simple")
        end in
      match agente s with
      | inr resultado => inr (Procesado modo_usado resultado)
      | inl e => inr (ErrorProcesamiento e (modo_usado ++ T "_error") timestamp)
      end
  | _ => inl AttributeError           (* mensaje.strip() *)
  end.

End Dynamic.

Arguments MensajeVacio {R}.
Arguments Procesado {R}.
Arguments ErrorProcesamiento {R}.
Arguments procesar_denuncia {U R}.

(** ** The agent as an object of a running interpreter

    The tables are attributes of the agent: [__init__] sets them and the
    methods read them through [self].  What a call returns also depends
    on the clock.  Here the methods are written as the source has them,
    as transformers of the state of the process: the attributes of the
    agent, and the clock with how often it has been read. *)

(** The attributes of an [AgenteIAMejorado]. *)
Record AgenteIAMejorado := {
  self_patrones_urgencia_critica : list regex;
  self_patrones_violencia : list regex;
  self_patrones_evidencia : list regex;
  self_patrones_tiempo : list regex;
  self_patrones_lugares : list regex;
  self_patrones_emociones : list (text * list regex);
  self_patrones_categorias : list (text * list regex);
  self_umbrales_alerta : TipoAlerta -> Z
}.

(** [AgenteIAMejorado()]: [_inicializar_patrones],
    [_inicializar_categorias] and [_inicializar_alertas] in turn. *)
Definition agente_ia_mejorado_init : AgenteIAMejorado := {|
  self_patrones_urgencia_critica := patrones_urgencia_critica;
  self_patrones_violencia := patrones_violencia;
  self_patrones_evidencia := patrones_evidencia;
  self_patrones_tiempo := patrones_tiempo;
  self_patrones_lugares := patrones_lugares;
  self_patrones_emociones := patrones_emociones;
  self_patrones_categorias := patrones_categorias;
  self_umbrales_alerta := umbrales_alerta
|}.

(** The process: [pr_reloj n] is what the [n]-th reading of
    [datetime.now().isoformat()] returns, and [pr_lecturas] readings have
    been made. *)
Record Proceso := {
  pr_agente : AgenteIAMejorado;
  pr_reloj : nat -> text;
  pr_lecturas : nat
}.

(** The process after the agent has been constructed. *)
Definition proceso_inicial (reloj : nat -> text) : Proceso := {|
  pr_agente := agente_ia_mejorado_init;
  pr_reloj := reloj;
  pr_lecturas := 0
|}.

Module Metodos.

(** A computation in the process: its value and the process after it. *)
Definition M (A : Type) : Type := Proceso -> A * Proceso.

Definition ret {A : Type} (a : A) : M A := fun p => (a, p).

Definition bind {A B : Type} (m : M A) (f : A -> M B) : M B :=
  fun p => let (a, p') := m p in f a p'.

Notation "x <- m ;; f" := (bind m (fun x => f))
  (at level 61, m at next level, right associativity).

(** [self.f]: reading an attribute of the agent *)
Definition atributo {A : Type} (f : AgenteIAMejorado -> A) : M A :=
  fun p => (f (pr_agente p), p).

(** [datetime.now().isoformat()] *)
Definition datetime_now_isoformat : M text :=
  fun p => (pr_reloj p (pr_lecturas p),
            {| pr_agente := pr_agente p;
               pr_reloj := pr_reloj p;
               pr_lecturas := S (pr_lecturas p) |}).

Section Metodos.
Context {U : Unicode} {SO : SetOrder}.

Definition detectar_urgencia (mensaje : text) : M NivelUrgencia :=
  let mensaje_lower := str_lower mensaje in
  let puntuacion := 0%Q in
  patrones <- atributo self_patrones_urgencia_critica ;;
  let puntuacion :=
    fold_left (fun p patron =>
                 let matches := re_count true patron mensaje_lower in
                 (p + n2q matches * 2)%Q)
              patrones puntuacion in
  patrones <- atributo self_patrones_violencia ;;
  let puntuacion :=
    fold_left (fun p patron =>
                 let matches := re_count true patron mensaje_lower in
                 (p + n2q matches * 3)%Q)
              patrones puntuacion in
  let puntuacion :=
    fold_left (fun p palabra =>
                 if str_in palabra mensaje_lower
                 then let count := str_count palabra mensaje_lower in
                      (p + n2q count * (3 # 2))%Q
                 else p)
              palabras_criticas puntuacion in
  let exclamaciones := str_count (T "!") mensaje in
  let puntuacion :=
    if (3 <=? exclamaciones)%nat then (puntuacion + 2)%Q else puntuacion in
  let puntuacion :=
    if (3 <=? palabras_mayusculas mensaje)%nat then (puntuacion + 1)%Q
    else puntuacion in
  ret (nivel_de_puntuacion puntuacion).

Definition sugerir_categoria_mejorada (mensaje : text) : M text :=
  let mensaje_lower := str_lower mensaje in
  categorias <- atributo self_patrones_categorias ;;
  let puntuaciones :=
    map (fun entry => (fst entry, puntuacion_categoria mensaje_lower entry))
        categorias in
  ret match puntuaciones with
      | [] => T "otros"
      | kv :: l =>
        let (categoria_sugerida, puntuacion) := max_key l kv in
        if (0 <? puntuacion)%nat then categoria_sugerida else T "otros"
      end.

Definition extraer_entidades (mensaje : text) : M Entidades :=
  patrones <- atributo self_patrones_tiempo ;;
  let tiempos := extraer patrones mensaje in
  patrones <- atributo self_patrones_lugares ;;
  let lugares := extraer patrones mensaje in
  patrones <- atributo self_patrones_evidencia ;;
  let evidencias := extraer patrones mensaje in
  let personas := nombres_propios mensaje in
  ret {| ent_tiempos := set_to_list tiempos;
         ent_lugares := set_to_list lugares;
         ent_personas := set_to_list personas;
         ent_evidencias := set_to_list evidencias |}.

Definition analizar_sentimientos (mensaje : text) : M Sentimientos :=
  let mensaje_lower := str_lower mensaje in
  emociones <- atributo self_patrones_emociones ;;
  let detectadas :=
    flat_map (fun entry : text * list regex =>
                let (emocion, patrones) := entry in
                let intensidad := coincidencias patrones mensaje_lower in
                if (0 <? intensidad)%nat
                then [(emocion, Nat.min intensidad 5)] else [])
             emociones in
  let negatividad :=
    List.length (filter (fun palabra => str_in palabra mensaje_lower) palabras_negativas) in
  let positividad :=
    List.length (filter (fun palabra => str_in palabra mensaje_lower) palabras_positivas) in
  let polaridad :=
    if (positividad <? negatividad)%nat then T "negativa"
    else if (negatividad <? positividad)%nat then T "positiva"
    else T "neutral" in
  let intensidad_total := list_sum (map snd detectadas) in
  let nivel_intensidad :=
    if (intensidad_total <=? 2)%nat then T "baja"
    else if (intensidad_total <=? 5)%nat then T "media"
    else T "alta" in
  ret {| emociones_detectadas := detectadas;
         polaridad := polaridad;
         intensidad := nivel_intensidad;
         requiere_apoyo_emocional :=
           (4 <=? intensidad_total)%nat || has_key (T "miedo") detectadas |}.

Definition generar_alertas (mensaje : text) (urgencia : NivelUrgencia)
    (prioridad : Z) : M (list Alerta) :=
  let alertas := [] in
  let mensaje_lower := str_lower mensaje in
  umbrales <- atributo self_umbrales_alerta ;;
  let alertas :=
    append_if (umbrales URGENCIA_CRITICA <=? nivel_value urgencia)%Z
              (alerta_urgencia_critica urgencia) alertas in
  patrones <- atributo self_patrones_violencia ;;
  let patrones_violencia_count :=
    List.length (filter (fun patron => re_search true patron mensaje_lower)
                        patrones) in
  umbrales <- atributo self_umbrales_alerta ;;
  let alertas :=
    append_if (umbrales CONTENIDO_VIOLENTO <=? Z.of_nat patrones_violencia_count)%Z
              alerta_contenido_violento alertas in
  let amenazas_directas := re_findall false re_amenazas_directas mensaje_lower in
  umbrales <- atributo self_umbrales_alerta ;;
  let alertas :=
    append_if (umbrales AMENAZA_DIRECTA <=? Z.of_nat (List.length amenazas_directas))%Z
              alerta_amenaza_directa alertas in
  let indicadores_riesgo := re_findall false re_indicadores_riesgo mensaje_lower in
  umbrales <- atributo self_umbrales_alerta ;;
  let alertas :=
    append_if (umbrales SITUACION_RIESGO <=? Z.of_nat (List.length indicadores_riesgo))%Z
              alerta_situacion_riesgo alertas in
  let evidencias_count := re_count false re_evidencias_alerta mensaje_lower in
  umbrales <- atributo self_umbrales_alerta ;;
  let alertas :=
    append_if (umbrales EVIDENCIA_SOLIDA <=? Z.of_nat evidencias_count)%Z
              alerta_evidencia_solida alertas in
  ret alertas.

(** [categoria not in d] and [d[categoria]] are one look-up of the
    dictionary read from [self]. *)
Definition _calcular_confianza_categoria (mensaje categoria : text) : M Q :=
  categorias <- atributo self_patrones_categorias ;;
  match lookup categoria categorias with
  | None => ret (1 # 2)%Q
  | Some patrones =>
    let mensaje_lower := str_lower mensaje in
    let matches := coincidencias patrones mensaje_lower in
    let confianza := qmin (n2q matches / n2q (List.length patrones)) 1 in
    ret (py_round_digits confianza 2)
  end.

Definition _get_categorias_alternativas (mensaje : text) : M (list text) :=
  let mensaje_lower := str_lower mensaje in
  categorias <- atributo self_patrones_categorias ;;
  let puntuaciones :=
    flat_map (fun entry : text * list regex =>
                let (categoria, patrones) := entry in
                let puntuacion := coincidencias patrones mensaje_lower in
                if (0 <? puntuacion)%nat then [(categoria, puntuacion)] else [])
             categorias in
  let alternativas := firstn 3 (sorted_desc puntuaciones) in
  ret (map fst alternativas).

(** [analizar_denuncia_completa]; the methods that read no attribute
    ([calcular_prioridad], [evaluar_evidencias], [generar_recomendaciones]
    and the helpers of the result) are the functions above. *)
Definition analizar_denuncia_completa (mensaje : text) : M Analisis :=
  timestamp <- datetime_now_isoformat ;;
  urgencia <- detectar_urgencia mensaje ;;
  categoria <- sugerir_categoria_mejorada mensaje ;;
  let prioridad := calcular_prioridad mensaje urgencia in
  entidades <- extraer_entidades mensaje ;;
  sentimientos <- analizar_sentimientos mensaje ;;
  let evidencias := evaluar_evidencias mensaje in
  alertas <- generar_alertas mensaje urgencia prioridad ;;
  let recomendaciones := generar_recomendaciones urgencia categoria evidencias alertas in
  confianza <- _calcular_confianza_categoria mensaje categoria ;;
  alternativas <- _get_categorias_alternativas mensaje ;;
  ret {| timestamp_analisis := timestamp;
         urgencia := {| urg_nivel := nivel_name urgencia;
                        urg_valor := nivel_value urgencia;
                        urg_descripcion := _get_descripcion_urgencia urgencia |};
         categoria := {| cat_sugerida := categoria;
                         cat_confianza := confianza;
                         cat_alternativas := alternativas |};
         prioridad := {| pri_puntuacion := prioridad;
                         pri_nivel := _get_nivel_prioridad prioridad;
                         pri_justificacion := _get_justificacion_prioridad prioridad |};
         entidades := entidades;
         sentimientos := sentimientos;
         evidencias := evidencias;
         alertas := alertas;
         recomendaciones := recomendaciones;
         requiere_atencion_inmediata := _requiere_atencion_inmediata urgencia alertas;
         puntuacion_veracidad := _calcular_veracidad evidencias entidades;
         resumen_ejecutivo :=
           _generar_resumen_ejecutivo mensaje urgencia categoria alertas |}.

(** A series of calls of [analizar_denuncia_completa] on the agent, one
    per message: the results in the order of the calls. *)
Fixpoint analizar_varias (mensajes : list text) : M (list Analisis) :=
  match mensajes with
  | [] => ret []
  | mensaje :: resto =>
    analisis <- analizar_denuncia_completa mensaje ;;
    otros <- analizar_varias resto ;;
    ret (analisis :: otros)
  end.

End Metodos.

End Metodos.

(** A computation that only reads the agent: it leaves the process as it
    found it, and its value is the same in every process whose agent has
    the same attributes. *)
Definition solo_lee {A : Type} (m : Metodos.M A) : Prop :=
  forall p,
    snd (m p) = p
    /\ forall q, pr_agente q = pr_agente p -> fst (m q) = fst (m p).

(** The process after one more reading of the clock. *)
Definition tras_lectura (p : Proceso) : Proceso := {|
  pr_agente := pr_agente p;
  pr_reloj := pr_reloj p;
  pr_lecturas := S (pr_lecturas p)
|}.

(** * The code around the engine *)

(** ** [UtilsTexto] ([src/agente_ia_simple/base.py])

    The two substitutions of [limpiar_texto] are written out directly:
    the first pattern is a negated set of single characters, the second
    the runs of whitespace. *)

Section UtilsTexto.
Context {U : Unicode}.

(** A character outside [[^\w\s\.,!?;:]]. *)
Definition caracter_permitido (c : N) : bool :=
  is_word c || is_space c || existsb (N.eqb c) [46; 44; 33; 63; 59; 58].

(** [re.sub(r'[^\w\s\.,!?;:]', ' ', texto)] *)
Definition sub_especiales (texto : text) : text :=
  map (fun c => if caracter_permitido c then c else 32) texto.

(** [re.sub(r'\s+', ' ', texto)]; [en_blanco] says that the run of
    whitespace being read has been replaced already. *)
Fixpoint sub_espacios (texto : text) (en_blanco : bool) : text :=
  match texto with
  | [] => []
  | c :: r =>
    if is_space c
    then if en_blanco then sub_espacios r true else 32 :: sub_espacios r true
    else c :: sub_espacios r false
  end.

Definition limpiar_texto (texto : text) : text :=
  match texto with
  | [] => []
  | _ :: _ => str_strip (sub_espacios (sub_especiales texto) false)
  end.

End UtilsTexto.

(** [valor * peso] for a [str] and a [float]: Python raises TypeError,
    given here by its message. *)
Definition error_str_por_float : text :=
  T "can't multiply sequence by non-int of type 'float'".

Definition str_por_float (valor : text) (peso : Q) : text + Q :=
  inl error_str_por_float.

(** [sum(valor * peso for valor, peso in items)]: [dict.items()] yields
    the key first, so [valor] is the name of the factor. *)
Fixpoint suma_productos (items : list (text * Q)) (acc : Q) : text + Q :=
  match items with
  | [] => inr acc
  | (valor, peso) :: r =>
    match str_por_float valor peso with
    | inl e => inl e
    | inr p => suma_productos r (acc + p)%Q
    end
  end.

Definition qmax (a b : Q) : Q := if Qle_bool a b then b else a.

(** [sum(pesos)] for a list of floats.  Each addition is rounded to a
    float, so the result need not be the exact sum of the weights:
    [0.1 + 0.2 - 0.3] is not zero in floats, and [1e16 + 1.0 - 1e16] is.
    A weight is kept as the number it stands for and the sum the
    interpreter computes is a parameter, of which one fact is used: no
    rounding takes a sum of positive weights down to zero or below. *)
Class SumaFlotante := {
  suma_flotante : list Q -> Q;
  suma_flotante_positiva :
    forall pesos, pesos <> [] -> Forall (fun peso => 0 < peso)%Q pesos ->
                  (0 < suma_flotante pesos)%Q
}.

(** The sum without rounding. *)
Definition suma_exacta (pesos : list Q) : Q := fold_left Qplus pesos 0%Q.

Section ConfianzaBasica.
Context {SF : SumaFlotante}.

(** [UtilsTexto.calcular_confianza_basica]: the value, or the message of
    the exception raised. *)
Definition calcular_confianza_basica (factores : list (text * Q)) : text + Q :=
  match factores with
  | [] => inr (1 # 2)
  | _ :: _ =>
    let total_peso := suma_flotante (map snd factores) in
    if Qeq_bool total_peso 0 then inr (1 # 2)
    else match suma_productos factores 0%Q with
         | inl e => inl e
         | inr suma => inr (qmax 0 (qmin 1 (suma / total_peso)))
         end
  end.

End ConfianzaBasica.

(** ** [AgenteIABase.procesar_denuncia_completo]
    ([src/agente_ia_simple/base.py])

    The two abstract methods are parameters: each returns its result or
    raises an exception, given by its message. *)

Record Estadisticas := {
  clasificaciones_realizadas : nat;
  analisis_realizados : nat;
  errores_encontrados : nat
}.

Record AgenteIABase := {
  ag_nombre : text;
  ag_version : text;
  ag_configurado : bool;
  ag_estadisticas : Estadisticas
}.

(** [AgenteIABase.__init__], for the class named [nombre] *)
Definition agente_base_init (nombre : text) : AgenteIABase := {|
  ag_nombre := nombre;
  ag_version := T "2.0-simplificado";
  ag_configurado := false;
  ag_estadisticas := {| clasificaciones_realizadas := 0;
                        analisis_realizados := 0;
                        errores_encontrados := 0 |}
|}.

Inductive ResultadoCompleto (C V : Type) :=
| Exitoso (timestamp agente_usado : text) (clasificacion : C) (veracidad : V)
| Fallido (timestamp agente_usado error : text).

Arguments Exitoso {C V}.
Arguments Fallido {C V}.

(** ['procesamiento_exitoso'] *)
Definition procesamiento_exitoso {C V} (r : ResultadoCompleto C V) : bool :=
  match r with Exitoso _ _ _ _ => true | Fallido _ _ _ => false end.

Definition con_estadisticas (self : AgenteIABase) (e : Estadisticas) : AgenteIABase := {|
  ag_nombre := ag_nombre self;
  ag_version := ag_version self;
  ag_configurado := ag_configurado self;
  ag_estadisticas := e
|}.

Definition registrar_exito (e : Estadisticas) : Estadisticas := {|
  clasificaciones_realizadas := S (clasificaciones_realizadas e);
  analisis_realizados := S (analisis_realizados e);
  errores_encontrados := errores_encontrados e
|}.

Definition registrar_error (e : Estadisticas) : Estadisticas := {|
  clasificaciones_realizadas := clasificaciones_realizadas e;
  analisis_realizados := analisis_realizados e;
  errores_encontrados := S (errores_encontrados e)
|}.

(** The result and the agent after the call; [timestamp] is the clock
    when the result is built. *)
Definition procesar_denuncia_completo {C V : Type}
    (clasificar_denuncia : text -> text + C)
    (analizar_veracidad : text -> text + V)
    (timestamp : text) (self : AgenteIABase) (mensaje : text)
    : ResultadoCompleto C V * AgenteIABase :=
  match clasificar_denuncia mensaje with
  | inl e =>
    (Fallido timestamp (ag_nombre self) e,
     con_estadisticas self (registrar_error (ag_estadisticas self)))
  | inr resultado_clasificacion =>
    match analizar_veracidad mensaje with
    | inl e =>
      (Fallido timestamp (ag_nombre self) e,
       con_estadisticas self (registrar_error (ag_estadisticas self)))
    | inr resultado_veracidad =>
      (Exitoso timestamp (ag_nombre self) resultado_clasificacion resultado_veracidad,
       con_estadisticas self (registrar_exito (ag_estadisticas self)))
    end
  end.

(** ** [ClasificadorSimplificado.analizar_veracidad]
    ([src/agente_ia_simple/clasificador.py])

    The searches for proper names and for places use character ranges,
    outside the fragment of [re] modelled here; their outcomes are
    parameters. *)

Record Veracidad := {
  nivel_veracidad : text;
  ver_confianza : Q;
  factores_analizados : list (text * Q);
  ver_metodo : text;
  ver_timestamp : text
}.

Definition re_fecha_completa := re "\d{1,2}/\d{1,2}/\d{4}".

Section Clasificador.
Context {U : Unicode} {SF : SumaFlotante}.
Variable busca_nombres_propios : text -> bool.   (* [A-Z][a-z]+\s+[A-Z][a-z]+ *)
Variable busca_lugares : text -> bool.           (* en\s+[A-Z][a-z]+ *)

Definition _resultado_veracidad_vacio (timestamp : text) : Veracidad := {|
  nivel_veracidad := T "BAJA";
  ver_confianza := 1 # 10;
  factores_analizados := [];
  ver_metodo := T "analisis_simplificado";
  ver_timestamp := timestamp
|}.

(** The dictionary [factores] when [calcular_confianza_basica] is called. *)
Definition factores_veracidad (mensaje : text) : list (text * Q) :=
  let texto_limpio := limpiar_texto mensaje in
  let factores := [] in
  let longitud := List.length (str_split texto_limpio) in
  let factores :=
    factores
    ++ [(T "longitud",
         if (longitud <? 5)%nat then 2 # 10
         else if (50 <? longitud)%nat then 9 # 10
         else ((1 # 2) + n2q longitud / 100)%Q)] in
  let especificidad := (1 # 2)%Q in
  let especificidad :=
    if re_search false re_fecha_completa mensaje
    then (especificidad + (2 # 10))%Q else especificidad in
  let especificidad :=
    if busca_nombres_propios mensaje
    then (especificidad + (15 # 100))%Q else especificidad in
  let especificidad :=
    if busca_lugares mensaje
    then (especificidad + (1 # 10))%Q else especificidad in
  let factores := factores ++ [(T "especificidad", qmin 1 especificidad)] in
  let factores := factores ++ [(T "coherencia", 7 # 10)] in
  factores.

Definition analizar_veracidad (timestamp mensaje : text) : text + Veracidad :=
  match mensaje with
  | [] => inr (_resultado_veracidad_vacio timestamp)
  | _ :: _ =>
    let factores := factores_veracidad mensaje in
    match calcular_confianza_basica factores with
    | inl e => inl e
    | inr confianza_veracidad =>
      let nivel :=
        if Qle_bool (7 # 10) confianza_veracidad then T "ALTA"
        else if Qle_bool (4 # 10) confianza_veracidad then T "MEDIA"
        else T "BAJA" in
      inr {| nivel_veracidad := nivel;
             ver_confianza := confianza_veracidad;
             factores_analizados := factores;
             ver_metodo := T "analisis_simplificado";
             ver_timestamp := timestamp |}
    end
  end.

End Clasificador.

(** ** The modes of [GestorAgenteIASimplificado]
    ([src/agente_ia_simple/gestor.py]) *)

(** What the gestor reads of an [AgenteOpenAISimplificado]. *)
Record AgenteOpenAI := {
  ao_api_key : option text;
  openai_disponible : bool
}.

(** [bool(x)] for an optional string *)
Definition truthy_opt (x : option text) : bool :=
  match x with Some (_ :: _) => true | _ => false end.

(** [AgenteOpenAISimplificado(api_key)]; [openai_instalado] says whether
    [import openai] succeeds. *)
Definition agente_openai_init (openai_instalado : bool) (api_key : option text)
    : AgenteOpenAI := {|
  ao_api_key := api_key;
  openai_disponible := openai_instalado && truthy_opt api_key
|}.

Record Gestor := {
  g_api_key_openai : option text;
  g_agente_openai : option AgenteOpenAI;
  g_modo : text;
  g_configurado : bool
}.

(** [GestorAgenteIASimplificado.__init__] *)
Definition gestor_init (openai_instalado : bool) (api_key_openai : option text)
    : Gestor :=
  let agente_openai :=
    if truthy_opt api_key_openai
    then Some (agente_openai_init openai_instalado api_key_openai)
    else None in
  {| g_api_key_openai := api_key_openai;
     g_agente_openai := agente_openai;
     g_modo := match agente_openai with Some _ => T "hibrido" | None => T "local" end;
     g_configurado := true |}.

Definition con_modo (self : Gestor) (modo : text) : Gestor := {|
  g_api_key_openai := g_api_key_openai self;
  g_agente_openai := g_agente_openai self;
  g_modo := modo;
  g_configurado := g_configurado self
|}.

Definition tiene_openai (self : Gestor) : bool :=
  match g_agente_openai self with Some _ => true | None => false end.

(** [cambiar_modo]: the answer and the gestor after the call. *)
Definition cambiar_modo (self : Gestor) (nuevo_modo : text) : bool * Gestor :=
  if text_eqb nuevo_modo (T "local") then (true, con_modo self (T "local"))
  else if text_eqb nuevo_modo (T "openai") && tiene_openai self
  then (true, con_modo self (T "openai"))
  else if text_eqb nuevo_modo (T "hibrido") && tiene_openai self
  then (true, con_modo self (T "hibrido"))
  else (false, self).

(** [configurar_openai]; building the agent raises nothing. *)
Definition configurar_openai (openai_instalado : bool) (self : Gestor)
    (api_key : text) : bool * Gestor :=
  (true,
   {| g_api_key_openai := Some api_key;
      g_agente_openai := Some (agente_openai_init openai_instalado (Some api_key));
      g_modo := T "hibrido";
      g_configurado := g_configurado self |}).

(** A call on the gestor that can change its mode. *)
Inductive OperacionGestor :=
| CambiarModo (nuevo_modo : text)
| ConfigurarOpenAI (api_key : text).

Definition aplicar (openai_instalado : bool) (self : Gestor) (op : OperacionGestor)
    : Gestor :=
  match op with
  | CambiarModo nuevo_modo => snd (cambiar_modo self nuevo_modo)
  | ConfigurarOpenAI api_key => snd (configurar_openai openai_instalado self api_key)
  end.

(** ** The administrator's views on the analyses
    ([interfaces/controlador_navegacion.py]) *)

(** What the views read of a stored complaint: ['mensaje'], absent or of
    any type, and ['analisis_ia'] once analysed. *)
Record Denuncia := {
  den_mensaje : option PyVal;
  den_analisis_ia : option Analisis
}.

Record ResultadosMasivo := {
  total_procesadas : nat;
  alta_urgencia : nat;
  alertas_criticas : nat;
  alta_veracidad : nat;
  rm_categorias : list (text * nat)
}.

(** [d[k] = d.get(k, 0) + 1] *)
Fixpoint incrementar (k : text) (d : list (text * nat)) : list (text * nat) :=
  match d with
  | [] => [(k, 1%nat)]
  | (k', v) :: d' =>
    if text_eqb k k' then (k', S v) :: d' else (k', v) :: incrementar k d'
  end.

Section Vistas.
Context {U : Unicode} {SO : SetOrder}.

(** The statistics after one analysis. *)
Definition acumular (resultados : ResultadosMasivo) (analisis : Analisis)
    : ResultadosMasivo := {|
  total_procesadas := S (total_procesadas resultados);
  alta_urgencia :=
    if (4 <=? urg_valor (urgencia analisis))%Z
    then S (alta_urgencia resultados) else alta_urgencia resultados;
  alertas_criticas :=
    match alertas analisis with
    | [] => alertas_criticas resultados
    | _ :: _ =>
      (alertas_criticas resultados
       + List.length (filter (fun a => text_eqb (al_prioridad a) (T "crítica"))
                             (alertas analisis)))%nat
    end;
  alta_veracidad :=
    if Qle_bool (7 # 10) (puntuacion_veracidad analisis)
    then S (alta_veracidad resultados) else alta_veracidad resultados;
  rm_categorias :=
    incrementar (cat_sugerida (categoria analisis)) (rm_categorias resultados)
|}.

(** The loop of [_analisis_masivo] from the [i]-th complaint on; [reloj i]
    is the clock during the [i]-th iteration.  A complaint whose message
    is false is passed over, one whose analysis raises is reported and
    left as it was. *)
Fixpoint analisis_masivo_desde (reloj : nat -> text) (i : nat)
    (denuncias : list Denuncia) (resultados : ResultadosMasivo)
    : ResultadosMasivo * list Denuncia :=
  match denuncias with
  | [] => (resultados, [])
  | denuncia :: resto =>
    let mensaje := match den_mensaje denuncia with Some v => v | None => VStr [] end in
    let (resultados', denuncia') :=
      if truthy mensaje
      then match analizar_denuncia_completa_py (reloj i) mensaje with
           | inr analisis =>
             (acumular resultados analisis,
              {| den_mensaje := den_mensaje denuncia;
                 den_analisis_ia := Some analisis |})
           | inl _ => (resultados, denuncia)
           end
      else (resultados, denuncia) in
    let (final, resto') := analisis_masivo_desde reloj (S i) resto resultados' in
    (final, denuncia' :: resto')
  end.

Definition resultados_iniciales : ResultadosMasivo := {|
  total_procesadas := 0;
  alta_urgencia := 0;
  alertas_criticas := 0;
  alta_veracidad := 0;
  rm_categorias := []
|}.

(** With no complaint stored the method returns before the loop, which
    would have nothing to do. *)
Definition _analisis_masivo (reloj : nat -> text) (denuncias : list Denuncia)
    : ResultadosMasivo * list Denuncia :=
  analisis_masivo_desde reloj 1 denuncias resultados_iniciales.

End Vistas.

(** [_ver_alertas_criticas]: the analysed complaints with an alert of
    priority "crítica" or "alta", each with those alerts. *)
Definition alertas_altas (analisis : Analisis) : list Alerta :=
  filter (fun a => text_mem (al_prioridad a) [T "crítica"; T "alta"])
         (alertas analisis).

Definition _ver_alertas_criticas (denuncias : list Denuncia)
    : list (Denuncia * list Alerta) :=
  flat_map (fun denuncia =>
              match den_analisis_ia denuncia with
              | Some analisis =>
                match alertas_altas analisis with
                | [] => []
                | alertas_criticas => [(denuncia, alertas_criticas)]
                end
              | None => []
              end)
           denuncias.

(** ** The alerts as a table *)

(** The alerts raised when the five tests come out as [b1] ... [b5]. *)
Definition alertas_por_pruebas (u : NivelUrgencia) (b1 b2 b3 b4 b5 : bool)
    : list Alerta :=
  append_if b5 alerta_evidencia_solida
    (append_if b4 alerta_situacion_riesgo
       (append_if b3 alerta_amenaza_directa
          (append_if b2 alerta_contenido_violento
             (append_if b1 (alerta_urgencia_critica u) [])))).

(** The position of an alert kind in the table of kinds. *)
Definition orden_alerta (tipo : text) : nat :=
  if text_eqb tipo (T "urgencia_critica") then 1
  else if text_eqb tipo (T "contenido_violento") then 2
  else if text_eqb tipo (T "amenaza_directa") then 3
  else if text_eqb tipo (T "situacion_riesgo") then 4
  else if text_eqb tipo (T "evidencia_solida") then 5
  else 0.


(** ** Complaints that the bulk analysis can analyse *)

(** The message is a string and is not empty. *)
Definition analizable (d : Denuncia) : bool :=
  match den_mensaje d with
  | Some (VStr (_ :: _)) => true
  | _ => false
  end.

(** The statistics add up. *)
Definition estadisticas_coherentes (r : ResultadosMasivo) : Prop :=
  list_sum (map snd (rm_categorias r)) = total_procesadas r
  /\ (alta_urgencia r <= total_procesadas r)%nat
  /\ (alertas_criticas r <= total_procesadas r)%nat
  /\ (alta_veracidad r <= total_procesadas r)%nat.

(** ** The mode of the gestor and its OpenAI agent *)

(** The mode is one of the three, and a mode that uses OpenAI has an
    OpenAI agent. *)
Definition modo_coherente (self : Gestor) : Prop :=
  g_modo self = T "local"
  \/ ((g_modo self = T "openai" \/ g_modo self = T "hibrido")
      /\ tiene_openai self = true).

(** ** A series of calls on one agent *)

(** [procesar_denuncia_completo] on each message in turn: the results and
    the agent at the end. *)
Fixpoint procesar_varias {C V : Type}
    (clasificar_denuncia : text -> text + C)
    (analizar_veracidad : text -> text + V)
    (reloj : nat -> text) (i : nat) (self : AgenteIABase) (mensajes : list text)
    : list (ResultadoCompleto C V) * AgenteIABase :=
  match mensajes with
  | [] => ([], self)
  | mensaje :: resto =>
    let (r, self') :=
      procesar_denuncia_completo clasificar_denuncia analizar_veracidad
        (reloj i) self mensaje in
    let (rs, final) :=
      procesar_varias clasificar_denuncia analizar_veracidad reloj (S i) self' resto in
    (r :: rs, final)
  end.

(** Both methods return on [mensaje]. *)
Definition ambos_retornan {C V : Type}
    (clasificar_denuncia : text -> text + C)
    (analizar_veracidad : text -> text + V) (mensaje : text) : bool :=
  match clasificar_denuncia mensaje, analizar_veracidad mensaje with
  | inr _, inr _ => true
  | _, _ => false
  end.

(** ** Normalised whitespace *)

Section NormalWhitespace.
Context {U : Unicode}.

(** Every whitespace character of [t] is U+0020 and no two of them are
    adjacent; [blanco] says that a whitespace character precedes [t]. *)
Fixpoint normal_ws (t : text) (blanco : bool) : bool :=
  match t with
  | [] => true
  | c :: r =>
    if is_space c then negb blanco && (c =? 32) && normal_ws r true
    else normal_ws r false
  end.

(** Whether [t] ends in whitespace; [blanco] answers for the empty text. *)
Fixpoint fin_blanco (t : text) (blanco : bool) : bool :=
  match t with
  | [] => blanco
  | c :: r => fin_blanco r (is_space c)
  end.

End NormalWhitespace.

(** ** The local agent under the gestor *)

Section AgenteLocal.
Context {U : Unicode} {SF : SumaFlotante}.
Variable C : Type.
Variable clasificar_denuncia : text -> text + C.
Variables busca_nombres_propios busca_lugares : text -> bool.

(** [self.agente_local.procesar_denuncia_completo(mensaje)], the call the
    gestor makes on its [ClasificadorSimplificado]: [reloj_veracidad] is
    the clock read by [analizar_veracidad], [timestamp] the one read when
    the result is built. *)
Definition agente_local_completo (reloj_veracidad timestamp : text)
    (self : AgenteIABase) (mensaje : text)
    : text + ResultadoCompleto C Veracidad :=
  inr (fst (procesar_denuncia_completo clasificar_denuncia
              (analizar_veracidad busca_nombres_propios busca_lugares reloj_veracidad)
              timestamp self mensaje)).

End AgenteLocal.

(** * Notions in which the properties are stated *)

Section Notions.
Context {U : Unicode}.

(** ** The urgency score *)

(** The matches of all patterns of a group, added up. *)
Definition total_matches (patrones : list regex) (s : text) : nat :=
  list_sum (map (fun patron => re_count true patron s) patrones).

(** The occurrences of all keywords of a list, added up; occurrences
    are counted as [str.count] counts them, left to right and without
    overlap. *)
Definition total_occurrences (palabras : list text) (s : text) : nat :=
  list_sum (map (fun palabra => str_count palabra s) palabras).

(** An all-caps word of length greater than 2: more than two characters,
    and upper case as [str.isupper] has it. *)
Definition all_caps_word (palabra : text) : bool :=
  (2 <? List.length palabra)%nat && str_isupper palabra.

(** The all-caps words of length greater than 2 among the words of the
    text, which are its pieces between runs of whitespace; each word adds
    one to the count. *)
Definition all_caps_words (mensaje : text) : nat :=
  list_sum (map (fun palabra => if all_caps_word palabra then 1%nat else 0%nat)
                (str_split mensaje)).

(** The score as the specification words it: a weighted sum. *)
Definition spec_puntuacion_urgencia (mensaje : text) : Q :=
  (2 * n2q (total_matches patrones_urgencia_critica (str_lower mensaje))
   + 3 * n2q (total_matches patrones_violencia (str_lower mensaje))
   + (3 # 2) * n2q (total_occurrences palabras_criticas (str_lower mensaje))
   + (if (3 <=? str_count (T "!") mensaje)%nat then 2 else 0)
   + (if (3 <=? all_caps_words mensaje)%nat then 1 else 0))%Q.

(** ** The priority score *)

(** The score as the specification words it, before rounding. *)
Definition spec_prioridad (mensaje : text) (urgencia : NivelUrgencia) : Q :=
  let evidence := re_count false re_prioridad_evidencia (str_lower mensaje) in
  let recent := re_count false re_prioridad_tiempo (str_lower mensaje) in
  let people := re_count false re_prioridad_personas (str_lower mensaje) in
  let impact := re_count false re_prioridad_impacto (str_lower mensaje) in
  qmin (inject_Z (nivel_value urgencia)
        + qmin (n2q evidence * (1 # 2)) 1
        + qmin (n2q recent * (3 # 10)) (8 # 10)
        + qmin (n2q people * (2 # 10)) (6 # 10)
        + qmin (n2q impact * (3 # 10)) (7 # 10))%Q 5.

(** ** The alternative categories *)

(** The raw score of a category: the matches of its own patterns, without
    the context bonus of the selection. *)
Definition puntuacion_cruda (mensaje_lower categoria : text) : nat :=
  match lookup categoria patrones_categorias with
  | Some patrones => coincidencias patrones mensaje_lower
  | None => 0%nat
  end.

End Notions.

(** Descending order of the scores of a list of scored entries. *)
Definition desc (a b : text * nat) : Prop := (snd b <= snd a)%nat.

(** The composite result without its time stamp. *)
Definition sin_timestamp (a : Analisis) :=
  (urgencia a, categoria a, prioridad a, entidades a, sentimientos a,
   evidencias a, alertas a, recomendaciones a, requiere_atencion_inmediata a,
   puntuacion_veracidad a, resumen_ejecutivo a).

(** ** Appending words *)

(** [t] followed by [n] occurrences of [k], each after a space. *)
Fixpoint append_occurrences (t k : text) (n : nat) : text :=
  match n with
  | O => t
  | S n' => append_occurrences t k n' ++ 32 :: k
  end.

(** Patterns made of literals other than the space, alternation, groups
    and [\b]: all the urgency and violence patterns. *)
Fixpoint no_space (r : regex) : bool :=
  match r with
  | Eps | WordB => true
  | Chr c => negb (c =? 32)
  | Cls _ | Rep _ _ _ => false
  | Seq r1 r2 | Alt r1 r2 => no_space r1 && no_space r2
  | Grp _ r1 => no_space r1
  end.

(** A match found in a text, seen in the text extended by [x]. *)
Definition extend (x : text) (m : mres) : mres :=
  MRes (consumed m) (prev_after m) (rest_after m ++ x) (caps m).

(** ** A concrete character database *)

(** The database restricted to U+0000..U+00FF (exact there; code points
    above are treated as caseless symbols).  Used to run the engine on
    concrete Spanish text. *)
Module Latin1.
Definition between (a b c : N) : bool := (a <=? c) && (c <=? b).
Definition upper (c : N) : bool :=
  between 65 90 c || between 192 214 c || between 216 222 c.
Definition lower (c : N) : bool :=
  between 97 122 c || (c =? 170) || (c =? 181) || (c =? 186)
  || between 223 246 c || between 248 255 c.
Definition tolower (c : N) : N := if upper c then c + 32 else c.
Definition space (c : N) : bool :=
  between 9 13 c || between 28 32 c || (c =? 133) || (c =? 160).
Definition ignorable (c : N) : bool :=
  existsb (N.eqb c) [39; 46; 58; 94; 96; 168; 173; 175; 180; 183; 184].
Definition decimal (c : N) : bool := between 48 57 c.
Definition word (c : N) : bool :=
  decimal c || upper c || lower c || (c =? 95)
  || (c =? 178) || (c =? 179) || (c =? 185) || between 188 190 c.
Definition iscased (c : N) : bool :=
  upper c || between 97 122 c || (c =? 181)
  || between 224 246 c || between 248 255 c.
Definition fixes (c : N) : list N :=
  if c =? 105 then [305] else if c =? 115 then [383]
  else if c =? 181 then [956] else [].

End Latin1.

(** * Properties *)

(** ** Concrete parameters, for running the engine *)

Lemma latin1_tolower_space c : Latin1.tolower c = 32 <-> c = 32.
Proof.
  unfold Latin1.tolower, Latin1.upper, Latin1.between.
  split; [|intros ->; reflexivity].
  destruct (_ || _) eqn:E; [|auto].
  intros H. exfalso.
  repeat (apply orb_prop in E; destruct E as [E|E]);
    apply andb_prop in E; destruct E as [E1 E2];
    apply N.leb_le in E1; apply N.leb_le in E2; lia.
Qed.

Lemma latin1_fixes_space c : ~ In 32 (Latin1.fixes c).
Proof.
  unfold Latin1.fixes.
  repeat (match goal with |- context [if ?b then _ else _] => destruct b end);
    simpl; intros H; repeat (destruct H as [H|H]; [discriminate|]); exact H.
Qed.

Definition latin1 : Unicode := {|
  to_lower_full := fun c => [Latin1.tolower c];
  is_cased := fun c => Latin1.upper c || Latin1.lower c;
  is_case_ignorable := Latin1.ignorable;
  is_upper := Latin1.upper;
  is_lower := Latin1.lower;
  is_title := fun _ => false;
  is_space := Latin1.space;
  is_decimal := Latin1.decimal;
  is_word := Latin1.word;
  sre_lower := Latin1.tolower;
  sre_iscased := Latin1.iscased;
  sre_fixes := Latin1.fixes;
  space_lower := eq_refl;
  space_cased := eq_refl;
  space_ignorable := eq_refl;
  space_space := eq_refl;
  space_word := eq_refl;
  space_sre_lower := latin1_tolower_space;
  space_fixes := latin1_fixes_space
|}.

Definition first_seen_order : SetOrder := {|
  set_to_list := nodup item_eq_dec;
  set_to_list_perm := fun l => Permutation_refl _
|}.

(** ** Basic facts *)

Lemma text_eqb_eq (a b : text) : text_eqb a b = true <-> a = b.
Proof.
  unfold text_eqb. destruct (list_eq_dec N.eq_dec a b); split; congruence.
Qed.

Lemma text_eqb_refl (a : text) : text_eqb a a = true.
Proof. now apply text_eqb_eq. Qed.

(** Every pattern of the engine lies in the fragment. *)
Lemma patterns_compile :
  forallb (fun p => match ReParse.compile (T p) with Some _ => true | None => false end)
          all_pattern_sources = true.
Proof. vm_compute. reflexivity. Qed.


Lemma n2q_add (a b : nat) : (n2q (a + b) == n2q a + n2q b)%Q.
Proof. unfold n2q. rewrite Nat2Z.inj_add, inject_Z_plus. reflexivity. Qed.

Lemma n2q_nonneg (a : nat) : (0 <= n2q a)%Q.
Proof.
  unfold n2q. change 0%Q with (inject_Z 0). rewrite <- Zle_Qle. lia.
Qed.

Lemma n2q_le (a b : nat) : (a <= b)%nat -> (n2q a <= n2q b)%Q.
Proof. intros H. unfold n2q. rewrite <- Zle_Qle. lia. Qed.

(** *** Substring search *)

Lemma count_from_absent (p s : text) (skip : nat) :
  str_in p s = false -> count_from p s skip = 0%nat.
Proof.
  revert skip. induction s as [|c s IH]; intros skip H; [reflexivity|].
  simpl in H. apply orb_false_elim in H. destruct H as [H1 H2].
  cbn [count_from]. destruct skip as [|k].
  - destruct p as [|a p]; [discriminate|].
    cbn [starts_with] in *. rewrite H1. now apply IH.
  - now apply IH.
Qed.

(** A string that does not occur is counted zero times. *)
Lemma str_count_absent (p s : text) : str_in p s = false -> str_count p s = 0%nat.
Proof.
  intros H. destruct p as [|a p].
  - destruct s; discriminate.
  - now apply count_from_absent.
Qed.

(** ** The urgency score (C1) *)

Section UrgencyScore.
Context {U : Unicode}.

Lemma list_sum_head (a : nat) (l : list nat) :
  list_sum (a :: l) = (a + list_sum l)%nat.
Proof. reflexivity. Qed.

Lemma fold_matches (w : Q) (s : text) (l : list regex) (a : Q) :
  (fold_left (fun p patron => p + n2q (re_count true patron s) * w) l a
   == a + w * n2q (total_matches l s))%Q.
Proof.
  revert a. induction l as [|r l IH]; intros a; cbn [fold_left].
  - unfold total_matches, n2q. simpl. ring.
  - rewrite IH. change (total_matches (r :: l) s)
      with (re_count true r s + total_matches l s)%nat.
    rewrite n2q_add. ring.
Qed.

Lemma fold_occurrences (s : text) (l : list text) (a : Q) :
  (fold_left (fun p palabra =>
                if str_in palabra s
                then p + n2q (str_count palabra s) * (3 # 2) else p) l a
   == a + (3 # 2) * n2q (total_occurrences l s))%Q.
Proof.
  revert a. induction l as [|w l IH]; intros a; cbn [fold_left].
  - unfold total_occurrences, n2q. simpl. ring.
  - rewrite IH. change (total_occurrences (w :: l) s)
      with (str_count w s + total_occurrences l s)%nat.
    rewrite n2q_add. destruct (str_in w s) eqn:E.
    + ring.
    + rewrite (str_count_absent _ _ E). unfold n2q. simpl. ring.
Qed.

(** The counter of the code counts the all-caps words of length greater
    than 2. *)
Lemma palabras_mayusculas_spec (mensaje : text) :
  palabras_mayusculas mensaje = all_caps_words mensaje.
Proof.
  unfold palabras_mayusculas, all_caps_words.
  induction (str_split mensaje) as [|p l IH]; [reflexivity|].
  cbn [filter map]. rewrite list_sum_head, <- IH. unfold all_caps_word.
  rewrite (andb_comm (2 <? List.length p)%nat).
  destruct (str_isupper p && (2 <? List.length p)%nat); reflexivity.
Qed.

Lemma puntuacion_urgencia_spec (mensaje : text) :
  (puntuacion_urgencia mensaje == spec_puntuacion_urgencia mensaje)%Q.
Proof.
  unfold puntuacion_urgencia, spec_puntuacion_urgencia.
  rewrite <- palabras_mayusculas_spec.
  set (s := str_lower mensaje).
  assert (E : (fold_left (fun p palabra =>
                if str_in palabra s
                then p + n2q (str_count palabra s) * (3 # 2) else p)
              palabras_criticas
              (fold_left (fun p patron => p + n2q (re_count true patron s) * 3)
                 patrones_violencia
                 (fold_left (fun p patron => p + n2q (re_count true patron s) * 2)
                    patrones_urgencia_critica 0))
            == 2 * n2q (total_matches patrones_urgencia_critica s)
               + 3 * n2q (total_matches patrones_violencia s)
               + (3 # 2) * n2q (total_occurrences palabras_criticas s))%Q).
  { rewrite fold_occurrences, fold_matches, fold_matches. ring. }
  destruct (3 <=? str_count (T "!") mensaje)%nat,
           (3 <=? palabras_mayusculas mensaje)%nat; rewrite E; ring.
Qed.

Lemma nivel_de_puntuacion_spec (p : Q) :
  (nivel_de_puntuacion p = EMERGENCIA <-> 12 <= p)%Q
  /\ (nivel_de_puntuacion p = CRITICA <-> 8 <= p /\ p < 12)%Q
  /\ (nivel_de_puntuacion p = ALTA <-> 5 <= p /\ p < 8)%Q
  /\ (nivel_de_puntuacion p = MEDIA <-> 2 <= p /\ p < 5)%Q
  /\ (nivel_de_puntuacion p = BAJA <-> p < 2)%Q.
Proof.
  unfold nivel_de_puntuacion.
  destruct (Qle_bool 12 p) eqn:E12; [apply Qle_bool_iff in E12|];
  [|destruct (Qle_bool 8 p) eqn:E8; [apply Qle_bool_iff in E8|];
    [|destruct (Qle_bool 5 p) eqn:E5; [apply Qle_bool_iff in E5|];
      [|destruct (Qle_bool 2 p) eqn:E2; [apply Qle_bool_iff in E2|]]]];
  repeat match goal with
         | H : Qle_bool ?a ?b = false |- _ =>
           assert (b < a)%Q
             by (apply Qnot_le_lt; intros C; apply Qle_bool_iff in C; congruence);
           clear H
         end;
  repeat split; intros; try discriminate; try reflexivity; try lra.
Qed.

(** C1. The urgency score of [detectar_urgencia] is the weighted sum: 2
    for each match of an urgency-critical pattern, 3 for each match of a
    violence pattern, 1.5 for each occurrence of each critical keyword, a
    flat 2 when the text has three or more exclamation marks and a flat 1
    when it has three or more upper-case words longer than two characters;
    and the level is EMERGENCIA iff the score is at least 12, CRITICA iff
    it is in [8, 12), ALTA iff in [5, 8), MEDIA iff in [2, 5), BAJA
    otherwise. *)
Theorem urgency_score_weighted_sum (mensaje : text) :
  let s := spec_puntuacion_urgencia mensaje in
  (puntuacion_urgencia mensaje == s)%Q
  /\ (detectar_urgencia mensaje = EMERGENCIA <-> 12 <= s)%Q
  /\ (detectar_urgencia mensaje = CRITICA <-> 8 <= s /\ s < 12)%Q
  /\ (detectar_urgencia mensaje = ALTA <-> 5 <= s /\ s < 8)%Q
  /\ (detectar_urgencia mensaje = MEDIA <-> 2 <= s /\ s < 5)%Q
  /\ (detectar_urgencia mensaje = BAJA <-> s < 2)%Q.
Proof.
  intros s. pose proof (puntuacion_urgencia_spec mensaje) as E. fold s in E.
  split; [exact E|]. unfold detectar_urgencia.
  destruct (nivel_de_puntuacion_spec (puntuacion_urgencia mensaje))
    as (H1 & H2 & H3 & H4 & H5).
  rewrite H1, H2, H3, H4, H5, E. repeat split; intros; tauto.
Qed.

End UrgencyScore.

(** ** Rounding *)

Lemma py_round_comp (x y : Q) : (x == y)%Q -> py_round x = py_round y.
Proof.
  intros H. unfold py_round. cbv zeta. rewrite (Qfloor_comp _ _ H).
  assert (C : ((x - inject_Z (Qfloor y) ?= 1 # 2)
               = (y - inject_Z (Qfloor y) ?= 1 # 2))%Q).
  { apply Qcompare_comp; [rewrite H|]; reflexivity. }
  rewrite C. reflexivity.
Qed.

Lemma qmin_comp (a b c d : Q) : (a == c)%Q -> (b == d)%Q -> (qmin a b == qmin c d)%Q.
Proof.
  intros H1 H2. unfold qmin.
  destruct (Qle_bool a b) eqn:E1, (Qle_bool c d) eqn:E2; try assumption.
  - apply Qle_bool_iff in E1. rewrite H1, H2 in E1. apply Qle_bool_iff in E1.
    congruence.
  - apply Qle_bool_iff in E2. rewrite <- H1, <- H2 in E2. apply Qle_bool_iff in E2.
    congruence.
Qed.

(** [round] returns an integer nearest to its argument. *)
Lemma py_round_nearest (x : Q) : (Qabs (inject_Z (py_round x) - x) <= 1 # 2)%Q.
Proof.
  unfold py_round.
  pose proof (Qfloor_le x) as Hlo. pose proof (Qlt_floor x) as Hhi.
  rewrite inject_Z_plus in Hhi. change (inject_Z 1) with 1%Q in Hhi.
  apply Qabs_Qle_condition.
  destruct (x - inject_Z (Qfloor x) ?= 1 # 2)%Q eqn:C.
  - apply Qeq_alt in C. destruct (Z.even (Qfloor x));
      [|rewrite inject_Z_plus; change (inject_Z 1) with 1%Q]; split; lra.
  - apply Qlt_alt in C. split; lra.
  - apply Qgt_alt in C. rewrite inject_Z_plus. change (inject_Z 1) with 1%Q.
    split; lra.
Qed.

(** ** The priority score (C5) *)

Section PriorityScore.
Context {U : Unicode}.

(** C5. The priority is the urgency rank plus min(evidence matches x 0.5,
    1) plus min(recent-time matches x 0.3, 0.8) plus min(people matches x
    0.2, 0.6) plus min(organisation-impact matches x 0.3, 0.7), capped at
    5 and then rounded to the nearest integer. *)
Theorem priority_score_formula (mensaje : text) (urgencia : NivelUrgencia) :
  calcular_prioridad mensaje urgencia = py_round (spec_prioridad mensaje urgencia)
  /\ (Qabs (inject_Z (calcular_prioridad mensaje urgencia)
            - spec_prioridad mensaje urgencia) <= 1 # 2)%Q.
Proof.
  assert (E : calcular_prioridad mensaje urgencia
              = py_round (spec_prioridad mensaje urgencia)).
  { unfold calcular_prioridad, spec_prioridad, factores_prioridad.
    apply py_round_comp, qmin_comp; [ring|reflexivity]. }
  split; [exact E|]. rewrite E. apply py_round_nearest.
Qed.

End PriorityScore.

(** ** The composite result (C2, C3, C9, C10) *)

Section Composite.
Context {U : Unicode} {SO : SetOrder}.

(** C3. Analysing the empty string gives urgency BAJA, category "otros",
    credibility muy_baja, no alert, and no need of immediate attention. *)
Theorem empty_string_analysis (timestamp : text) :
  let a := analizar_denuncia_completa timestamp [] in
  detectar_urgencia [] = BAJA
  /\ urg_nivel (urgencia a) = T "BAJA"
  /\ cat_sugerida (categoria a) = T "otros"
  /\ nivel_credibilidad (evidencias a) = T "muy_baja"
  /\ alertas a = []
  /\ requiere_atencion_inmediata a = false.
Proof. vm_compute. repeat split. Qed.

Lemma append_if_cons (c : bool) (a x : Alerta) (l : list Alerta) :
  append_if c a (x :: l) = x :: append_if c a l.
Proof. destruct c; reflexivity. Qed.

(** From rank 3 on, the first alert is the urgency alert. *)
Lemma generar_alertas_urgencia (mensaje : text) (u : NivelUrgencia) (p : Z)
    (H : (3 <= nivel_value u)%Z) :
  exists l, generar_alertas mensaje u p = alerta_urgencia_critica u :: l.
Proof.
  unfold generar_alertas. cbv zeta.
  replace (umbrales_alerta URGENCIA_CRITICA <=? nivel_value u)%Z with true
    by (symmetry; apply Z.leb_le; exact H).
  cbn [append_if app]. rewrite !append_if_cons. eexists. reflexivity.
Qed.

(** C9. Whenever the detected urgency has rank 3 or more (ALTA, CRITICA
    or EMERGENCIA), the composite result requires immediate attention:
    from rank 3 on the alert urgencia_critica, of priority "alta", is
    raised, and an alert of priority "alta" or "crítica" sets the flag. *)
Theorem rank3_requires_attention (timestamp mensaje : text) :
  (3 <= nivel_value (detectar_urgencia mensaje))%Z ->
  let a := analizar_denuncia_completa timestamp mensaje in
  requiere_atencion_inmediata a = true
  /\ In (alerta_urgencia_critica (detectar_urgencia mensaje)) (alertas a)
  /\ al_prioridad (alerta_urgencia_critica (detectar_urgencia mensaje)) = T "alta".
Proof.
  intros H a. subst a.
  cbn [analizar_denuncia_completa requiere_atencion_inmediata alertas].
  destruct (generar_alertas_urgencia mensaje (detectar_urgencia mensaje)
              (calcular_prioridad mensaje (detectar_urgencia mensaje)) H) as [l E].
  rewrite E. split; [|split; [now left|reflexivity]].
  unfold _requiere_atencion_inmediata.
  destruct (4 <=? nivel_value (detectar_urgencia mensaje))%Z; [reflexivity|].
  cbn [filter].
  replace (text_mem (al_prioridad (alerta_urgencia_critica (detectar_urgencia mensaje)))
             [T "crítica"; T "alta"]) with true by (vm_compute; reflexivity).
  reflexivity.
Qed.

Lemma lookup_otros : lookup (T "otros") patrones_categorias = None.
Proof. vm_compute. reflexivity. Qed.

(** C10. When the selected category is the fallback "otros", the reported
    confidence is exactly 0.5, whatever the match counts. *)
Theorem otros_confidence_half (timestamp mensaje : text) :
  sugerir_categoria_mejorada mensaje = T "otros" ->
  cat_confianza (categoria (analizar_denuncia_completa timestamp mensaje)) = 1 # 2.
Proof.
  intros H. cbn [analizar_denuncia_completa categoria cat_confianza].
  rewrite H. unfold _calcular_confianza_categoria. rewrite lookup_otros.
  reflexivity.
Qed.

End Composite.

(** ** The agent across calls (C2) *)

Section Process.
Context {U : Unicode} {SO : SetOrder}.

Lemma solo_lee_ret {A : Type} (a : A) : solo_lee (Metodos.ret a).
Proof. intros p. split; [reflexivity|]. intros q _. reflexivity. Qed.

Lemma solo_lee_atributo {A : Type} (f : AgenteIAMejorado -> A) :
  solo_lee (Metodos.atributo f).
Proof.
  intros p. split; [reflexivity|]. intros q H. unfold Metodos.atributo.
  cbn [fst]. now rewrite H.
Qed.

Lemma solo_lee_bind {A B : Type} (m : Metodos.M A) (f : A -> Metodos.M B) :
  solo_lee m -> (forall a, solo_lee (f a)) -> solo_lee (Metodos.bind m f).
Proof.
  intros Hm Hf p. unfold Metodos.bind.
  assert (R : forall q, pr_agente q = pr_agente p ->
                m q = (fst (m p), q)).
  { intros q H. destruct (Hm p) as [_ V]. destruct (Hm q) as [F _].
    rewrite (surjective_pairing (m q)), F, (V q H). reflexivity. }
  rewrite (R p eq_refl). split.
  - apply (Hf (fst (m p)) p).
  - intros q H. rewrite (R q H). apply (Hf (fst (m p)) p), H.
Qed.

(** What a computation that only reads returns. *)
Lemma solo_lee_run {A : Type} (m : Metodos.M A) (p : Proceso) :
  solo_lee m -> m p = (fst (m p), p).
Proof.
  intros H. destruct (H p) as [F _].
  rewrite (surjective_pairing (m p)) at 1. now rewrite F.
Qed.

Ltac solo_lee_paso :=
  cbv beta zeta;
  first [ apply solo_lee_ret
        | apply solo_lee_atributo
        | apply solo_lee_bind; [|intros ?] ].

(** No method assigns to an attribute of the agent. *)
Lemma detectar_urgencia_solo_lee (mensaje : text) :
  solo_lee (Metodos.detectar_urgencia mensaje).
Proof. unfold Metodos.detectar_urgencia. repeat solo_lee_paso. Qed.

Lemma sugerir_categoria_mejorada_solo_lee (mensaje : text) :
  solo_lee (Metodos.sugerir_categoria_mejorada mensaje).
Proof. unfold Metodos.sugerir_categoria_mejorada. repeat solo_lee_paso. Qed.

Lemma extraer_entidades_solo_lee (mensaje : text) :
  solo_lee (Metodos.extraer_entidades mensaje).
Proof. unfold Metodos.extraer_entidades. repeat solo_lee_paso. Qed.

Lemma analizar_sentimientos_solo_lee (mensaje : text) :
  solo_lee (Metodos.analizar_sentimientos mensaje).
Proof. unfold Metodos.analizar_sentimientos. repeat solo_lee_paso. Qed.

Lemma generar_alertas_solo_lee (mensaje : text) (urgencia : NivelUrgencia)
    (prioridad : Z) :
  solo_lee (Metodos.generar_alertas mensaje urgencia prioridad).
Proof. unfold Metodos.generar_alertas. repeat solo_lee_paso. Qed.

Lemma _calcular_confianza_categoria_solo_lee (mensaje categoria : text) :
  solo_lee (Metodos._calcular_confianza_categoria mensaje categoria).
Proof.
  unfold Metodos._calcular_confianza_categoria.
  apply solo_lee_bind; [apply solo_lee_atributo|]. intros categorias.
  destruct (lookup categoria categorias); repeat solo_lee_paso.
Qed.

Lemma _get_categorias_alternativas_solo_lee (mensaje : text) :
  solo_lee (Metodos._get_categorias_alternativas mensaje).
Proof. unfold Metodos._get_categorias_alternativas. repeat solo_lee_paso. Qed.

(** On the agent as [__init__] builds it, each method returns what the
    function over the tables returns. *)
Lemma detectar_urgencia_inicial (mensaje : text) (p : Proceso) :
  pr_agente p = agente_ia_mejorado_init ->
  fst (Metodos.detectar_urgencia mensaje p) = detectar_urgencia mensaje.
Proof. destruct p as [a r n]. cbn [pr_agente]. intros ->. reflexivity. Qed.

Lemma sugerir_categoria_mejorada_inicial (mensaje : text) (p : Proceso) :
  pr_agente p = agente_ia_mejorado_init ->
  fst (Metodos.sugerir_categoria_mejorada mensaje p)
  = sugerir_categoria_mejorada mensaje.
Proof. destruct p as [a r n]. cbn [pr_agente]. intros ->. reflexivity. Qed.

Lemma extraer_entidades_inicial (mensaje : text) (p : Proceso) :
  pr_agente p = agente_ia_mejorado_init ->
  fst (Metodos.extraer_entidades mensaje p) = extraer_entidades mensaje.
Proof. destruct p as [a r n]. cbn [pr_agente]. intros ->. reflexivity. Qed.

Lemma analizar_sentimientos_inicial (mensaje : text) (p : Proceso) :
  pr_agente p = agente_ia_mejorado_init ->
  fst (Metodos.analizar_sentimientos mensaje p) = analizar_sentimientos mensaje.
Proof. destruct p as [a r n]. cbn [pr_agente]. intros ->. reflexivity. Qed.

Lemma generar_alertas_inicial (mensaje : text) (urgencia : NivelUrgencia)
    (prioridad : Z) (p : Proceso) :
  pr_agente p = agente_ia_mejorado_init ->
  fst (Metodos.generar_alertas mensaje urgencia prioridad p)
  = generar_alertas mensaje urgencia prioridad.
Proof. destruct p as [a r n]. cbn [pr_agente]. intros ->. reflexivity. Qed.

Lemma _calcular_confianza_categoria_inicial (mensaje categoria : text)
    (p : Proceso) :
  pr_agente p = agente_ia_mejorado_init ->
  fst (Metodos._calcular_confianza_categoria mensaje categoria p)
  = _calcular_confianza_categoria mensaje categoria.
Proof.
  destruct p as [a r n]. cbn [pr_agente]. intros ->.
  unfold Metodos._calcular_confianza_categoria, _calcular_confianza_categoria,
    Metodos.bind, Metodos.atributo.
  cbn [pr_agente self_patrones_categorias agente_ia_mejorado_init].
  destruct (lookup categoria patrones_categorias); reflexivity.
Qed.

Lemma _get_categorias_alternativas_inicial (mensaje : text) (p : Proceso) :
  pr_agente p = agente_ia_mejorado_init ->
  fst (Metodos._get_categorias_alternativas mensaje p)
  = _get_categorias_alternativas mensaje.
Proof. destruct p as [a r n]. cbn [pr_agente]. intros ->. reflexivity. Qed.

(** One call: the clock is read once, the agent is left as it was, and the
    result is that of the tables at the time read. *)
Lemma analizar_denuncia_completa_llamada (mensaje : text) (p : Proceso) :
  pr_agente p = agente_ia_mejorado_init ->
  Metodos.analizar_denuncia_completa mensaje p
  = (analizar_denuncia_completa (pr_reloj p (pr_lecturas p)) mensaje,
     tras_lectura p).
Proof.
  intros H.
  assert (H' : pr_agente (tras_lectura p) = agente_ia_mejorado_init) by exact H.
  unfold Metodos.analizar_denuncia_completa.
  unfold Metodos.bind at 1. unfold Metodos.datetime_now_isoformat.
  fold (tras_lectura p). generalize dependent (tras_lectura p). intros q H'.
  unfold Metodos.bind at 1.
  rewrite (solo_lee_run _ q (detectar_urgencia_solo_lee mensaje)),
    (detectar_urgencia_inicial mensaje q H').
  unfold Metodos.bind at 1.
  rewrite (solo_lee_run _ q (sugerir_categoria_mejorada_solo_lee mensaje)),
    (sugerir_categoria_mejorada_inicial mensaje q H').
  cbv zeta. unfold Metodos.bind at 1.
  rewrite (solo_lee_run _ q (extraer_entidades_solo_lee mensaje)),
    (extraer_entidades_inicial mensaje q H').
  unfold Metodos.bind at 1.
  rewrite (solo_lee_run _ q (analizar_sentimientos_solo_lee mensaje)),
    (analizar_sentimientos_inicial mensaje q H').
  unfold Metodos.bind at 1.
  rewrite (solo_lee_run _ q (generar_alertas_solo_lee mensaje _ _)),
    (generar_alertas_inicial mensaje _ _ q H').
  unfold Metodos.bind at 1.
  rewrite (solo_lee_run _ q (_calcular_confianza_categoria_solo_lee mensaje _)),
    (_calcular_confianza_categoria_inicial mensaje _ q H').
  unfold Metodos.bind at 1.
  rewrite (solo_lee_run _ q (_get_categorias_alternativas_solo_lee mensaje)),
    (_get_categorias_alternativas_inicial mensaje q H').
  reflexivity.
Qed.

(** The results of the functions over the tables for a series of
    messages, the [k]-th at the time of the [(n + k)]-th reading. *)
Lemma analizar_varias_llamadas (mensajes : list text) :
  forall p,
    pr_agente p = agente_ia_mejorado_init ->
    pr_agente (snd (Metodos.analizar_varias mensajes p)) = agente_ia_mejorado_init
    /\ pr_reloj (snd (Metodos.analizar_varias mensajes p)) = pr_reloj p
    /\ pr_lecturas (snd (Metodos.analizar_varias mensajes p))
       = (pr_lecturas p + List.length mensajes)%nat
    /\ forall i mensaje a,
         nth_error mensajes i = Some mensaje ->
         nth_error (fst (Metodos.analizar_varias mensajes p)) i = Some a ->
         a = analizar_denuncia_completa (pr_reloj p (pr_lecturas p + i)%nat) mensaje.
Proof.
  induction mensajes as [|m ms IH]; intros p H.
  - cbn. repeat split; try lia; try assumption.
    intros [|i] mensaje a E; discriminate E.
  - assert (E : Metodos.analizar_varias (m :: ms) p
                = (analizar_denuncia_completa (pr_reloj p (pr_lecturas p)) m
                     :: fst (Metodos.analizar_varias ms (tras_lectura p)),
                   snd (Metodos.analizar_varias ms (tras_lectura p)))).
    { cbn [Metodos.analizar_varias]. unfold Metodos.bind at 1.
      rewrite (analizar_denuncia_completa_llamada m p H).
      unfold Metodos.bind.
      destruct (Metodos.analizar_varias ms (tras_lectura p)); reflexivity. }
    rewrite E. clear E.
    assert (H' : pr_agente (tras_lectura p) = agente_ia_mejorado_init) by exact H.
    destruct (IH (tras_lectura p) H') as (I1 & I2 & I3 & I4).
    destruct (Metodos.analizar_varias ms (tras_lectura p)) as [otros q].
    cbn [fst snd] in *. cbn [tras_lectura pr_reloj pr_lecturas] in *.
    repeat split; try assumption.
    + cbn [List.length]. lia.
    + intros [|i] mensaje a E1 E2; cbn [nth_error] in E1, E2.
      * injection E1 as <-. injection E2 as <-. now rewrite Nat.add_0_r.
      * rewrite (I4 i mensaje a E1 E2). now rewrite Nat.add_succ_r.
Qed.

(** C2, as the code has it.  In a process that has constructed the agent
    and then makes any series of calls of [analizar_denuncia_completa],
    the agent keeps the attributes [__init__] gave it, the clock is read
    once a call, and two calls with the same string, anywhere in the
    series, return results equal in every field except
    [timestamp_analisis], which holds the reading of the clock at each
    call. *)
Theorem analysis_deterministic_but_timestamp (reloj : nat -> text)
    (mensajes : list text) :
  let r := Metodos.analizar_varias mensajes (proceso_inicial reloj) in
  pr_agente (snd r) = agente_ia_mejorado_init
  /\ pr_lecturas (snd r) = List.length mensajes
  /\ forall i j mensaje a b,
       nth_error mensajes i = Some mensaje ->
       nth_error mensajes j = Some mensaje ->
       nth_error (fst r) i = Some a ->
       nth_error (fst r) j = Some b ->
       sin_timestamp a = sin_timestamp b
       /\ timestamp_analisis a = reloj i
       /\ timestamp_analisis b = reloj j.
Proof.
  cbv zeta.
  destruct (analizar_varias_llamadas mensajes (proceso_inicial reloj) eq_refl)
    as (H1 & _ & H3 & H4).
  split; [exact H1|]. split; [exact H3|].
  intros i j mensaje a b Mi Mj Ai Bj.
  rewrite (H4 i mensaje a Mi Ai), (H4 j mensaje b Mj Bj).
  cbn [proceso_inicial pr_reloj pr_lecturas Nat.add].
  repeat split.
Qed.

End Process.


(** ** Searching and counting agree *)

Section SearchCount.
Context {U : Unicode}.

Lemma matches_here_nil (ic : bool) (r : regex) (prev : option N) (s : text) :
  fst (matches_here ic r prev s) = [] <-> ends ic r prev s [] = [].
Proof.
  unfold matches_here. destruct (ends ic r prev s []) as [|m ms].
  - split; reflexivity.
  - destruct (nonempty m); [|destruct (filter nonempty ms)];
      split; discriminate.
Qed.

Lemma search_none_scan (ic : bool) (r : regex) (s : text) (prev : option N) :
  search_from ic r prev s = None <-> scan ic r prev s 0 = [].
Proof.
  revert prev. induction s as [|c s IH]; intros prev; cbn [search_from scan].
  - rewrite matches_here_nil. destruct (ends ic r prev [] []); split;
      congruence.
  - destruct (ends ic r prev (c :: s) []) as [|m ms'] eqn:E.
    + unfold matches_here. rewrite E. apply IH.
    + split; [discriminate|].
      pose proof (matches_here_nil ic r prev (c :: s)) as M.
      destruct (matches_here ic r prev (c :: s)) as [ms k]. cbn [fst] in M.
      intros A. apply app_eq_nil in A. destruct A as [A _].
      apply M in A. congruence.
Qed.

(** [re.search] finds a match exactly when [re.findall] finds one. *)
Lemma re_search_count (ic : bool) (r : regex) (s : text) :
  re_search ic r s = (0 <? re_count ic r s)%nat.
Proof.
  unfold re_search, re_count, re_findall. rewrite length_map.
  pose proof (search_none_scan ic r s None) as H.
  destruct (search_from ic r None s), (scan ic r None s 0); try reflexivity.
  - exfalso. assert (E : Some m = None) by now apply H. discriminate.
  - exfalso. assert (E : m :: l = []) by now apply H. discriminate.
Qed.

End SearchCount.

(** ** The alerts (C4) *)

Section Alerts.
Context {U : Unicode}.

Lemma tipo_value_inj (a b : TipoAlerta) : tipo_value a = tipo_value b -> a = b.
Proof. destruct a, b; intros H; try reflexivity; vm_compute in H; discriminate. Qed.

Lemma in_append_if (t : text) (c : bool) (a : Alerta) (l : list Alerta) :
  In t (map al_tipo (append_if c a l))
  <-> In t (map al_tipo l) \/ (c = true /\ al_tipo a = t).
Proof.
  unfold append_if. destruct c.
  - rewrite map_app, in_app_iff. cbn [map In]. intuition.
  - intuition discriminate.
Qed.

(** Which alert kinds a call raises, by the five tests of the code. *)
Lemma generar_alertas_tipos (mensaje : text) (u : NivelUrgencia) (p : Z)
    (t : TipoAlerta) :
  In (tipo_value t) (map al_tipo (generar_alertas mensaje u p))
  <-> match t with
      | URGENCIA_CRITICA => (3 <= nivel_value u)%Z
      | CONTENIDO_VIOLENTO =>
        (2 <= patrones_violencia_count (str_lower mensaje))%nat
      | AMENAZA_DIRECTA =>
        (1 <= re_count false re_amenazas_directas (str_lower mensaje))%nat
      | SITUACION_RIESGO =>
        (2 <= re_count false re_indicadores_riesgo (str_lower mensaje))%nat
      | EVIDENCIA_SOLIDA =>
        (3 <= re_count false re_evidencias_alerta (str_lower mensaje))%nat
      end.
Proof.
  unfold generar_alertas. cbv zeta. rewrite !in_append_if.
  change (al_tipo (alerta_urgencia_critica u)) with (tipo_value URGENCIA_CRITICA).
  change (al_tipo alerta_contenido_violento) with (tipo_value CONTENIDO_VIOLENTO).
  change (al_tipo alerta_amenaza_directa) with (tipo_value AMENAZA_DIRECTA).
  change (al_tipo alerta_situacion_riesgo) with (tipo_value SITUACION_RIESGO).
  change (al_tipo alerta_evidencia_solida) with (tipo_value EVIDENCIA_SOLIDA).
  fold (re_count false re_amenazas_directas (str_lower mensaje)).
  fold (re_count false re_indicadores_riesgo (str_lower mensaje)).
  cbn [umbrales_alerta map In]. rewrite !Z.leb_le.
  destruct t; split; intros H.
  all: try solve [repeat first [solve [right; split; [lia|reflexivity]] | left]].
  all: repeat match goal with
              | H : _ \/ _ |- _ => destruct H
              | H : _ /\ _ |- _ => destruct H
              | H : False |- _ => destruct H
              | H : tipo_value _ = tipo_value _ |- _ =>
                apply tipo_value_inj in H; discriminate H
              end; lia.
Qed.

(** The violence patterns that match at least once. *)
Lemma patrones_violencia_count_spec (s : text) :
  patrones_violencia_count s
  = List.length (filter (fun patron => (0 <? re_count true patron s)%nat)
                        patrones_violencia).
Proof.
  unfold patrones_violencia_count. f_equal. apply filter_ext.
  intros r. apply re_search_count.
Qed.

(** C4, as the code has it.  The alert contenido_violento is raised
    exactly when at least two of the four violence patterns match
    somewhere in the text (two matches of one pattern do not count twice),
    and amenaza_directa exactly when a direct-threat word matches; so a
    text in which two violence patterns match and no direct-threat word
    occurs gets contenido_violento and not amenaza_directa. *)
Theorem violent_content_alert_threshold (mensaje : text) (u : NivelUrgencia)
    (p : Z) :
  let s := str_lower mensaje in
  let tipos := map al_tipo (generar_alertas mensaje u p) in
  let violence_patterns_matching :=
    List.length (filter (fun patron => (0 <? re_count true patron s)%nat)
                        patrones_violencia) in
  (In (T "contenido_violento") tipos <-> (2 <= violence_patterns_matching)%nat)
  /\ (In (T "amenaza_directa") tipos
      <-> (1 <= re_count false re_amenazas_directas s)%nat)
  /\ (violence_patterns_matching = 2%nat ->
      re_count false re_amenazas_directas s = 0%nat ->
      In (T "contenido_violento") tipos /\ ~ In (T "amenaza_directa") tipos).
Proof.
  intros s tipos n.
  pose proof (generar_alertas_tipos mensaje u p CONTENIDO_VIOLENTO) as H1.
  pose proof (generar_alertas_tipos mensaje u p AMENAZA_DIRECTA) as H2.
  cbv beta iota in H1, H2. rewrite patrones_violencia_count_spec in H1.
  fold s in H1, H2. fold tipos in H1, H2. fold n in H1.
  change (tipo_value CONTENIDO_VIOLENTO) with (T "contenido_violento") in H1.
  change (tipo_value AMENAZA_DIRECTA) with (T "amenaza_directa") in H2.
  split; [exact H1|]. split; [exact H2|].
  intros E1 E2. rewrite H1, H2. lia.
Qed.

End Alerts.

(** ** The alternative categories (C6) *)

Lemma insert_desc_perm (x : text * nat) (l : list (text * nat)) :
  Permutation (insert_desc x l) (x :: l).
Proof.
  induction l as [|y l IH]; cbn [insert_desc]; [reflexivity|].
  destruct (snd x <? snd y)%nat; [|reflexivity].
  rewrite IH. apply perm_swap.
Qed.

Lemma sorted_desc_perm (l : list (text * nat)) : Permutation (sorted_desc l) l.
Proof.
  induction l as [|x l IH]; cbn [sorted_desc fold_right]; [reflexivity|].
  fold (sorted_desc l). rewrite insert_desc_perm. now constructor.
Qed.

Lemma insert_desc_sorted (x : text * nat) (l : list (text * nat)) :
  StronglySorted desc l -> StronglySorted desc (insert_desc x l).
Proof.
  induction l as [|y l IH]; intros H; cbn [insert_desc].
  - repeat constructor.
  - apply StronglySorted_inv in H. destruct H as [Hl Hy].
    destruct (snd x <? snd y)%nat eqn:E.
    + apply Nat.ltb_lt in E. constructor; [now apply IH|].
      apply (Permutation_Forall (Permutation_sym (insert_desc_perm x l))).
      constructor; [unfold desc; lia|exact Hy].
    + apply Nat.ltb_ge in E. constructor; [now constructor|].
      constructor; [exact E|].
      apply (Forall_impl (P := desc y)); [|exact Hy].
      intros z Hz. unfold desc in *. lia.
Qed.

Lemma sorted_desc_sorted (l : list (text * nat)) : StronglySorted desc (sorted_desc l).
Proof.
  induction l as [|x l IH]; cbn [sorted_desc fold_right]; [constructor|].
  now apply insert_desc_sorted.
Qed.

Lemma in_firstn {A} (n : nat) (l : list A) (x : A) : In x (firstn n l) -> In x l.
Proof.
  revert n. induction l as [|y l IH]; intros [|n] H; cbn in *; try contradiction.
  destruct H as [H|H]; [now left|right; now apply (IH n)].
Qed.

Lemma firstn_sorted {A} (R : A -> A -> Prop) (n : nat) (l : list A) :
  StronglySorted R l -> StronglySorted R (firstn n l).
Proof.
  revert n. induction l as [|y l IH]; intros [|n] H; cbn [firstn];
    try constructor.
  - apply IH. now apply StronglySorted_inv in H.
  - apply StronglySorted_inv in H. destruct H as [_ H].
    rewrite Forall_forall in *. intros x Hx. apply H.
    now apply in_firstn in Hx.
Qed.

Lemma map_fst_sorted (score : text -> nat) (l : list (text * nat)) :
  (forall kv, In kv l -> snd kv = score (fst kv)) ->
  StronglySorted desc l ->
  StronglySorted (fun a b => (score b <= score a)%nat) (map fst l).
Proof.
  intros Hs H. induction H as [|x l Hl IH Hx]; cbn [map]; constructor.
  - apply IH. intros kv Hkv. apply Hs. now right.
  - rewrite Forall_forall in *. intros c Hc. apply in_map_iff in Hc.
    destruct Hc as (kv & <- & Hkv). specialize (Hx kv Hkv). unfold desc in Hx.
    rewrite <- (Hs x (or_introl eq_refl)), <- (Hs kv (or_intror Hkv)). exact Hx.
Qed.

Lemma lookup_in_nodup {A} (k : text) (v : A) (d : list (text * A)) :
  NoDup (map fst d) -> In (k, v) d -> lookup k d = Some v.
Proof.
  induction d as [|[k' v'] d IH]; intros Hn Hin; [contradiction|].
  cbn [map fst] in Hn. apply NoDup_cons_iff in Hn. destruct Hn as [Hk Hn].
  cbn [lookup]. destruct Hin as [Hin|Hin].
  - injection Hin as -> ->. now rewrite text_eqb_refl.
  - destruct (text_eqb k k') eqn:E.
    + apply text_eqb_eq in E. subst k'. exfalso. apply Hk.
      apply in_map_iff. now exists (k, v).
    + now apply IH.
Qed.

Lemma patrones_categorias_keys : NoDup (map fst patrones_categorias).
Proof.
  remember (map fst patrones_categorias) as ks eqn:E. vm_compute in E. subst ks.
  repeat constructor; cbn [In]; intros H;
    repeat (destruct H as [H|H]; [discriminate H|]); exact H.
Qed.

Section Alternatives.
Context {U : Unicode}.

Lemma puntuaciones_alternativas_spec (s : text) (kv : text * nat) :
  In kv (puntuaciones_alternativas s) ->
  snd kv = puntuacion_cruda s (fst kv) /\ (0 < snd kv)%nat.
Proof.
  unfold puntuaciones_alternativas. intros H. apply in_flat_map in H.
  destruct H as ([c ps] & Hin & H).
  destruct (0 <? coincidencias ps s)%nat eqn:E; [|contradiction].
  destruct H as [<-|[]]. cbn [fst snd]. unfold puntuacion_cruda.
  rewrite (lookup_in_nodup c ps patrones_categorias patrones_categorias_keys Hin).
  split; [reflexivity|now apply Nat.ltb_lt].
Qed.

(** C6, as the code has it.  The alternatives are categories with a
    non-zero raw pattern-match score, in descending order of that score,
    and at most 3 of them; the list is drawn from all categories, so the
    selected category is not kept out of it. *)
Theorem alternatives_ranked (mensaje : text) :
  let alts := _get_categorias_alternativas mensaje in
  let score := puntuacion_cruda (str_lower mensaje) in
  (forall c, In c alts -> (0 < score c)%nat)
  /\ StronglySorted (fun a b => (score b <= score a)%nat) alts
  /\ (List.length alts <= 3)%nat.
Proof.
  intros alts score. subst alts. unfold _get_categorias_alternativas. cbv zeta.
  set (pa := puntuaciones_alternativas (str_lower mensaje)).
  assert (Hs : forall kv, In kv (firstn 3 (sorted_desc pa)) ->
                 snd kv = score (fst kv) /\ (0 < snd kv)%nat).
  { intros kv H. apply in_firstn in H.
    apply (Permutation_in _ (sorted_desc_perm pa)) in H.
    now apply puntuaciones_alternativas_spec. }
  split; [|split].
  - intros c Hc. apply in_map_iff in Hc. destruct Hc as (kv & <- & Hkv).
    destruct (Hs kv Hkv) as [E P]. now rewrite <- E.
  - apply map_fst_sorted; [intros kv H; now apply Hs|].
    apply firstn_sorted, sorted_desc_sorted.
  - rewrite length_map. apply firstn_le_length.
Qed.

End Alternatives.

(** ** Appending a word after a space (C8) *)

(** *** Substring counts only grow *)

Lemma starts_with_app (p s x : text) :
  starts_with p s = true -> starts_with p (s ++ x) = true.
Proof.
  revert s. induction p as [|a p IH]; intros s H; [reflexivity|].
  destruct s as [|b s]; [discriminate|]. cbn [starts_with app] in *.
  apply andb_prop in H. destruct H as [H1 H2]. rewrite H1. now apply IH.
Qed.

Lemma starts_with_length (p s : text) :
  starts_with p s = true -> (List.length p <= List.length s)%nat.
Proof.
  revert s. induction p as [|a p IH]; intros s H; cbn [List.length]; [lia|].
  destruct s as [|b s]; [discriminate|]. cbn [starts_with List.length] in *.
  apply andb_prop in H. destruct H as [_ H]. apply IH in H. lia.
Qed.

Lemma starts_with_short (p s x : text) :
  starts_with p s = false -> starts_with p (s ++ x) = true ->
  (List.length s < List.length p)%nat.
Proof.
  revert s. induction p as [|a p IH]; intros s H1 H2; [discriminate|].
  destruct s as [|b s]; cbn [List.length]; [lia|].
  cbn [starts_with app] in *. apply andb_prop in H2. destruct H2 as [E H2].
  rewrite E in H1. cbn [andb] in H1. specialize (IH s H1 H2). lia.
Qed.

Lemma count_from_short (p s : text) (skip : nat) :
  (List.length s < List.length p)%nat -> count_from p s skip = 0%nat.
Proof.
  revert skip. induction s as [|c s IH]; intros skip H; [reflexivity|].
  cbn [count_from List.length] in *. destruct skip as [|k].
  - destruct (starts_with p (c :: s)) eqn:E.
    + apply starts_with_length in E. cbn [List.length] in E. lia.
    + apply IH. lia.
  - apply IH. lia.
Qed.

Lemma count_from_app (p s x : text) (skip : nat) :
  (count_from p s skip <= count_from p (s ++ x) skip)%nat.
Proof.
  revert skip. induction s as [|c s IH]; intros skip; [cbn; lia|].
  cbn [count_from app]. destruct skip as [|k]; [|apply IH].
  change (c :: s ++ x) with ((c :: s) ++ x).
  destruct (starts_with p (c :: s)) eqn:E1.
  - rewrite (starts_with_app _ _ x E1). apply le_n_S, IH.
  - destruct (starts_with p ((c :: s) ++ x)) eqn:E2; [|apply IH].
    pose proof (starts_with_short _ _ _ E1 E2) as L. cbn [List.length] in L.
    rewrite count_from_short by lia. lia.
Qed.

Lemma str_count_app (p s x : text) : (str_count p s <= str_count p (s ++ x))%nat.
Proof.
  destruct p as [|a p]; cbn [str_count].
  - rewrite length_app. lia.
  - apply count_from_app.
Qed.

Section Monotone.
Context {U : Unicode}.

(** *** Lower-casing splits at a space *)

Lemma first_not_ignorable_app_space (l k : text) :
  first_not_ignorable (l ++ 32 :: k)
  = match first_not_ignorable l with Some c => Some c | None => Some 32 end.
Proof.
  induction l as [|c l IH]; cbn [app first_not_ignorable].
  - now rewrite space_ignorable.
  - destruct (is_case_ignorable c); [exact IH|reflexivity].
Qed.

Lemma handle_capital_sigma_after (before l k : text) :
  handle_capital_sigma before (l ++ 32 :: k) = handle_capital_sigma before l.
Proof.
  unfold handle_capital_sigma. rewrite first_not_ignorable_app_space.
  destruct (first_not_ignorable l); [reflexivity|]. now rewrite space_cased.
Qed.

Lemma handle_capital_sigma_before (kb b after : text) :
  handle_capital_sigma (kb ++ 32 :: b) after = handle_capital_sigma kb after.
Proof.
  unfold handle_capital_sigma. rewrite first_not_ignorable_app_space.
  destruct (first_not_ignorable kb); [reflexivity|]. now rewrite space_cased.
Qed.

Lemma do_lower_before (k kb b : text) :
  do_lower (kb ++ 32 :: b) k = do_lower kb k.
Proof.
  revert kb. induction k as [|c k IH]; intros kb; cbn [do_lower]; [reflexivity|].
  rewrite handle_capital_sigma_before.
  change (c :: kb ++ 32 :: b) with ((c :: kb) ++ 32 :: b). now rewrite IH.
Qed.

Lemma do_lower_app_space (l k b : text) :
  do_lower b (l ++ 32 :: k) = do_lower b l ++ 32 :: do_lower [] k.
Proof.
  revert b. induction l as [|c l IH]; intros b; cbn [app do_lower].
  - change (32 =? 931) with false. cbv iota. rewrite space_lower.
    change (32 :: b) with ([] ++ 32 :: b). now rewrite do_lower_before.
  - rewrite handle_capital_sigma_after, IH, <- app_assoc. reflexivity.
Qed.

Lemma str_lower_app_space (t k : text) :
  str_lower (t ++ 32 :: k) = str_lower t ++ 32 :: str_lower k.
Proof. apply do_lower_app_space. Qed.

(** *** The words of the text stay words *)

Lemma split_loop_app_space (t k cur : text) :
  split_loop (t ++ 32 :: k) cur = split_loop t cur ++ split_loop k [].
Proof.
  revert cur. induction t as [|c t IH]; intros cur; cbn [app split_loop].
  - rewrite space_space. destruct cur; reflexivity.
  - destruct (is_space c); [destruct cur|]; now rewrite IH.
Qed.

Lemma palabras_mayusculas_app_space (t k : text) :
  (palabras_mayusculas t <= palabras_mayusculas (t ++ 32%N :: k))%nat.
Proof.
  unfold palabras_mayusculas, str_split. rewrite split_loop_app_space.
  rewrite filter_app, length_app. lia.
Qed.

End Monotone.

(** *** Matches of word patterns do not reach across a space *)

Section WordPatterns.
Context {U : Unicode}.
Variable ic : bool.

Lemma chr_match_space (p : N) : p <> 32 -> chr_match ic p 32 = false.
Proof.
  intros H. unfold chr_match. destruct (ic && sre_iscased p).
  - unfold lower_variants. cbn [existsb].
    assert (E : sre_lower 32 = 32) by now apply space_sre_lower.
    rewrite E. apply orb_false_intro.
    + apply N.eqb_neq. intros C. apply H. apply space_sre_lower. now symmetry.
    + destruct (existsb (N.eqb 32) (sre_fixes (sre_lower p))) eqn:X; [|reflexivity].
      apply existsb_exists in X. destruct X as (y & Hy & Ey).
      apply N.eqb_eq in Ey. subst y. now apply space_fixes in Hy.
  - now apply N.eqb_neq.
Qed.

Lemma ends_app_space (k : text) (r : regex) :
  no_space r = true ->
  forall prev l cp,
    ends ic r prev (l ++ 32 :: k) cp = map (extend (32 :: k)) (ends ic r prev l cp).
Proof.
  induction r as [|p|c|c lo hi|r1 IH1 r2 IH2|r1 IH1 r2 IH2|i r1 IH1|];
    intros NS prev l cp; cbn [no_space] in NS; try discriminate; cbn [ends].
  - reflexivity.
  - destruct l as [|d l]; cbn [app].
    + rewrite chr_match_space; [reflexivity|].
      intros ->. discriminate.
    + destruct (chr_match ic p d); reflexivity.
  - apply andb_prop in NS. destruct NS as [N1 N2].
    rewrite (IH1 N1). induction (ends ic r1 prev l cp) as [|m ms IHm];
      [reflexivity|].
    cbn [map flat_map]. rewrite map_app, IHm. f_equal.
    cbn [extend prev_after rest_after caps consumed].
    rewrite (IH2 N2), !map_map. reflexivity.
  - apply andb_prop in NS. destruct NS as [N1 N2].
    now rewrite (IH1 N1), (IH2 N2), map_app.
  - rewrite (IH1 NS), !map_map. reflexivity.
  - assert (E : wordp (hd_error (l ++ 32 :: k)) = wordp (hd_error l)).
    { destruct l; [cbn; apply space_word|reflexivity]. }
    rewrite E. destruct (xorb _ _); reflexivity.
Qed.

Lemma filter_nonempty_extend (x : text) (ms : list mres) :
  filter nonempty (map (extend x) ms) = map (extend x) (filter nonempty ms).
Proof.
  induction ms as [|m ms IH]; [reflexivity|]. cbn [map filter].
  change (nonempty (extend x m)) with (nonempty m).
  destruct (nonempty m); cbn [map]; now rewrite IH.
Qed.

Lemma matches_here_app_space (k : text) (r : regex) (prev : option N) (l : text) :
  no_space r = true ->
  matches_here ic r prev (l ++ 32 :: k)
  = (map (extend (32 :: k)) (fst (matches_here ic r prev l)),
     snd (matches_here ic r prev l)).
Proof.
  intros NS. unfold matches_here. rewrite (ends_app_space k r NS).
  destruct (ends ic r prev l []) as [|m ms]; [reflexivity|]. cbn [map].
  change (nonempty (extend (32 :: k) m)) with (nonempty m).
  destruct (nonempty m); [reflexivity|].
  rewrite filter_nonempty_extend.
  destruct (filter nonempty ms); reflexivity.
Qed.

Lemma scan_app_space (k : text) (r : regex) (l : text) :
  no_space r = true ->
  forall prev skip,
    (List.length (scan ic r prev l skip)
     <= List.length (scan ic r prev (l ++ 32%N :: k) skip))%nat.
Proof.
  intros NS. induction l as [|c l IH]; intros prev skip; cbn [app scan].
  - destruct skip; [|cbn; lia].
    pose proof (matches_here_app_space k r prev [] NS) as E. cbn [app] in E.
    rewrite E. rewrite length_app, length_map. lia.
  - destruct skip as [|n]; [|apply IH].
    pose proof (matches_here_app_space k r prev (c :: l) NS) as E.
    cbn [app] in E. rewrite E.
    destruct (matches_here ic r prev (c :: l)) as [ms n]. cbn [fst snd].
    rewrite !length_app, length_map. specialize (IH (Some c) n). lia.
Qed.

Lemma re_count_app_space (k : text) (r : regex) (l : text) :
  no_space r = true ->
  (re_count ic r l <= re_count ic r (l ++ 32%N :: k))%nat.
Proof.
  intros NS. unfold re_count, re_findall. rewrite !length_map.
  now apply scan_app_space.
Qed.

End WordPatterns.

(** *** The score only grows *)

Section UrgencyMonotone.
Context {U : Unicode}.

Lemma list_sum_cons (a : nat) (l : list nat) :
  list_sum (a :: l) = (a + list_sum l)%nat.
Proof. reflexivity. Qed.

Lemma total_matches_app_space (patrones : list regex) (l k : text) :
  forallb no_space patrones = true ->
  (total_matches patrones l <= total_matches patrones (l ++ 32%N :: k))%nat.
Proof.
  unfold total_matches. induction patrones as [|r rs IH]; intros H; [cbn; lia|].
  cbn [forallb] in H. apply andb_prop in H. destruct H as [H1 H2].
  pose proof (re_count_app_space true k r l H1). specialize (IH H2).
  cbn [map]. rewrite !list_sum_cons. lia.
Qed.

Lemma total_occurrences_app (palabras : list text) (l x : text) :
  (total_occurrences palabras l <= total_occurrences palabras (l ++ x))%nat.
Proof.
  unfold total_occurrences. induction palabras as [|w ws IH]; [cbn; lia|].
  pose proof (str_count_app w l x).
  cbn [map]. rewrite !list_sum_cons. lia.
Qed.

Lemma urgency_patterns_no_space :
  forallb no_space patrones_urgencia_critica = true
  /\ forallb no_space patrones_violencia = true.
Proof. split; vm_compute; reflexivity. Qed.

Lemma flag_mono (a b : nat) (w : Q) :
  (a <= b)%nat -> (0 <= w)%Q ->
  ((if (3 <=? a)%nat then w else 0) <= (if (3 <=? b)%nat then w else 0))%Q.
Proof.
  intros H W. destruct (3 <=? a)%nat eqn:A, (3 <=? b)%nat eqn:B;
    try apply Qle_refl; try exact W.
  apply Nat.leb_le in A. apply Nat.leb_gt in B. lia.
Qed.

(** A word appended after a space never lowers the score. *)
Lemma puntuacion_urgencia_app_space (t x : text) :
  (puntuacion_urgencia t <= puntuacion_urgencia (t ++ 32%N :: x))%Q.
Proof.
  rewrite !puntuacion_urgencia_spec. unfold spec_puntuacion_urgencia.
  rewrite <- !palabras_mayusculas_spec.
  rewrite str_lower_app_space.
  destruct urgency_patterns_no_space as [N1 N2].
  pose proof (n2q_le _ _ (total_matches_app_space patrones_urgencia_critica
                            (str_lower t) (str_lower x) N1)) as H1.
  pose proof (n2q_le _ _ (total_matches_app_space patrones_violencia
                            (str_lower t) (str_lower x) N2)) as H2.
  pose proof (n2q_le _ _ (total_occurrences_app palabras_criticas
                            (str_lower t) (32 :: str_lower x))) as H3.
  assert (H4 : (0 <= 2)%Q) by discriminate.
  assert (H5 : (0 <= 1)%Q) by discriminate.
  pose proof (flag_mono _ _ 2 (str_count_app (T "!") t (32 :: x)) H4) as H6.
  pose proof (flag_mono _ _ 1 (palabras_mayusculas_app_space t x) H5) as H7.
  lra.
Qed.

(** C8, as the code has it.  Appending further occurrences of a critical
    keyword to a text, each as a word of its own after a space, never
    lowers the urgency score. *)
Theorem urgency_monotone_appended_keyword (t k : text) (n : nat) :
  In k palabras_criticas ->
  (puntuacion_urgencia t <= puntuacion_urgencia (append_occurrences t k n))%Q.
Proof.
  intros _. induction n as [|n IH]; cbn [append_occurrences]; [apply Qle_refl|].
  eapply Qle_trans; [exact IH|apply puntuacion_urgencia_app_space].
Qed.

End UrgencyMonotone.

(** ** Inputs that are not strings (C7) *)

Section NonString.
Context {U : Unicode} {SO : SetOrder}.
Variable R : Type.
Variable agente_local : text -> text + R.
Variable agente_openai : option (text -> text + R).

(** C7, as the code has it.  An input that is not a string (None, a
    number) is not normalised: [analizar_denuncia_completa] raises
    AttributeError on it.  The gestor answers a false value such as None
    with its explicit failure result "Mensaje vacío" without analysing
    anything, and raises on the other non-strings.  Only the empty string
    itself, passed as a string, is analysed as valid input, to urgency
    BAJA, category "otros" and credibility muy_baja. *)
Theorem non_string_input_not_normalised (timestamp : text) (v : PyVal)
    (forzar_modo : option text) :
  is_str v = false ->
  analizar_denuncia_completa_py timestamp v = inl AttributeError
  /\ procesar_denuncia agente_local agente_openai timestamp v forzar_modo
     = (if truthy v then inl AttributeError else inr (MensajeVacio timestamp))
  /\ exists a, analizar_denuncia_completa_py timestamp (VStr []) = inr a
               /\ urg_nivel (urgencia a) = T "BAJA"
               /\ cat_sugerida (categoria a) = T "otros"
               /\ nivel_credibilidad (evidencias a) = T "muy_baja".
Proof.
  intros H. split; [|split].
  - destruct v; try reflexivity; discriminate.
  - unfold procesar_denuncia. destruct v; try discriminate; cbn [truthy negb].
    + reflexivity.
    + destruct b; reflexivity.
    + destruct (n =? 0)%Z; reflexivity.
  - eexists. split; [reflexivity|]. vm_compute. repeat split.
Qed.

End NonString.

(** ** The engine run on concrete texts *)

Section Concrete.
#[local] Existing Instance latin1.
#[local] Existing Instance first_seen_order.

(** A greeting: nothing urgent, nothing evidenced, no alert. *)
Example analisis_hola :
  let a := analizar_denuncia_completa (T "2025-01-01T10:00:00") (T "hola") in
  urg_nivel (urgencia a) = T "BAJA"
  /\ nivel_credibilidad (evidencias a) = T "muy_baja"
  /\ alertas a = [].
Proof. vm_compute. repeat split. Qed.

(** One pattern match (2), one weapon (3), one keyword occurrence (1.5)
    and three exclamation marks (2): 8.5, level CRITICA. *)
Example urgencia_cuchillo :
  let mensaje :=
    T "URGENTE!!! Me amenazó con un cuchillo ayer a las 14:30 en la oficina, hay testigos" in
  (puntuacion_urgencia mensaje == 17 # 2)%Q
  /\ detectar_urgencia mensaje = CRITICA
  /\ requiere_atencion_inmediata
       (analizar_denuncia_completa (T "2025-01-01T10:00:00") mensaje) = true.
Proof. vm_compute. repeat split. Qed.

(** C2 fails as stated: two calls in a row with the string "hola", on a
    clock that moves on by a second between them, return two results
    that differ, in [timestamp_analisis]. *)
Lemma analysis_differs_in_timestamp :
  let reloj := fun n => T "2025-01-01T10:00:0" ++ str_of_nat n in
  let r := Metodos.analizar_varias [T "hola"; T "hola"] (proceso_inicial reloj) in
  exists a b, fst r = [a; b] /\ a <> b.
Proof.
  cbv zeta.
  exists (analizar_denuncia_completa (T "2025-01-01T10:00:00") (T "hola")),
         (analizar_denuncia_completa (T "2025-01-01T10:00:01") (T "hola")).
  split; [vm_compute; reflexivity|].
  intros H. apply (f_equal timestamp_analisis) in H. vm_compute in H.
  discriminate H.
Qed.

(** C4 fails as stated: "golpe golpe" has two matches of violence
    patterns, both of the first pattern, and no contenido_violento. *)
Lemma two_matches_one_pattern_no_alert :
  let mensaje := T "golpe golpe" in
  let a := analizar_denuncia_completa (T "2025-01-01T10:00:00") mensaje in
  total_matches patrones_violencia (str_lower mensaje) = 2%nat
  /\ ~ In (T "contenido_violento") (map al_tipo (alertas a))
  /\ ~ (In (T "contenido_violento") (map al_tipo (alertas a))
        <-> (2 <= total_matches patrones_violencia (str_lower mensaje))%nat).
Proof.
  cbv zeta.
  assert (E : total_matches patrones_violencia (str_lower (T "golpe golpe")) = 2%nat)
    by (vm_compute; reflexivity).
  assert (A : alertas (analizar_denuncia_completa (T "2025-01-01T10:00:00")
                         (T "golpe golpe"))
              = [alerta_urgencia_critica ALTA])
    by (vm_compute; reflexivity).
  rewrite E, A.
  assert (N : ~ In (T "contenido_violento")
                (map al_tipo [alerta_urgencia_critica ALTA])).
  { vm_compute. intros [C|[]]. discriminate C. }
  split; [reflexivity|]. split; [exact N|].
  intros [_ C]. apply N, C. lia.
Qed.

(** C6 fails as stated: for "fraude y robo de dinero" the selected
    category "fraude" is itself the first alternative. *)
Lemma selected_category_among_alternatives :
  let a := analizar_denuncia_completa (T "2025-01-01T10:00:00")
             (T "fraude y robo de dinero") in
  cat_sugerida (categoria a) = T "fraude"
  /\ cat_alternativas (categoria a) = [T "fraude"]
  /\ In (cat_sugerida (categoria a)) (cat_alternativas (categoria a)).
Proof. vm_compute. repeat split. now left. Qed.

(** C7 fails as stated: analysing None raises, no result is produced. *)
Lemma none_input_raises :
  analizar_denuncia_completa_py (T "2025-01-01T10:00:00") VNone = inl AttributeError
  /\ ~ exists a, analizar_denuncia_completa_py (T "2025-01-01T10:00:00") VNone = inr a.
Proof. split; [reflexivity|]. intros [a H]. discriminate H. Qed.

(** C8 fails as stated: "urgente" scores 3.5 (one pattern match and one
    keyword occurrence); with "urgente" appended to it, "urgenteurgente"
    scores 3 (no pattern match at a word boundary, two occurrences). *)
Lemma appended_keyword_lowers_score :
  (puntuacion_urgencia (T "urgente") == 7 # 2)%Q
  /\ (puntuacion_urgencia (T "urgente" ++ T "urgente") == 3)%Q
  /\ ~ (puntuacion_urgencia (T "urgente")
        <= puntuacion_urgencia (T "urgente" ++ T "urgente"))%Q.
Proof.
  repeat split; try (vm_compute; reflexivity).
  vm_compute. intros H. apply H. reflexivity.
Qed.

End Concrete.

(** ** The theorems at concrete inputs *)

Section Witnesses.
#[local] Existing Instance latin1.
#[local] Existing Instance first_seen_order.

(** Three calls, the first and the third with "hola". *)
Lemma analysis_deterministic_but_timestamp_witness :
  let reloj := fun n => T "2025-01-01T10:00:0" ++ str_of_nat n in
  let mensajes := [T "hola"; T "urgente ayuda"; T "hola"] in
  let r := Metodos.analizar_varias mensajes (proceso_inicial reloj) in
  let a := analizar_denuncia_completa (reloj 0%nat) (T "hola") in
  let b := analizar_denuncia_completa (reloj 2%nat) (T "hola") in
  nth_error mensajes 0 = Some (T "hola")
  /\ nth_error mensajes 2 = Some (T "hola")
  /\ nth_error (fst r) 0 = Some a
  /\ nth_error (fst r) 2 = Some b
  /\ sin_timestamp a = sin_timestamp b
  /\ timestamp_analisis a = reloj 0%nat
  /\ timestamp_analisis b = reloj 2%nat.
Proof.
  cbv zeta.
  set (reloj := fun n => T "2025-01-01T10:00:0" ++ str_of_nat n).
  set (mensajes := [T "hola"; T "urgente ayuda"; T "hola"]).
  assert (A : nth_error (fst (Metodos.analizar_varias mensajes (proceso_inicial reloj))) 0
              = Some (analizar_denuncia_completa (reloj 0%nat) (T "hola")))
    by (vm_compute; reflexivity).
  assert (B : nth_error (fst (Metodos.analizar_varias mensajes (proceso_inicial reloj))) 2
              = Some (analizar_denuncia_completa (reloj 2%nat) (T "hola")))
    by (vm_compute; reflexivity).
  split; [reflexivity|]. split; [reflexivity|].
  split; [exact A|]. split; [exact B|].
  exact (proj2 (proj2 (analysis_deterministic_but_timestamp reloj mensajes))
           0%nat 2%nat (T "hola") _ _ eq_refl eq_refl A B).
Defined.

(** "urgente ayuda" scores 7: level ALTA, rank 3, below the rank 4 at
    which the flag is set without looking at the alerts. *)
Lemma rank3_requires_attention_witness :
  detectar_urgencia (T "urgente ayuda") = ALTA
  /\ requiere_atencion_inmediata
       (analizar_denuncia_completa (T "2025-01-01T10:00:00") (T "urgente ayuda"))
     = true.
Proof.
  assert (E : detectar_urgencia (T "urgente ayuda") = ALTA)
    by (vm_compute; reflexivity).
  assert (H : (3 <= nivel_value (detectar_urgencia (T "urgente ayuda")))%Z)
    by (rewrite E; discriminate).
  split; [exact E|].
  exact (proj1 (rank3_requires_attention (T "2025-01-01T10:00:00")
                  (T "urgente ayuda") H)).
Defined.

(** "hola" matches no category pattern. *)
Lemma otros_confidence_half_witness :
  sugerir_categoria_mejorada (T "hola") = T "otros"
  /\ cat_confianza
       (categoria (analizar_denuncia_completa (T "2025-01-01T10:00:00") (T "hola")))
     = 1 # 2.
Proof.
  assert (H : sugerir_categoria_mejorada (T "hola") = T "otros")
    by (vm_compute; reflexivity).
  split; [exact H|].
  exact (otros_confidence_half (T "2025-01-01T10:00:00") (T "hola") H).
Defined.

(** "golpe con cuchillo": the first and the fourth violence pattern match,
    and no direct-threat word occurs. *)
Lemma violent_content_alert_threshold_witness :
  let mensaje := T "golpe con cuchillo" in
  let tipos := map al_tipo (generar_alertas mensaje (detectar_urgencia mensaje)
                              (calcular_prioridad mensaje (detectar_urgencia mensaje))) in
  In (T "contenido_violento") tipos /\ ~ In (T "amenaza_directa") tipos.
Proof.
  cbv zeta.
  refine (proj2 (proj2 (violent_content_alert_threshold (T "golpe con cuchillo")
                          (detectar_urgencia (T "golpe con cuchillo"))
                          (calcular_prioridad (T "golpe con cuchillo")
                             (detectar_urgencia (T "golpe con cuchillo"))))) _ _);
    vm_compute; reflexivity.
Defined.

(** "necesito ayuda" with "urgente" appended twice. *)
Lemma urgency_monotone_appended_keyword_witness :
  In (T "urgente") palabras_criticas
  /\ (puntuacion_urgencia (T "necesito ayuda")
      <= puntuacion_urgencia (T "necesito ayuda urgente urgente"))%Q.
Proof.
  assert (H : In (T "urgente") palabras_criticas) by (left; reflexivity).
  split; [exact H|].
  exact (urgency_monotone_appended_keyword (T "necesito ayuda") (T "urgente") 2 H).
Defined.

(** None, sent to the engine and to the gestor. *)
Lemma non_string_input_not_normalised_witness :
  is_str VNone = false
  /\ analizar_denuncia_completa_py (T "2025-01-01T10:00:00") VNone
     = inl AttributeError.
Proof.
  split; [reflexivity|].
  exact (proj1 (non_string_input_not_normalised
                  unit (fun _ => inr tt) None
                  (T "2025-01-01T10:00:00") VNone None eq_refl)).
Defined.

End Witnesses.

(** * Further properties of the engine and of the code around it *)

(** ** Rounding keeps integer bounds *)

Lemma py_round_ge (a : Z) (x : Q) : (inject_Z a <= x)%Q -> (a <= py_round x)%Z.
Proof.
  intros H. assert (F : (a <= Qfloor x)%Z).
  { rewrite <- (Qfloor_Z a). now apply Qfloor_resp_le. }
  unfold py_round. destruct (x - inject_Z (Qfloor x) ?= 1 # 2)%Q;
    [destruct (Z.even (Qfloor x))| |]; lia.
Qed.

Lemma py_round_le (b : Z) (x : Q) : (x <= inject_Z b)%Q -> (py_round x <= b)%Z.
Proof.
  intros H. pose proof (Qfloor_le x) as Hlo.
  assert (F : (Qfloor x <= b)%Z).
  { rewrite Zle_Qle. eapply Qle_trans; eassumption. }
  assert (G : (0 < x - inject_Z (Qfloor x))%Q -> (Qfloor x + 1 <= b)%Z).
  { intros P. assert (L : (inject_Z (Qfloor x) < inject_Z b)%Q) by lra.
    rewrite <- Zlt_Qlt in L. lia. }
  unfold py_round. destruct (x - inject_Z (Qfloor x) ?= 1 # 2)%Q eqn:C.
  - apply Qeq_alt in C. destruct (Z.even (Qfloor x)); [exact F|].
    apply G. lra.
  - exact F.
  - apply Qgt_alt in C. apply G. lra.
Qed.

Lemma py_round_integer (n : Z) : py_round (inject_Z n) = n.
Proof.
  unfold py_round. rewrite Qfloor_Z.
  assert (C : (inject_Z n - inject_Z n ?= 1 # 2)%Q = Lt).
  { apply (proj1 (Qlt_alt _ _)). lra. }
  now rewrite C.
Qed.

Lemma qmin_le_l (a b : Q) : (qmin a b <= a)%Q.
Proof.
  unfold qmin. destruct (Qle_bool a b) eqn:E; [apply Qle_refl|].
  apply Qlt_le_weak, Qnot_le_lt. intros C. apply Qle_bool_iff in C. congruence.
Qed.

Lemma qmin_le_r (a b : Q) : (qmin a b <= b)%Q.
Proof.
  unfold qmin. destruct (Qle_bool a b) eqn:E; [|apply Qle_refl].
  now apply Qle_bool_iff.
Qed.

Lemma qmin_glb (c a b : Q) : (c <= a)%Q -> (c <= b)%Q -> (c <= qmin a b)%Q.
Proof. intros H1 H2. unfold qmin. now destruct (Qle_bool a b). Qed.

Lemma py_round_digits_between (x : Q) (n : nat) :
  (0 <= x)%Q -> (x <= 1)%Q ->
  (0 <= py_round_digits x n)%Q /\ (py_round_digits x n <= 1)%Q.
Proof.
  intros H0 H1. unfold py_round_digits.
  set (z := (10 ^ Z.of_nat n)%Z).
  assert (Pz : (0 < z)%Z) by (subst z; apply Z.pow_pos_nonneg; lia).
  assert (Pq : (0 < inject_Z z)%Q).
  { change 0%Q with (inject_Z 0). now rewrite <- Zlt_Qlt. }
  assert (L : (0 <= py_round (x * inject_Z z))%Z).
  { apply py_round_ge. change (inject_Z 0) with 0%Q. nra. }
  assert (R : (py_round (x * inject_Z z) <= z)%Z).
  { apply py_round_le. nra. }
  rewrite Zle_Qle in L, R. change (inject_Z 0) with 0%Q in L.
  split.
  - apply Qle_shift_div_l; [exact Pq|]. lra.
  - apply Qle_shift_div_r; [exact Pq|]. lra.
Qed.

(** ** The priority ([calcular_prioridad] and its labels) *)

Section PriorityBounds.
Context {U : Unicode} {SO : SetOrder}.

Lemma factores_prioridad_nonneg (mensaje : text) : (0 <= factores_prioridad mensaje)%Q.
Proof.
  unfold factores_prioridad. cbv zeta.
  repeat match goal with
         | |- context [qmin (n2q ?n * ?w) ?c] =>
           let H := fresh "H" in
           assert (H : (0 <= qmin (n2q n * w) c)%Q)
             by (apply qmin_glb; [pose proof (n2q_nonneg n); nra|discriminate]);
           generalize dependent (qmin (n2q n * w) c); intros
         end.
  lra.
Qed.

Lemma calcular_prioridad_ge (mensaje : text) (urgencia : NivelUrgencia) :
  (nivel_value urgencia <= calcular_prioridad mensaje urgencia)%Z.
Proof.
  pose proof (factores_prioridad_nonneg mensaje) as F.
  assert (B : (1 <= nivel_value urgencia <= 5)%Z) by (destruct urgencia; cbn; lia).
  unfold calcular_prioridad. apply py_round_ge. apply qmin_glb; [lra|].
  change 5%Q with (inject_Z 5). rewrite <- Zle_Qle. lia.
Qed.

Lemma calcular_prioridad_le (mensaje : text) (urgencia : NivelUrgencia) :
  (calcular_prioridad mensaje urgencia <= 5)%Z.
Proof. unfold calcular_prioridad. apply py_round_le. apply qmin_le_r. Qed.

(** X1. The priority is an integer from the urgency rank up to 5: the
    factors can raise the urgency rank, never lower it. *)
Theorem prioridad_entre_urgencia_y_5 (mensaje : text) (urgencia : NivelUrgencia) :
  (nivel_value urgencia <= calcular_prioridad mensaje urgencia <= 5)%Z
  /\ (1 <= calcular_prioridad mensaje urgencia)%Z.
Proof.
  pose proof (calcular_prioridad_ge mensaje urgencia) as L.
  pose proof (calcular_prioridad_le mensaje urgencia) as R.
  assert (B : (1 <= nivel_value urgencia)%Z) by (destruct urgencia; cbn; lia).
  lia.
Qed.

(** X2. In the composite result the priority labels are always taken from
    the tables: the justification is never the fallback "Evaluación
    estándar", the level is "MÍNIMA" only for urgency BAJA, and for
    urgency CRITICA or EMERGENCIA it is "ALTA" or "EMERGENCIA". *)
Theorem etiquetas_de_prioridad (timestamp mensaje : text) :
  let a := analizar_denuncia_completa timestamp mensaje in
  pri_justificacion (prioridad a) <> T "Evaluación estándar"
  /\ (pri_nivel (prioridad a) = T "MÍNIMA" -> detectar_urgencia mensaje = BAJA)
  /\ ((4 <= nivel_value (detectar_urgencia mensaje))%Z ->
      pri_nivel (prioridad a) = T "ALTA" \/ pri_nivel (prioridad a) = T "EMERGENCIA").
Proof.
  cbv zeta. cbn [analizar_denuncia_completa prioridad pri_justificacion pri_nivel].
  pose proof (calcular_prioridad_ge mensaje (detectar_urgencia mensaje)) as L.
  pose proof (calcular_prioridad_le mensaje (detectar_urgencia mensaje)) as R.
  assert (P : (1 <= nivel_value (detectar_urgencia mensaje))%Z)
    by (destruct (detectar_urgencia mensaje); cbn; lia).
  set (p := calcular_prioridad mensaje (detectar_urgencia mensaje)) in *.
  assert (E : p = 1%Z \/ p = 2%Z \/ p = 3%Z \/ p = 4%Z \/ p = 5%Z) by lia.
  destruct (detectar_urgencia mensaje); cbn [nivel_value] in *;
    destruct E as [E|[E|[E|[E|E]]]]; rewrite E in *; try lia;
    (split; [vm_compute; discriminate|]);
    (split; [intros H; try reflexivity; vm_compute in H; discriminate H|]);
    intros H; try lia; vm_compute; auto.
Qed.

End PriorityBounds.

(** ** The evidence report ([evaluar_evidencias]) *)

Lemma py_round_digits_half (k : Z) :
  (py_round_digits (inject_Z k * (1 # 2)) 1 == inject_Z k * (1 # 2))%Q.
Proof.
  unfold py_round_digits. change (inject_Z (10 ^ Z.of_nat 1)) with 10%Q.
  assert (E : (inject_Z k * (1 # 2) * 10 == inject_Z (5 * k))%Q).
  { rewrite inject_Z_mult. change (inject_Z 5) with 5%Q. ring. }
  rewrite (py_round_comp _ _ E), py_round_integer, inject_Z_mult.
  change (inject_Z 5) with 5%Q. field.
Qed.

Lemma py_round_digits_medios (a b : nat) :
  (py_round_digits (n2q a + n2q b * (1 # 2)) 1 == n2q a + n2q b * (1 # 2))%Q.
Proof.
  assert (X : (n2q a + n2q b * (1 # 2)
               == inject_Z (2 * Z.of_nat a + Z.of_nat b) * (1 # 2))%Q).
  { unfold n2q. rewrite inject_Z_plus, inject_Z_mult.
    change (inject_Z 2) with 2%Q. ring. }
  unfold py_round_digits in *.
  rewrite (py_round_comp _ _ (Qmult_comp _ _ X _ _ (Qeq_refl _))).
  rewrite X. apply py_round_digits_half.
Qed.

Section EvidenceReport.
Context {U : Unicode}.

(** The loop over the kinds of evidence: the total is the sum of the
    counts kept. *)
Lemma evidencias_fold (s : text) (l : list (text * regex))
    (enc : list (text * nat)) (total : nat) :
  total = list_sum (map snd enc) ->
  let r := fold_left (fun (acc : list (text * nat) * nat) (entry : text * regex) =>
                        let (encontradas, total) := acc in
                        let (tipo, patron) := entry in
                        let matches := re_count true patron s in
                        if (0 <? matches)%nat
                        then (encontradas ++ [(tipo, matches)], (total + matches)%nat)
                        else acc) l (enc, total) in
  snd r = list_sum (map snd (fst r)).
Proof.
  revert enc total. induction l as [|[tipo patron] l IH]; intros enc total H;
    cbn [fold_left]; [exact H|].
  destruct (0 <? re_count true patron s)%nat; [|now apply IH].
  apply IH. rewrite map_app, list_sum_app. cbn. lia.
Qed.

(** X3. The evidence report is coherent: the reported score is exactly
    the sum of the counts of the kinds of evidence found plus half the
    specificity (rounding to one decimal loses nothing), the credibility
    is "alta", "media", "baja" or "muy_baja" as that score is at least 5,
    in [3, 5), in [1, 3) or below 1, and more evidence is asked for
    exactly when it is below 2. *)
Theorem evidencias_coherentes (mensaje : text) :
  let e := evaluar_evidencias mensaje in
  let p := puntuacion_evidencia e in
  (p == n2q (list_sum (map snd (ev_tipos_evidencia e)))
        + n2q (especificidad e) * (1 # 2))%Q
  /\ (nivel_credibilidad e = T "alta" <-> 5 <= p)%Q
  /\ (nivel_credibilidad e = T "media" <-> 3 <= p /\ p < 5)%Q
  /\ (nivel_credibilidad e = T "baja" <-> 1 <= p /\ p < 3)%Q
  /\ (nivel_credibilidad e = T "muy_baja" <-> p < 1)%Q
  /\ (requiere_mas_evidencia e = true <-> p < 2)%Q.
Proof.
  unfold evaluar_evidencias. cbv zeta.
  pose proof (evidencias_fold (str_lower mensaje) tipos_evidencia [] 0 eq_refl) as F.
  cbv zeta in F.
  destruct (fold_left _ tipos_evidencia ([], 0%nat)) as [enc total].
  cbn [fst snd] in F. subst total.
  cbn [puntuacion_evidencia ev_tipos_evidencia especificidad nivel_credibilidad
       requiere_mas_evidencia].
  set (esp := (0 + re_count false re_horas mensaje
               + re_count false re_fechas mensaje
               + re_count false re_lugares_especificos (str_lower mensaje))%nat).
  set (x := (n2q (list_sum (map snd enc)) + n2q esp * (1 # 2))%Q).
  assert (E : (py_round_digits x 1 == x)%Q) by apply py_round_digits_medios.
  split; [exact E|]. rewrite E.
  destruct (Qle_bool 5 x) eqn:E5; [apply Qle_bool_iff in E5|];
  [|destruct (Qle_bool 3 x) eqn:E3; [apply Qle_bool_iff in E3|];
    [|destruct (Qle_bool 1 x) eqn:E1; [apply Qle_bool_iff in E1|]]];
  destruct (Qle_bool 2 x) eqn:E2; try apply Qle_bool_iff in E2;
  repeat match goal with
         | H : Qle_bool ?a ?b = false |- _ =>
           assert (b < a)%Q
             by (apply Qnot_le_lt; intros C; apply Qle_bool_iff in C; congruence);
           clear H
         end;
  cbn [negb];
  repeat split; intros; try reflexivity; try lra;
    try discriminate;
    try match goal with H : T _ = T _ |- _ => vm_compute in H; discriminate H end.
Qed.

End EvidenceReport.

(** ** The sentiment profile ([analizar_sentimientos]) *)

Section SentimentProfile.
Context {U : Unicode}.

Lemma emociones_entre_1_y_5 (s : text) (e : text) (i : nat) :
  In (e, i) (emociones s) ->
  (1 <= i <= 5)%nat /\ In e (map fst patrones_emociones).
Proof.
  unfold emociones. intros H. apply in_flat_map in H.
  destruct H as ([e' ps] & Hin & H).
  destruct (0 <? coincidencias ps s)%nat eqn:P; [|contradiction].
  destruct H as [H|[]]. injection H as <- <-. apply Nat.ltb_lt in P. split.
  - lia.
  - apply in_map_iff. now exists (e', ps).
Qed.

(** X4. Every detected emotion is one of the five families and its
    intensity is between 1 and 5; a profile of intensity "alta", and any
    profile in which fear ("miedo") is detected, asks for emotional
    support. *)
Theorem sentimientos_acotados (mensaje : text) :
  let s := analizar_sentimientos mensaje in
  (forall e i, In (e, i) (emociones_detectadas s) ->
     (1 <= i <= 5)%nat
     /\ In e [T "miedo"; T "enojo"; T "tristeza"; T "ansiedad"; T "frustración"])
  /\ (intensidad s = T "alta" -> requiere_apoyo_emocional s = true)
  /\ (forall i, In (T "miedo", i) (emociones_detectadas s) ->
        requiere_apoyo_emocional s = true).
Proof.
  cbv zeta. unfold analizar_sentimientos. cbv zeta.
  cbn [emociones_detectadas intensidad requiere_apoyo_emocional].
  set (d := emociones (str_lower mensaje)).
  split; [|split].
  - intros e i H. apply emociones_entre_1_y_5 in H. exact H.
  - destruct (list_sum (map snd d) <=? 2)%nat eqn:A;
      [intros H; vm_compute in H; discriminate H|].
    destruct (list_sum (map snd d) <=? 5)%nat eqn:B;
      [intros H; vm_compute in H; discriminate H|].
    intros _. apply Nat.leb_gt in B. apply orb_true_intro. left.
    apply Nat.leb_le. lia.
  - intros i H. apply orb_true_intro. right. unfold has_key.
    apply existsb_exists. exists (T "miedo", i). split; [exact H|].
    apply text_eqb_refl.
Qed.

End SentimentProfile.

(** ** The alerts as a table ([generar_alertas],
    [_requiere_atencion_inmediata]) *)

Lemma in_append_if_el (c : bool) (x : Alerta) (l : list Alerta) (a : Alerta) :
  In a (append_if c x l) -> In a l \/ x = a.
Proof.
  unfold append_if. destruct c; [|now left]. intros H. apply in_app_iff in H.
  destruct H as [H|[H|[]]]; [now left|now right].
Qed.

Lemma alertas_por_pruebas_forma (u : NivelUrgencia) (b1 b2 b3 b4 b5 : bool) :
  let al := alertas_por_pruebas u b1 b2 b3 b4 b5 in
  StronglySorted (fun a b => (orden_alerta (al_tipo a) < orden_alerta (al_tipo b))%nat) al
  /\ (List.length al <= 5)%nat
  /\ (forall a, In a al ->
        (al_prioridad a = T "crítica" <-> al_tipo a = T "amenaza_directa")
        /\ In (al_prioridad a) [T "alta"; T "crítica"; T "media"])
  /\ _requiere_atencion_inmediata u al
     = ((4 <=? nivel_value u)%Z || b1 || b2 || b3).
Proof.
  cbv zeta. unfold alertas_por_pruebas. split; [|split; [|split]].
  - destruct b1, b2, b3, b4, b5; cbn [append_if app];
      repeat constructor; vm_compute; lia.
  - destruct b1, b2, b3, b4, b5; cbn [append_if app List.length]; lia.
  - intros a H.
    assert (K : In a [alerta_urgencia_critica u; alerta_contenido_violento;
                      alerta_amenaza_directa; alerta_situacion_riesgo;
                      alerta_evidencia_solida]).
    { repeat (apply in_append_if_el in H; destruct H as [H|H]);
        [destruct H| | | | |]; rewrite <- H; cbn [In].
      - now left.
      - right. now left.
      - do 2 right. now left.
      - do 3 right. now left.
      - do 4 right. now left. }
    cbn [In] in K.
    destruct K as [K|[K|[K|[K|[K|[]]]]]]; subst a;
      (split; [split; intros E; try reflexivity; vm_compute in E; discriminate E|]);
      vm_compute; tauto.
  - unfold _requiere_atencion_inmediata.
    destruct (4 <=? nivel_value u)%Z; [reflexivity|].
    destruct b1, b2, b3, b4, b5; vm_compute; reflexivity.
Qed.

Section AlertTable.
Context {U : Unicode} {SO : SetOrder}.

Lemma generar_alertas_por_pruebas (mensaje : text) (u : NivelUrgencia) (p : Z) :
  generar_alertas mensaje u p
  = alertas_por_pruebas u
      (3 <=? nivel_value u)%Z
      (2 <=? patrones_violencia_count (str_lower mensaje))%nat
      (1 <=? re_count false re_amenazas_directas (str_lower mensaje))%nat
      (2 <=? re_count false re_indicadores_riesgo (str_lower mensaje))%nat
      (3 <=? re_count false re_evidencias_alerta (str_lower mensaje))%nat.
Proof.
  unfold generar_alertas, alertas_por_pruebas. cbv zeta.
  fold (re_count false re_amenazas_directas (str_lower mensaje)).
  fold (re_count false re_indicadores_riesgo (str_lower mensaje)).
  cbn [umbrales_alerta].
  repeat match goal with
         | |- context [(?a <=? Z.of_nat ?n)%Z] =>
           replace (a <=? Z.of_nat n)%Z with (Z.to_nat a <=? n)%nat
             by (destruct (Z.to_nat a <=? n)%nat eqn:E; symmetry;
                 [apply Nat.leb_le in E; apply Z.leb_le; lia
                 |apply Nat.leb_gt in E; apply Z.leb_gt; lia])
         end.
  reflexivity.
Qed.

(** X5. A call raises at most five alerts, in the order of the table of
    kinds and no kind twice; every alert has priority "alta", "crítica" or
    "media", and the only kind of priority "crítica" is amenaza_directa. *)
Theorem alertas_en_orden (mensaje : text) (u : NivelUrgencia) (p : Z) :
  let al := generar_alertas mensaje u p in
  StronglySorted (fun a b => (orden_alerta (al_tipo a) < orden_alerta (al_tipo b))%nat) al
  /\ (List.length al <= 5)%nat
  /\ (forall a, In a al ->
        (al_prioridad a = T "crítica" <-> al_tipo a = T "amenaza_directa")
        /\ In (al_prioridad a) [T "alta"; T "crítica"; T "media"]).
Proof.
  cbv zeta. rewrite generar_alertas_por_pruebas.
  pose proof (alertas_por_pruebas_forma u
                (3 <=? nivel_value u)%Z
                (2 <=? patrones_violencia_count (str_lower mensaje))%nat
                (1 <=? re_count false re_amenazas_directas (str_lower mensaje))%nat
                (2 <=? re_count false re_indicadores_riesgo (str_lower mensaje))%nat
                (3 <=? re_count false re_evidencias_alerta (str_lower mensaje))%nat)
    as (H1 & H2 & H3 & _).
  auto.
Qed.

(** X6. The composite result requires immediate attention exactly when
    the urgency has rank 3 or more, or two violence patterns match, or a
    direct-threat word matches; risk and evidence alerts, of priority
    "media", never set the flag. *)
Theorem atencion_inmediata_exacta (timestamp mensaje : text) :
  requiere_atencion_inmediata (analizar_denuncia_completa timestamp mensaje) = true
  <-> (3 <= nivel_value (detectar_urgencia mensaje))%Z
      \/ (2 <= patrones_violencia_count (str_lower mensaje))%nat
      \/ (1 <= re_count false re_amenazas_directas (str_lower mensaje))%nat.
Proof.
  cbn [analizar_denuncia_completa requiere_atencion_inmediata].
  rewrite generar_alertas_por_pruebas.
  destruct (alertas_por_pruebas_forma (detectar_urgencia mensaje)
              (3 <=? nivel_value (detectar_urgencia mensaje))%Z
              (2 <=? patrones_violencia_count (str_lower mensaje))%nat
              (1 <=? re_count false re_amenazas_directas (str_lower mensaje))%nat
              (2 <=? re_count false re_indicadores_riesgo (str_lower mensaje))%nat
              (3 <=? re_count false re_evidencias_alerta (str_lower mensaje))%nat)
    as (_ & _ & _ & E).
  rewrite E, !orb_true_iff, !Z.leb_le, !Nat.leb_le. lia.
Qed.

End AlertTable.

(** ** The recommendations ([generar_recomendaciones]) *)

Section Recommendations.
Context {U : Unicode} {SO : SetOrder}.

Lemma set_to_list_in (l : list item) (x : item) : In x (set_to_list l) <-> In x l.
Proof.
  rewrite <- (nodup_In item_eq_dec l x). split; intros H.
  - exact (Permutation_in _ (set_to_list_perm l) H).
  - exact (Permutation_in _ (Permutation_sym (set_to_list_perm l)) H).
Qed.

Lemma set_to_list_nodup (l : list item) : NoDup (set_to_list l).
Proof.
  apply (Permutation_NoDup (Permutation_sym (set_to_list_perm l))).
  apply NoDup_nodup.
Qed.

(** X7. The recommendations never repeat and always end up containing the
    two closing ones; every alert of priority "crítica" or "alta"
    contributes its suggested action under the prefix of its priority,
    and urgency of rank 4 or more brings the two immediate actions. *)
Theorem recomendaciones_completas (urgencia : NivelUrgencia) (categoria : text)
    (evidencias : Evidencias) (alertas : list Alerta) :
  let r := generar_recomendaciones urgencia categoria evidencias alertas in
  NoDup r
  /\ In (IStr (T "📝 Registrar todas las acciones tomadas")) r
  /\ In (IStr (T "🔄 Programar seguimiento según cronograma establecido")) r
  /\ (forall a, In a alertas -> al_prioridad a = T "crítica" ->
        In (IStr (T "🚨 CRÍTICO: " ++ accion_sugerida a)) r)
  /\ (forall a, In a alertas -> al_prioridad a = T "alta" ->
        In (IStr (T "⚠️ ALTA: " ++ accion_sugerida a)) r)
  /\ ((4 <= nivel_value urgencia)%Z ->
        In (IStr (T "🚨 ACCIÓN INMEDIATA: Contactar al denunciante en las próximas 2 horas")) r
        /\ In (IStr (T "📞 Notificar a autoridades competentes si hay riesgo inmediato")) r).
Proof.
  cbv zeta. unfold generar_recomendaciones. cbv zeta.
  split; [apply set_to_list_nodup|].
  split; [|split; [|split; [|split]]].
  - apply set_to_list_in, in_map, in_or_app. right. now left.
  - apply set_to_list_in, in_map, in_or_app. right. right. now left.
  - intros a Ha Hp. apply set_to_list_in, in_map, in_or_app. left.
    apply in_or_app. right. apply in_flat_map. exists a. split; [exact Ha|].
    unfold recomendacion_de_alerta. rewrite Hp.
    replace (text_eqb (T "crítica") (T "crítica")) with true
      by (vm_compute; reflexivity).
    now left.
  - intros a Ha Hp. apply set_to_list_in, in_map, in_or_app. left.
    apply in_or_app. right. apply in_flat_map. exists a. split; [exact Ha|].
    unfold recomendacion_de_alerta. rewrite Hp.
    replace (text_eqb (T "alta") (T "crítica")) with false
      by (vm_compute; reflexivity).
    replace (text_eqb (T "alta") (T "alta")) with true
      by (vm_compute; reflexivity).
    now left.
  - intros Hu. apply Z.leb_le in Hu. rewrite Hu.
    split; apply set_to_list_in, in_map;
      repeat first
        [ apply in_or_app; left;
          match goal with |- In _ [] => fail 1 | |- _ => idtac end
        | match goal with |- In _ (if ?c then _ else _) => destruct c end ];
      cbn [app In];
      match goal with
      | |- ?x = ?x \/ _ => left; reflexivity
      | |- _ \/ ?x = ?x \/ _ => right; left; reflexivity
      end.
Qed.

End Recommendations.

(** ** Scores between 0 and 1 ([_calcular_veracidad],
    [_calcular_confianza_categoria]) *)

Section UnitScores.
Context {U : Unicode} {SO : SetOrder}.

Lemma puntuacion_evidencia_nonneg (mensaje : text) :
  (0 <= puntuacion_evidencia (evaluar_evidencias mensaje))%Q.
Proof.
  unfold evaluar_evidencias. cbv zeta.
  destruct (fold_left _ tipos_evidencia ([], 0%nat)) as [enc total].
  cbn [puntuacion_evidencia].
  match goal with
  | |- (0 <= py_round_digits (n2q ?a + n2q ?b * _) 1)%Q =>
    rewrite (py_round_digits_medios a b);
    pose proof (n2q_nonneg a); pose proof (n2q_nonneg b)
  end.
  nra.
Qed.

(** X8. The veracity score and the category confidence of the composite
    result are always between 0 and 1. *)
Theorem puntuaciones_entre_0_y_1 (timestamp mensaje : text) :
  let a := analizar_denuncia_completa timestamp mensaje in
  (0 <= puntuacion_veracidad a)%Q /\ (puntuacion_veracidad a <= 1)%Q
  /\ (0 <= cat_confianza (categoria a))%Q /\ (cat_confianza (categoria a) <= 1)%Q.
Proof.
  cbv zeta. cbn [analizar_denuncia_completa puntuacion_veracidad categoria cat_confianza].
  assert (V : (0 <= _calcular_veracidad (evaluar_evidencias mensaje)
                                       (extraer_entidades mensaje))%Q
              /\ (_calcular_veracidad (evaluar_evidencias mensaje)
                                      (extraer_entidades mensaje) <= 1)%Q).
  { unfold _calcular_veracidad. cbv zeta. apply py_round_digits_between.
    - apply Qle_shift_div_l; [reflexivity|]. apply qmin_glb; [|discriminate].
      pose proof (puntuacion_evidencia_nonneg mensaje).
      pose proof (n2q_nonneg (List.length (ent_tiempos (extraer_entidades mensaje)))).
      pose proof (n2q_nonneg (List.length (ent_lugares (extraer_entidades mensaje)))).
      pose proof (n2q_nonneg (List.length (ent_personas (extraer_entidades mensaje)))).
      nra.
    - apply Qle_shift_div_r; [reflexivity|]. apply (Qle_trans _ 10); [apply qmin_le_r|].
      discriminate. }
  assert (C : (0 <= _calcular_confianza_categoria mensaje
                      (sugerir_categoria_mejorada mensaje))%Q
              /\ (_calcular_confianza_categoria mensaje
                    (sugerir_categoria_mejorada mensaje) <= 1)%Q).
  { unfold _calcular_confianza_categoria.
    destruct (lookup (sugerir_categoria_mejorada mensaje) patrones_categorias)
      as [patrones|]; [|split; discriminate].
    apply py_round_digits_between; [|apply qmin_le_r].
    apply qmin_glb; [|discriminate].
    apply Qmult_le_0_compat; [apply n2q_nonneg|].
    apply Qinv_le_0_compat, n2q_nonneg. }
  tauto.
Qed.

End UnitScores.

(** ** The selected category ([sugerir_categoria_mejorada]) *)

Lemma max_key_spec (l : list (text * nat)) (best : text * nat) :
  In (max_key l best) (best :: l)
  /\ forall kv, In kv (best :: l) -> (snd kv <= snd (max_key l best))%nat.
Proof.
  revert best. induction l as [|x l IH]; intros best; cbn [max_key].
  - split; [now left|]. intros kv [<-|[]]. lia.
  - destruct (snd best <? snd x)%nat eqn:E.
    + apply Nat.ltb_lt in E. destruct (IH x) as [H1 H2]. split.
      * right. exact H1.
      * intros kv [<-|H]; [|now apply H2].
        specialize (H2 x (or_introl eq_refl)). lia.
    + apply Nat.ltb_ge in E. destruct (IH best) as [H1 H2]. split.
      * destruct H1 as [H1|H1]; [now left|right; now right].
      * intros kv [<-|[<-|H]].
        -- apply H2. now left.
        -- specialize (H2 best (or_introl eq_refl)). lia.
        -- apply H2. now right.
Qed.

Section Selection.
Context {U : Unicode}.

(** X9. The selected category is "otros" exactly when no category scores
    (pattern matches plus context bonus) above zero; otherwise it is a
    category of the table whose score is positive and not exceeded by
    any other category. *)
Theorem categoria_de_mayor_puntuacion (mensaje : text) :
  let s := str_lower mensaje in
  let c := sugerir_categoria_mejorada mensaje in
  (c = T "otros"
   <-> forall entry, In entry patrones_categorias -> puntuacion_categoria s entry = 0%nat)
  /\ (c <> T "otros" ->
      exists patrones,
        In (c, patrones) patrones_categorias
        /\ (0 < puntuacion_categoria s (c, patrones))%nat
        /\ forall entry, In entry patrones_categorias ->
             (puntuacion_categoria s entry <= puntuacion_categoria s (c, patrones))%nat).
Proof.
  cbv zeta. unfold sugerir_categoria_mejorada. cbv zeta.
  set (s := str_lower mensaje).
  assert (A : forall kv, In kv (puntuaciones_categorias s) ->
                exists patrones, In (fst kv, patrones) patrones_categorias
                                 /\ snd kv = puntuacion_categoria s (fst kv, patrones)).
  { intros kv H. unfold puntuaciones_categorias in H. apply in_map_iff in H.
    destruct H as ([c ps] & <- & H). exists ps. cbn [fst snd]. auto. }
  assert (B : forall entry, In entry patrones_categorias ->
                In (fst entry, puntuacion_categoria s entry) (puntuaciones_categorias s)).
  { intros entry H. unfold puntuaciones_categorias. apply in_map_iff. now exists entry. }
  assert (K : forall kv, In kv (puntuaciones_categorias s) -> fst kv <> T "otros").
  { intros kv H E. destruct (A kv H) as (ps & Hin & _). rewrite E in Hin.
    pose proof (lookup_in_nodup (T "otros") ps patrones_categorias
                  patrones_categorias_keys Hin) as L.
    assert (N : lookup (T "otros") patrones_categorias = None)
      by (vm_compute; reflexivity).
    congruence. }
  destruct (puntuaciones_categorias s) as [|kv l] eqn:P.
  { exfalso. assert (H : In (T "acoso_laboral", puntuacion_categoria s
                              (hd (T "", []) patrones_categorias)) []).
    { rewrite <- P. unfold puntuaciones_categorias, patrones_categorias.
      cbn [map hd fst]. now left. }
    exact H. }
  destruct (max_key_spec l kv) as [M1 M2].
  destruct (max_key l kv) as [c p] eqn:MK. cbn [snd] in M2.
  destruct (0 <? p)%nat eqn:Z.
  - apply Nat.ltb_lt in Z.
    destruct (A (c, p) M1) as (ps & Hin & Hp). cbn [fst snd] in Hin, Hp.
    split.
    + split.
      * intros E. exfalso. exact (K (c, p) M1 E).
      * intros H. specialize (H _ Hin). lia.
    + intros _. exists ps. rewrite <- Hp. repeat split; [exact Hin|exact Z|].
      intros entry He. exact (M2 _ (B entry He)).
  - apply Nat.ltb_ge in Z. split.
    + split; [|reflexivity]. intros _ entry He.
      specialize (M2 _ (B entry He)). cbn [snd] in M2. lia.
    + intros N. now contradiction N.
Qed.

End Selection.

(** ** The entities ([extraer_entidades]) *)

Section Entities.
Context {U : Unicode} {SO : SetOrder}.

(** X10. No entity is listed twice, and every person listed is a word of
    the message, longer than two characters, that begins with an
    upper-case letter and is not one of the five excluded words. *)
Theorem entidades_sin_duplicados (mensaje : text) :
  let e := extraer_entidades mensaje in
  NoDup (ent_tiempos e) /\ NoDup (ent_lugares e)
  /\ NoDup (ent_personas e) /\ NoDup (ent_evidencias e)
  /\ forall x, In x (ent_personas e) ->
       exists c w, x = IStr (c :: w)
                   /\ In (c :: w) (str_split mensaje)
                   /\ is_upper c = true
                   /\ (2 < List.length (c :: w))%nat
                   /\ ~ In (str_lower (c :: w))
                          [T "que"; T "pero"; T "porque"; T "cuando"; T "donde"].
Proof.
  cbv zeta. unfold extraer_entidades.
  cbn [ent_tiempos ent_lugares ent_personas ent_evidencias].
  repeat (split; [apply set_to_list_nodup|]).
  intros x H. apply (proj1 (set_to_list_in _ _)) in H. unfold nombres_propios in H.
  destruct (str_split mensaje) as [|w0 ws]; [exact (False_ind _ H)|].
  apply in_map_iff in H. destruct H as (w & <- & H).
  apply filter_In in H. destruct H as [Hin H].
  apply andb_prop in H. destruct H as [H H3].
  apply andb_prop in H. destruct H as [H1 H2].
  destruct w as [|c w]; [discriminate|].
  exists c, w. repeat split.
  - now right.
  - exact H1.
  - now apply Nat.ltb_lt.
  - intros I. apply negb_true_iff in H3. unfold text_mem in H3.
    assert (X : existsb (text_eqb (str_lower (c :: w)))
                  [T "que"; T "pero"; T "porque"; T "cuando"; T "donde"] = true).
    { apply existsb_exists. exists (str_lower (c :: w)). split; [exact I|].
      apply text_eqb_refl. }
    congruence.
Qed.

End Entities.

(** ** The administrator's views ([_analisis_masivo],
    [_ver_alertas_criticas]) *)

Lemma incrementar_suma (k : text) (d : list (text * nat)) :
  list_sum (map snd (incrementar k d)) = S (list_sum (map snd d)).
Proof.
  induction d as [|[k' v] d IH]; cbn [incrementar]; [reflexivity|].
  destruct (text_eqb k k'); cbn [map snd]; rewrite !list_sum_cons; [lia|].
  rewrite IH. lia.
Qed.

Lemma alertas_por_pruebas_criticas (u : NivelUrgencia) (b1 b2 b3 b4 b5 : bool) :
  let al := alertas_por_pruebas u b1 b2 b3 b4 b5 in
  (List.length (filter (fun a => text_eqb (al_prioridad a) (T "crítica")) al) <= 1)%nat
  /\ (match filter (fun a => text_mem (al_prioridad a) [T "crítica"; T "alta"]) al with
      | [] => false
      | _ :: _ => true
      end = b1 || b2 || b3).
Proof.
  cbv zeta. destruct b1, b2, b3, b4, b5; vm_compute; split; (lia || reflexivity).
Qed.

Section Views.
Context {U : Unicode} {SO : SetOrder}.

Lemma acumular_coherente (r : ResultadosMasivo) (timestamp mensaje : text) :
  estadisticas_coherentes r ->
  estadisticas_coherentes (acumular r (analizar_denuncia_completa timestamp mensaje))
  /\ total_procesadas (acumular r (analizar_denuncia_completa timestamp mensaje))
     = S (total_procesadas r).
Proof.
  intros (H1 & H2 & H3 & H4). split; [|reflexivity].
  unfold estadisticas_coherentes, acumular.
  cbn [rm_categorias total_procesadas alta_urgencia alertas_criticas alta_veracidad].
  rewrite incrementar_suma. repeat split.
  - now f_equal.
  - destruct (4 <=? _)%Z; lia.
  - cbn [analizar_denuncia_completa alertas]. rewrite generar_alertas_por_pruebas.
    match goal with
    | |- context [alertas_por_pruebas ?u ?a ?b ?c ?d ?e] =>
      pose proof (proj1 (alertas_por_pruebas_criticas u a b c d e)) as K;
      cbv zeta in K; destruct (alertas_por_pruebas u a b c d e)
    end; [lia|]. lia.
  - destruct (Qle_bool _ _); lia.
Qed.

Lemma analisis_masivo_desde_spec (reloj : nat -> text) (denuncias : list Denuncia) :
  forall i r,
    estadisticas_coherentes r ->
    let (final, denuncias') := analisis_masivo_desde reloj i denuncias r in
    estadisticas_coherentes final
    /\ total_procesadas final
       = (total_procesadas r + List.length (filter analizable denuncias))%nat
    /\ Forall2 (fun d d' =>
                  den_mensaje d' = den_mensaje d
                  /\ match den_mensaje d with
                     | Some (VStr (c :: m)) =>
                       exists timestamp,
                         den_analisis_ia d'
                         = Some (analizar_denuncia_completa timestamp (c :: m))
                     | _ => den_analisis_ia d' = den_analisis_ia d
                     end)
               denuncias denuncias'.
Proof.
  induction denuncias as [|d ds IH]; intros i r Hr; cbn [analisis_masivo_desde].
  - cbn. repeat split; [apply Hr|apply Hr|apply Hr|apply Hr|lia|constructor].
  - set (mensaje := match den_mensaje d with Some v => v | None => VStr [] end).
    assert (Cases :
      (analizable d = true
       /\ exists c m, den_mensaje d = Some (VStr (c :: m)) /\ mensaje = VStr (c :: m))
      \/ (analizable d = false
          /\ (truthy mensaje = false \/ is_str mensaje = false)
          /\ match den_mensaje d with
             | Some (VStr (_ :: _)) => False
             | _ => True
             end)).
    { unfold analizable, mensaje.
      destruct (den_mensaje d) as [[|b|n|[|c m]]|];
        first [ left; split; [reflexivity|];
                exists c, m; split; reflexivity
              | right; split; [reflexivity|]; split; [|exact I];
                first [right; reflexivity | left; reflexivity] ]. }
    destruct Cases as [(A & c & m & E1 & E2)|(A & B & C)].
    + rewrite E2. cbn [truthy analizar_denuncia_completa_py].
      destruct (acumular_coherente r (reloj i) (c :: m) Hr) as [Hc Ht].
      specialize (IH (S i) _ Hc).
      destruct (analisis_masivo_desde reloj (S i) ds _) as [final ds'].
      destruct IH as (I1 & I2 & I3). cbn [filter]. rewrite A. cbn [List.length].
      repeat split; try apply I1.
      * rewrite I2, Ht. lia.
      * constructor; [|exact I3]. cbn [den_mensaje den_analisis_ia].
        split; [reflexivity|]. rewrite E1. now exists (reloj i).
    + assert (S0 : (if truthy mensaje
                    then match analizar_denuncia_completa_py (reloj i) mensaje with
                         | inr analisis =>
                           (acumular r analisis,
                            {| den_mensaje := den_mensaje d;
                               den_analisis_ia := Some analisis |})
                         | inl _ => (r, d)
                         end
                    else (r, d)) = (r, d)).
      { destruct B as [B|B]; [now rewrite B|].
        destruct (truthy mensaje); [|reflexivity].
        destruct mensaje; try reflexivity; discriminate. }
      rewrite S0. specialize (IH (S i) r Hr).
      destruct (analisis_masivo_desde reloj (S i) ds r) as [final ds'].
      destruct IH as (I1 & I2 & I3). cbn [filter]. rewrite A.
      repeat split; try apply I1; [exact I2|].
      constructor; [|exact I3]. split; [reflexivity|].
      destruct (den_mensaje d) as [[| | |[|c' m']]|]; try reflexivity.
      contradiction.
Qed.

(** X11. After the bulk analysis the statistics add up: the complaints
    processed are exactly those whose message is a non-empty string, the
    counts per category sum to that number, and the counts of high
    urgency, of critical alerts and of high veracity do not exceed it.
    Each processed complaint carries its analysis; the others are left as
    they were. *)
Theorem analisis_masivo_coherente (reloj : nat -> text) (denuncias : list Denuncia) :
  let (final, denuncias') := _analisis_masivo reloj denuncias in
  total_procesadas final = List.length (filter analizable denuncias)
  /\ list_sum (map snd (rm_categorias final)) = total_procesadas final
  /\ (alta_urgencia final <= total_procesadas final)%nat
  /\ (alertas_criticas final <= total_procesadas final)%nat
  /\ (alta_veracidad final <= total_procesadas final)%nat
  /\ Forall2 (fun d d' =>
                den_mensaje d' = den_mensaje d
                /\ match den_mensaje d with
                   | Some (VStr (c :: m)) =>
                     exists timestamp,
                       den_analisis_ia d'
                       = Some (analizar_denuncia_completa timestamp (c :: m))
                   | _ => den_analisis_ia d' = den_analisis_ia d
                   end)
             denuncias denuncias'.
Proof.
  unfold _analisis_masivo.
  assert (H0 : estadisticas_coherentes resultados_iniciales)
    by (repeat split; cbn; lia).
  pose proof (analisis_masivo_desde_spec reloj denuncias 1 resultados_iniciales H0) as H.
  destruct (analisis_masivo_desde reloj 1 denuncias resultados_iniciales)
    as [final ds'].
  destruct H as ((H1 & H2 & H3 & H4) & H5 & H6). cbn in H5. tauto.
Qed.

Lemma alertas_altas_iff (timestamp mensaje : text) :
  alertas_altas (analizar_denuncia_completa timestamp mensaje) <> []
  <-> requiere_atencion_inmediata (analizar_denuncia_completa timestamp mensaje) = true.
Proof.
  unfold alertas_altas.
  cbn [analizar_denuncia_completa requiere_atencion_inmediata alertas].
  rewrite generar_alertas_por_pruebas.
  assert (V : (4 <=? nivel_value (detectar_urgencia mensaje))%Z = true ->
              (3 <=? nivel_value (detectar_urgencia mensaje))%Z = true).
  { rewrite !Z.leb_le. lia. }
  match goal with
  | |- context [alertas_por_pruebas ?u ?a ?b ?c ?d ?e] =>
    destruct (alertas_por_pruebas_forma u a b c d e) as (_ & _ & _ & E);
    pose proof (proj2 (alertas_por_pruebas_criticas u a b c d e)) as K;
    cbv zeta in K; rewrite E; clear E;
    destruct (filter _ (alertas_por_pruebas u a b c d e))
  end;
  destruct (4 <=? nivel_value (detectar_urgencia mensaje))%Z;
  destruct (3 <=? nivel_value (detectar_urgencia mensaje))%Z;
  destruct (2 <=? patrones_violencia_count (str_lower mensaje))%nat;
  destruct (1 <=? re_count false re_amenazas_directas (str_lower mensaje))%nat;
  cbn [orb] in *; try discriminate K;
  try (specialize (V eq_refl); discriminate V);
  split; intros H; try reflexivity; try discriminate; try (now contradiction H).
Qed.

(** X12. A complaint analysed by the engine is listed in the view of
    critical alerts exactly when its analysis requires immediate
    attention. *)
Theorem alertas_criticas_son_atencion_inmediata (denuncias : list Denuncia)
    (d : Denuncia) (timestamp mensaje : text) :
  In d denuncias ->
  den_analisis_ia d = Some (analizar_denuncia_completa timestamp mensaje) ->
  (exists al, In (d, al) (_ver_alertas_criticas denuncias))
  <-> requiere_atencion_inmediata (analizar_denuncia_completa timestamp mensaje) = true.
Proof.
  intros Hin Ha. rewrite <- alertas_altas_iff. unfold _ver_alertas_criticas. split.
  - intros [al H]. apply in_flat_map in H. destruct H as (d' & _ & H).
    destruct (den_analisis_ia d') as [a'|] eqn:A'; [|contradiction].
    destruct (alertas_altas a') eqn:L; [contradiction|].
    destruct H as [H|[]]. injection H as -> <-.
    rewrite Ha in A'. injection A' as <-. rewrite L. discriminate.
  - intros H. exists (alertas_altas (analizar_denuncia_completa timestamp mensaje)).
    apply in_flat_map. exists d. split; [exact Hin|]. rewrite Ha.
    destruct (alertas_altas (analizar_denuncia_completa timestamp mensaje));
      [now contradiction H|now left].
Qed.

End Views.

Section ViewsWitness.
#[local] Existing Instance latin1.
#[local] Existing Instance first_seen_order.

(** One stored complaint, "urgente ayuda", with its analysis. *)
Lemma alertas_criticas_son_atencion_inmediata_witness :
  let analisis :=
    analizar_denuncia_completa (T "2025-01-01T10:00:00") (T "urgente ayuda") in
  let d := {| den_mensaje := Some (VStr (T "urgente ayuda"));
              den_analisis_ia := Some analisis |} in
  In d [d]
  /\ den_analisis_ia d = Some analisis
  /\ ((exists al, In (d, al) (_ver_alertas_criticas [d]))
      <-> requiere_atencion_inmediata analisis = true).
Proof.
  cbv zeta. split; [left; reflexivity|]. split; [reflexivity|].
  apply (alertas_criticas_son_atencion_inmediata
           [{| den_mensaje := Some (VStr (T "urgente ayuda"));
               den_analisis_ia :=
                 Some (analizar_denuncia_completa (T "2025-01-01T10:00:00")
                         (T "urgente ayuda")) |}]
           {| den_mensaje := Some (VStr (T "urgente ayuda"));
              den_analisis_ia :=
                Some (analizar_denuncia_completa (T "2025-01-01T10:00:00")
                        (T "urgente ayuda")) |}
           (T "2025-01-01T10:00:00") (T "urgente ayuda"));
    [left; reflexivity|reflexivity].
Defined.

End ViewsWitness.

(** ** The gestor ([procesar_denuncia], [cambiar_modo],
    [configurar_openai]) *)

Section Strip.
Context {U : Unicode}.

Lemma lstrip_blank (s : text) : forallb is_space s = true -> lstrip s = [].
Proof.
  induction s as [|c s IH]; intros H; [reflexivity|].
  cbn [forallb] in H. apply andb_prop in H. destruct H as [H1 H2].
  cbn [lstrip]. rewrite H1. now apply IH.
Qed.

Lemma str_strip_blank (s : text) : forallb is_space s = true -> str_strip s = [].
Proof. intros H. unfold str_strip. now rewrite (lstrip_blank s H). Qed.

End Strip.

Section GestorCalls.
Context {U : Unicode}.
Variable R : Type.
Variable agente_local : text -> text + R.
Variable agente_openai : option (text -> text + R).

(** X13. On a string the gestor never raises: an empty or blank message
    gets the failure result "Mensaje vacío" and no agent is called, and an
    exception of the agent comes back as an error result.  Without an
    OpenAI agent every other message goes to the local agent, whatever
    mode is forced. *)
Theorem gestor_no_lanza_con_cadenas (timestamp s : text) (forzar_modo : option text) :
  (exists r, procesar_denuncia agente_local agente_openai timestamp (VStr s) forzar_modo
             = inr r)
  /\ (forallb is_space s = true ->
      procesar_denuncia agente_local agente_openai timestamp (VStr s) forzar_modo
      = inr (MensajeVacio timestamp))
  /\ (str_strip s <> [] ->
      procesar_denuncia agente_local None timestamp (VStr s) forzar_modo
      = inr match agente_local s with
            | inr resultado => Procesado (T "local") resultado
            | inl e => ErrorProcesamiento e (T "local_error") timestamp
            end).
Proof.
  split; [|split].
  - unfold procesar_denuncia.
    destruct (negb (truthy (VStr s))); [eauto|].
    destruct (negb (truthy (VStr (str_strip s)))); [eauto|].
    match goal with
    | |- context [let (agente, modo_usado) := ?x in _] => destruct x as [agente modo]
    end.
    destruct (agente s); eauto.
  - intros H. unfold procesar_denuncia. rewrite (str_strip_blank s H).
    destruct s; reflexivity.
  - intros H. unfold procesar_denuncia.
    destruct s as [|c s]; [now contradiction H|]. cbn [truthy negb].
    destruct (str_strip (c :: s)); [now contradiction H|]. cbn [negb].
    destruct (agente_local (c :: s)); reflexivity.
Qed.

End GestorCalls.

Lemma cambiar_modo_coherente (self : Gestor) (nuevo_modo : text) :
  modo_coherente self -> modo_coherente (snd (cambiar_modo self nuevo_modo)).
Proof.
  intros H. unfold cambiar_modo.
  destruct (text_eqb nuevo_modo (T "local")); [now left|].
  destruct (text_eqb nuevo_modo (T "openai") && tiene_openai self) eqn:A.
  { apply andb_prop in A. right. split; [now left|apply A]. }
  destruct (text_eqb nuevo_modo (T "hibrido") && tiene_openai self) eqn:B.
  { apply andb_prop in B. right. split; [now right|apply B]. }
  exact H.
Qed.

(** X14. Whatever calls of [cambiar_modo] and [configurar_openai] follow
    the construction of the gestor, its mode is "local", "openai" or
    "hibrido", and it is "openai" or "hibrido" only while an OpenAI agent
    exists; a call of [cambiar_modo] that answers False leaves the gestor
    untouched and one that answers True sets the mode asked for. *)
Theorem modo_siempre_coherente (openai_instalado : bool)
    (api_key_openai : option text) (ops : list OperacionGestor) :
  modo_coherente (fold_left (aplicar openai_instalado) ops
                            (gestor_init openai_instalado api_key_openai))
  /\ forall self nuevo_modo,
       (fst (cambiar_modo self nuevo_modo) = false ->
        snd (cambiar_modo self nuevo_modo) = self)
       /\ (fst (cambiar_modo self nuevo_modo) = true ->
           g_modo (snd (cambiar_modo self nuevo_modo)) = nuevo_modo).
Proof.
  split.
  - assert (I : modo_coherente (gestor_init openai_instalado api_key_openai)).
    { unfold gestor_init, modo_coherente. cbv zeta.
      destruct (truthy_opt api_key_openai); cbn; auto. }
    revert I. generalize (gestor_init openai_instalado api_key_openai).
    induction ops as [|op ops IH]; intros g I; [exact I|].
    cbn [fold_left]. apply IH. destruct op as [m|k]; cbn [aplicar].
    + now apply cambiar_modo_coherente.
    + right. cbn. auto.
  - intros self nuevo_modo. unfold cambiar_modo.
    destruct (text_eqb nuevo_modo (T "local")) eqn:A.
    { apply text_eqb_eq in A. cbn. split; [discriminate|]. now intros _. }
    destruct (text_eqb nuevo_modo (T "openai") && tiene_openai self) eqn:B.
    { apply andb_prop in B. destruct B as [B _]. apply text_eqb_eq in B. cbn.
      split; [discriminate|]. now intros _. }
    destruct (text_eqb nuevo_modo (T "hibrido") && tiene_openai self) eqn:C.
    { apply andb_prop in C. destruct C as [C _]. apply text_eqb_eq in C. cbn.
      split; [discriminate|]. now intros _. }
    cbn. split; [reflexivity|discriminate].
Qed.

(** ** The base agent ([procesar_denuncia_completo]) *)

Section BaseAgent.
Variables C V : Type.
Variable clasificar_denuncia : text -> text + C.
Variable analizar_veracidad : text -> text + V.

Lemma procesar_varias_spec (reloj : nat -> text) (mensajes : list text) :
  forall i self,
    let (rs, final) :=
      procesar_varias clasificar_denuncia analizar_veracidad reloj i self mensajes in
    map procesamiento_exitoso rs = map (ambos_retornan clasificar_denuncia analizar_veracidad) mensajes
    /\ clasificaciones_realizadas (ag_estadisticas final)
       = (clasificaciones_realizadas (ag_estadisticas self)
          + List.length (filter (ambos_retornan clasificar_denuncia analizar_veracidad) mensajes))%nat
    /\ analisis_realizados (ag_estadisticas final)
       = (analisis_realizados (ag_estadisticas self)
          + List.length (filter (ambos_retornan clasificar_denuncia analizar_veracidad) mensajes))%nat
    /\ errores_encontrados (ag_estadisticas final)
       = (errores_encontrados (ag_estadisticas self)
          + List.length (filter (fun m => negb (ambos_retornan clasificar_denuncia analizar_veracidad m)) mensajes))%nat
    /\ ag_nombre final = ag_nombre self.
Proof.
  induction mensajes as [|m ms IH]; intros i self; cbn [procesar_varias].
  - cbn. repeat split; lia.
  - assert (E : ambos_retornan clasificar_denuncia analizar_veracidad m
                = match clasificar_denuncia m with
                  | inl _ => false
                  | inr _ => match analizar_veracidad m with
                             | inl _ => false
                             | inr _ => true
                             end
                  end) by reflexivity.
    unfold procesar_denuncia_completo.
    cbn [filter map]. rewrite E. clear E.
    destruct (clasificar_denuncia m) as [e|rc]; [|destruct (analizar_veracidad m) as [e|rv]];
      match goal with
      | |- context [procesar_varias _ _ reloj (S i) ?s ms] =>
        specialize (IH (S i) s);
        destruct (procesar_varias clasificar_denuncia analizar_veracidad reloj (S i) s ms)
          as [rs final]
      end;
      destruct IH as (I1 & I2 & I3 & I4 & I5); cbn in *;
      repeat split; try (f_equal; exact I1); try lia; try exact I5.
Qed.

(** X15. [procesar_denuncia_completo] never lets an exception of
    [clasificar_denuncia] or [analizar_veracidad] through: a call succeeds
    exactly when both return, and otherwise gives a failed result.  Over
    any series of calls on a new agent the two success counters stay
    equal, and successes and errors together count the calls. *)
Theorem estadisticas_del_agente (nombre : text) (reloj : nat -> text)
    (mensajes : list text) :
  let (rs, final) :=
    procesar_varias clasificar_denuncia analizar_veracidad reloj 0
      (agente_base_init nombre) mensajes in
  let e := ag_estadisticas final in
  map procesamiento_exitoso rs = map (ambos_retornan clasificar_denuncia analizar_veracidad) mensajes
  /\ clasificaciones_realizadas e = analisis_realizados e
  /\ clasificaciones_realizadas e = List.length (filter (ambos_retornan clasificar_denuncia analizar_veracidad) mensajes)
  /\ (clasificaciones_realizadas e + errores_encontrados e)%nat = List.length mensajes.
Proof.
  pose proof (procesar_varias_spec reloj mensajes 0 (agente_base_init nombre)) as H.
  destruct (procesar_varias clasificar_denuncia analizar_veracidad reloj 0
              (agente_base_init nombre) mensajes) as [rs final].
  destruct H as (H1 & H2 & H3 & H4 & _). cbn in H2, H3, H4. cbv zeta.
  split; [exact H1|]. rewrite H2, H3, H4. repeat split.
  pose proof (filter_length (ambos_retornan clasificar_denuncia analizar_veracidad) mensajes) as L. lia.
Qed.

End BaseAgent.

(** ** Cleaning a text ([UtilsTexto.limpiar_texto]) *)

Section Cleaning.
Context {U : Unicode}.

Lemma lstrip_decomp (s : text) :
  exists ws, s = ws ++ lstrip s /\ forallb is_space ws = true.
Proof.
  induction s as [|c s (ws & E & F)]; [now exists []|].
  cbn [lstrip]. destruct (is_space c) eqn:C.
  - exists (c :: ws). cbn [app forallb]. rewrite C, F. split; [now f_equal|reflexivity].
  - now exists [].
Qed.

Lemma lstrip_fixed (s : text) :
  match s with c :: _ => is_space c = false | [] => True end -> lstrip s = s.
Proof. destruct s as [|c s]; [reflexivity|]. cbn [lstrip]. now intros ->. Qed.

Lemma lstrip_head (s : text) :
  match lstrip s with c :: _ => is_space c = false | [] => True end.
Proof.
  induction s as [|c s IH]; [exact I|]. cbn [lstrip].
  destruct (is_space c) eqn:C; [exact IH|exact C].
Qed.

Lemma lstrip_idem (s : text) : lstrip (lstrip s) = lstrip s.
Proof. apply lstrip_fixed, lstrip_head. Qed.

(** The stripped text has no whitespace at either end. *)
Lemma str_strip_ends (s : text) :
  lstrip (str_strip s) = str_strip s
  /\ lstrip (rev (str_strip s)) = rev (str_strip s).
Proof.
  unfold str_strip. rewrite rev_involutive, lstrip_idem. split; [|reflexivity].
  destruct (lstrip_decomp (rev (lstrip s))) as (ws & E & F).
  set (l2 := lstrip (rev (lstrip s))) in *.
  apply lstrip_fixed.
  assert (L : lstrip s = rev l2 ++ rev ws).
  { rewrite <- rev_app_distr, <- E. now rewrite rev_involutive. }
  pose proof (lstrip_head s) as H. rewrite L in H.
  destruct (rev l2) as [|c r]; [exact I|exact H].
Qed.

Lemma str_strip_fixed (r : text) :
  lstrip r = r -> lstrip (rev r) = rev r -> str_strip r = r.
Proof. intros H1 H2. unfold str_strip. now rewrite H1, H2, rev_involutive. Qed.

Lemma normal_ws_weaken (t : text) :
  normal_ws t true = true -> normal_ws t false = true.
Proof.
  destruct t as [|c r]; [reflexivity|]. cbn [normal_ws].
  destruct (is_space c); [discriminate|auto].
Qed.

Lemma normal_ws_any (t : text) (b : bool) :
  normal_ws t b = true -> normal_ws t false = true.
Proof. destruct b; [apply normal_ws_weaken|auto]. Qed.

Lemma normal_ws_lstrip (s : text) (b : bool) :
  normal_ws s b = true -> normal_ws (lstrip s) false = true.
Proof.
  revert b. induction s as [|c s IH]; intros b H; [reflexivity|].
  cbn [lstrip]. destruct (is_space c) eqn:C.
  - cbn [normal_ws] in H. rewrite C in H.
    apply andb_prop in H. destruct H as [_ H]. now apply (IH true).
  - now apply (normal_ws_any _ b).
Qed.

Lemma normal_ws_app (a b : text) (f : bool) :
  normal_ws (a ++ b) f = normal_ws a f && normal_ws b (fin_blanco a f).
Proof.
  revert f. induction a as [|c a IH]; intros f; [reflexivity|].
  cbn [app normal_ws fin_blanco]. destruct (is_space c).
  - rewrite IH. now rewrite !andb_assoc.
  - apply IH.
Qed.

Lemma fin_blanco_app_one (a : text) (c : N) (f : bool) :
  fin_blanco (a ++ [c]) f = is_space c.
Proof. revert f. induction a as [|d a IH]; intros f; [reflexivity|apply IH]. Qed.

Lemma fin_blanco_rev (r : text) :
  fin_blanco (rev r) false = match r with [] => false | d :: _ => is_space d end.
Proof. destruct r as [|d r]; [reflexivity|]. cbn [rev]. apply fin_blanco_app_one. Qed.

Lemma normal_ws_rev (t : text) (f : bool) :
  normal_ws t f = true -> normal_ws (rev t) false = true.
Proof.
  revert f. induction t as [|c r IH]; intros f H; [reflexivity|].
  cbn [rev]. rewrite normal_ws_app. cbn [normal_ws] in *.
  destruct (is_space c) eqn:C.
  - apply andb_prop in H. destruct H as [H H2].
    apply andb_prop in H. destruct H as [_ H1].
    rewrite (IH true H2), fin_blanco_rev, H1.
    destruct r as [|d r]; [reflexivity|].
    cbn [normal_ws] in H2. destruct (is_space d); [discriminate|reflexivity].
  - rewrite (IH false H). reflexivity.
Qed.

Lemma normal_ws_strip (s : text) (b : bool) :
  normal_ws s b = true -> normal_ws (str_strip s) false = true.
Proof.
  intros H. unfold str_strip.
  apply (normal_ws_rev _ false), (normal_ws_lstrip _ false),
        (normal_ws_rev _ false), (normal_ws_lstrip _ b), H.
Qed.

Lemma sub_espacios_normal (t : text) (b : bool) :
  normal_ws (sub_espacios t b) b = true.
Proof.
  revert b. induction t as [|c t IH]; intros b; [reflexivity|].
  cbn [sub_espacios]. destruct (is_space c) eqn:C.
  - destruct b; [apply IH|]. cbn [normal_ws]. rewrite space_space, IH. reflexivity.
  - cbn [normal_ws]. rewrite C. apply IH.
Qed.

Lemma sub_espacios_fixed (t : text) (b : bool) :
  normal_ws t b = true -> sub_espacios t b = t.
Proof.
  revert b. induction t as [|c t IH]; intros b H; [reflexivity|].
  cbn [sub_espacios normal_ws] in *. destruct (is_space c).
  - apply andb_prop in H. destruct H as [H H2].
    apply andb_prop in H. destruct H as [Hb Hc].
    apply negb_true_iff in Hb. apply N.eqb_eq in Hc. subst b c.
    now rewrite (IH true H2).
  - now rewrite (IH false H).
Qed.

Lemma permitido_espacio : caracter_permitido 32 = true.
Proof. unfold caracter_permitido. rewrite space_space. now rewrite orb_true_r. Qed.

Lemma sub_especiales_permitidos (t : text) :
  forallb caracter_permitido (sub_especiales t) = true.
Proof.
  induction t as [|c t IH]; [reflexivity|]. cbn [sub_especiales map forallb].
  fold (sub_especiales t). rewrite IH.
  destruct (caracter_permitido c) eqn:C; [now rewrite C|now rewrite permitido_espacio].
Qed.

Lemma sub_especiales_fixed (t : text) :
  forallb caracter_permitido t = true -> sub_especiales t = t.
Proof.
  induction t as [|c t IH]; intros H; [reflexivity|].
  cbn [forallb] in H. apply andb_prop in H. destruct H as [H1 H2].
  cbn [sub_especiales map]. fold (sub_especiales t). now rewrite H1, (IH H2).
Qed.

Lemma sub_espacios_permitidos (t : text) (b : bool) :
  forallb caracter_permitido t = true ->
  forallb caracter_permitido (sub_espacios t b) = true.
Proof.
  revert b. induction t as [|c t IH]; intros b H; [reflexivity|].
  cbn [forallb] in H. apply andb_prop in H. destruct H as [H1 H2].
  cbn [sub_espacios]. destruct (is_space c); [destruct b|]; cbn [forallb];
    rewrite ?permitido_espacio, ?H1; now apply IH.
Qed.

Lemma lstrip_permitidos (t : text) :
  forallb caracter_permitido t = true -> forallb caracter_permitido (lstrip t) = true.
Proof.
  intros H. destruct (lstrip_decomp t) as (ws & E & _). rewrite E in H.
  rewrite forallb_app in H. apply andb_prop in H. apply H.
Qed.

Lemma rev_permitidos (t : text) :
  forallb caracter_permitido t = true -> forallb caracter_permitido (rev t) = true.
Proof.
  intros H. apply forallb_forall. intros c Hc. apply in_rev in Hc.
  exact (proj1 (forallb_forall _ _) H c Hc).
Qed.

Lemma limpiar_texto_forma (texto : text) :
  let r := limpiar_texto texto in
  forallb caracter_permitido r = true
  /\ normal_ws r false = true
  /\ lstrip r = r
  /\ lstrip (rev r) = rev r.
Proof.
  cbv zeta. unfold limpiar_texto. destruct texto as [|c t]; [repeat split|].
  set (s := sub_espacios (sub_especiales (c :: t)) false).
  split; [|split; [|apply str_strip_ends]].
  - unfold str_strip. apply rev_permitidos, lstrip_permitidos, rev_permitidos,
      lstrip_permitidos, sub_espacios_permitidos, sub_especiales_permitidos.
  - apply (normal_ws_strip s false), sub_espacios_normal.
Qed.

(** X16. A cleaned text is in normal form: it holds only word characters,
    the punctuation [.,!?;:] and spaces; every whitespace character in it
    is a single U+0020 between two other characters; and cleaning it
    again changes nothing. *)
Theorem limpiar_texto_idempotente (texto : text) :
  let r := limpiar_texto texto in
  forallb (fun c => is_word c || existsb (N.eqb c) [46; 44; 33; 63; 59; 58]
                    || (c =? 32)) r = true
  /\ normal_ws r false = true
  /\ lstrip r = r /\ lstrip (rev r) = rev r
  /\ limpiar_texto r = r.
Proof.
  cbv zeta. destruct (limpiar_texto_forma texto) as (P & W & L & R).
  cbv zeta in P, W, L, R. set (r := limpiar_texto texto) in *.
  split; [|split; [exact W|split; [exact L|split; [exact R|]]]].
  - assert (G : forall t b, forallb caracter_permitido t = true ->
                  normal_ws t b = true ->
                  forallb (fun c => is_word c
                                    || existsb (N.eqb c) [46; 44; 33; 63; 59; 58]
                                    || (c =? 32)) t = true).
    { induction t as [|c t IH]; intros b Hp Hw; [reflexivity|].
      cbn [forallb] in *. apply andb_prop in Hp. destruct Hp as [Hc Hp].
      cbn [normal_ws] in Hw. unfold caracter_permitido in Hc.
      destruct (is_space c) eqn:S.
      - apply andb_prop in Hw. destruct Hw as [Hw Hw2].
        apply andb_prop in Hw. destruct Hw as [_ Hw1].
        rewrite Hw1, orb_true_r. now apply (IH true).
      - rewrite orb_false_r in Hc. rewrite Hc. now apply (IH false). }
    exact (G r false P W).
  - unfold limpiar_texto at 1. destruct r as [|c t] eqn:E; [reflexivity|].
    rewrite (sub_especiales_fixed _ P), (sub_espacios_fixed _ _ W).
    now apply str_strip_fixed.
Qed.

End Cleaning.

(** ** The weighted confidence and the veracity analysis *)

Lemma suma_productos_lanza (items : list (text * Q)) (acc : Q) :
  items <> [] -> suma_productos items acc = inl error_str_por_float.
Proof.
  destruct items as [|[valor peso] r]; [intros H; now contradiction H|].
  intros _. reflexivity.
Qed.

Lemma suma_exacta_positiva (pesos : list Q) (acc : Q) :
  Forall (fun peso => 0 < peso)%Q pesos -> (0 <= acc)%Q ->
  (acc <= fold_left Qplus pesos acc)%Q
  /\ (pesos <> [] -> 0 < fold_left Qplus pesos acc)%Q.
Proof.
  intros H. revert acc. induction H as [|peso pesos P _ IH]; intros acc A.
  - split; [apply Qle_refl|]. intros C. now contradiction C.
  - cbn [fold_left]. assert (A' : (0 <= acc + peso)%Q) by lra.
    destruct (IH (acc + peso)%Q A') as [I _]. split; [lra|]. intros _. lra.
Qed.

(** Addition without rounding has the property asked of the floats'. *)
Definition suma_sin_redondeo : SumaFlotante := {|
  suma_flotante := suma_exacta;
  suma_flotante_positiva pesos N P :=
    proj2 (suma_exacta_positiva pesos 0 P (Qle_refl 0)) N
|}.

Section WeightedConfidence.
Context {SF : SumaFlotante}.

(** X17. [calcular_confianza_basica] never computes a weighted average:
    it returns 0.5 exactly when the dictionary is empty or the sum of
    the weights, as the floats give it, is zero, and in every other case
    the product of a factor's name by its weight raises TypeError. *)
Theorem confianza_basica_nunca_pondera (factores : list (text * Q)) :
  (calcular_confianza_basica factores = inr (1 # 2)%Q
   <-> factores = [] \/ (suma_flotante (map snd factores) == 0)%Q)
  /\ (calcular_confianza_basica factores <> inr (1 # 2)%Q
      <-> calcular_confianza_basica factores = inl error_str_por_float).
Proof.
  unfold calcular_confianza_basica.
  destruct factores as [|f r].
  - split; [split; [intros _; now left|reflexivity]|].
    split; [intros H; now contradiction H|discriminate].
  - destruct (Qeq_bool (suma_flotante (map snd (f :: r))) 0%Q) eqn:E.
    + apply Qeq_bool_iff in E.
      split; [split; [intros _; now right|reflexivity]|].
      split; [intros H; now contradiction H|discriminate].
    + rewrite suma_productos_lanza by discriminate.
      split; [split; [discriminate|]|split; [reflexivity|discriminate]].
      intros [H|H]; [discriminate H|]. apply Qeq_bool_iff in H. congruence.
Qed.

End WeightedConfidence.

Section VeracityAnalysis.
Context {U : Unicode} {SF : SumaFlotante}.
Variables busca_nombres_propios busca_lugares : text -> bool.

(** The three weights are positive, so their sum is not zero. *)
Lemma peso_veracidad_positivo (mensaje : text) :
  (0 < suma_flotante
         (map snd (factores_veracidad busca_nombres_propios busca_lugares mensaje)))%Q.
Proof.
  apply suma_flotante_positiva;
    unfold factores_veracidad; cbv zeta; cbn [app map snd]; [discriminate|].
  repeat apply Forall_cons; [| |lra|apply Forall_nil].
  - destruct (_ <? 5)%nat; [lra|]. destruct (50 <? _)%nat; [lra|].
    match goal with
    | |- context [n2q ?n] => pose proof (n2q_nonneg n) as P
    end.
    assert (Q0 : (0 <= n2q (List.length (str_split (limpiar_texto mensaje))) / 100)%Q).
    { apply Qle_shift_div_l; lra. }
    lra.
  - assert (E : forall e, (1 # 2 <= e)%Q -> (0 < qmin 1 e)%Q).
    { intros e H. assert (G : (1 # 2 <= qmin 1 e)%Q) by (apply qmin_glb; lra). lra. }
    apply E.
    destruct (re_search false re_fecha_completa mensaje);
      destruct (busca_nombres_propios mensaje);
      destruct (busca_lugares mensaje); lra.
Qed.

Lemma analizar_veracidad_lanza (timestamp : text) (c : N) (m : text) :
  analizar_veracidad busca_nombres_propios busca_lugares timestamp (c :: m)
  = inl error_str_por_float.
Proof.
  unfold analizar_veracidad. cbv zeta.
  pose proof (peso_veracidad_positivo (c :: m)) as P.
  unfold calcular_confianza_basica.
  destruct (factores_veracidad busca_nombres_propios busca_lugares (c :: m))
    as [|f r] eqn:F.
  - discriminate F.
  - destruct (Qeq_bool (suma_flotante (map snd (f :: r))) 0%Q) eqn:E.
    + apply Qeq_bool_iff in E. lra.
    + now rewrite suma_productos_lanza by discriminate.
Qed.

(** X18. [analizar_veracidad] returns only on the empty message, with the
    fixed result of level "BAJA" and confidence 0.1; on every other
    message the weights are positive and the call of
    [calcular_confianza_basica] raises TypeError, whatever the message
    holds. *)
Theorem veracidad_solo_del_mensaje_vacio (timestamp mensaje : text) :
  analizar_veracidad busca_nombres_propios busca_lugares timestamp mensaje
  = match mensaje with
    | [] => inr {| nivel_veracidad := T "BAJA";
                   ver_confianza := 1 # 10;
                   factores_analizados := [];
                   ver_metodo := T "analisis_simplificado";
                   ver_timestamp := timestamp |}
    | _ :: _ => inl error_str_por_float
    end.
Proof.
  destruct mensaje as [|c m]; [reflexivity|]. apply analizar_veracidad_lanza.
Qed.

Lemma lstrip_nil_blank (s : text) : lstrip s = [] -> forallb is_space s = true.
Proof.
  intros E. destruct (lstrip_decomp s) as (ws & D & F).
  rewrite E, app_nil_r in D. now subst ws.
Qed.

Lemma str_strip_blank_inv (s : text) : str_strip s = [] -> forallb is_space s = true.
Proof.
  unfold str_strip. intros E.
  apply (f_equal (@rev N)) in E. rewrite rev_involutive in E. cbn [rev] in E.
  apply lstrip_nil_blank in E.
  pose proof (lstrip_head s) as H.
  destruct (lstrip s) as [|c t] eqn:L; [now apply lstrip_nil_blank|].
  cbn [rev] in E. rewrite forallb_app in E. apply andb_prop in E.
  destruct E as [_ E]. cbn [forallb] in E. rewrite H in E. discriminate E.
Qed.

Variable C : Type.
Variable clasificar_denuncia : text -> text + C.

(** X19. Through the gestor without an OpenAI agent no complaint is ever
    processed successfully: a blank message gets the result "Mensaje
    vacío", and every other string comes back from the local agent in
    mode "local" with [procesamiento_exitoso] False, the error being that
    of [clasificar_denuncia] if it raises and the TypeError of the
    veracity analysis otherwise. *)
Theorem gestor_local_nunca_exitoso (reloj_veracidad reloj_agente timestamp : text)
    (self : AgenteIABase) (s : text) (forzar_modo : option text) :
  procesar_denuncia
    (agente_local_completo C clasificar_denuncia busca_nombres_propios busca_lugares
       reloj_veracidad reloj_agente self)
    None timestamp (VStr s) forzar_modo
  = inr (if forallb is_space s then MensajeVacio timestamp
         else Procesado (T "local")
                (Fallido reloj_agente (ag_nombre self)
                   match clasificar_denuncia s with
                   | inl e => e
                   | inr _ => error_str_por_float
                   end)).
Proof.
  destruct (forallb is_space s) eqn:B.
  - unfold procesar_denuncia. destruct s as [|c m]; [reflexivity|].
    cbn [truthy negb]. now rewrite (str_strip_blank _ B).
  - assert (N : s <> []) by (intros ->; discriminate B).
    assert (S0 : str_strip s <> []).
    { intros E. apply (str_strip_blank_inv s) in E. congruence. }
    unfold procesar_denuncia. destruct s as [|c m]; [now contradiction N|].
    cbn [truthy negb].
    destruct (str_strip (c :: m)) as [|c' m'] eqn:S1; [now contradiction S0|].
    cbn [truthy negb]. unfold agente_local_completo, procesar_denuncia_completo.
    rewrite analizar_veracidad_lanza.
    destruct (clasificar_denuncia (c :: m)); reflexivity.
Qed.

End VeracityAnalysis.
